(** * terraform-provider-sops: the encryption path and the .sops.yaml renderer

    A shallow embedding of [internal/sopsencrypt/encrypt.go] (both halves:
    the envelope encryption entry points and [GenerateSOPSConfig]) and of the
    [Create] path of the two resources in [internal/provider].

    Go functions are translated one to one.  A Go result [(v, err)] is a pair
    whose second component is an [option error] ([None] is [nil]).  Calls that
    leave the process (crypto/rand, the Vault HTTP API, the clock, the SOPS
    library) are answered by an environment of oracles and recorded in an
    event log, which is the only state that is threaded through. *)

From Stdlib Require Import ZArith Lia Strings.Byte Strings.Ascii.
From stdpp Require Import base option list strings gmap.

Open Scope string_scope.
Open Scope list_scope.

(* ===================================================================== *)
(** * Go values                                                            *)
(* ===================================================================== *)

Module Go.

(** The [error] interface.  Every error built in this repository is either a
    plain message ([fmt.Errorf] without a verb for an error) or
    [fmt.Errorf("<prefix>: %w", cause)]. *)
Inductive error : Type :=
| ErrorString (msg : string)
| WrapError (prefix : string) (cause : error).

Fixpoint Error (e : error) : string :=
  match e with
  | ErrorString msg => msg
  | WrapError prefix cause => prefix +:+ ": " +:+ Error cause
  end.

Definition Unwrap (e : error) : option error :=
  match e with
  | ErrorString _ => None
  | WrapError _ cause => Some cause
  end.

(** [errors.Is]-style reachability along the [Unwrap] chain. *)
Fixpoint Surfaces (cause e : error) : Prop :=
  e = cause \/
  match e with
  | ErrorString _ => False
  | WrapError _ inner => Surfaces cause inner
  end.

(** A value of type [interface{}] as decoded from a JSON response. *)
Inductive iface : Type :=
| INil
| IString (s : string)
| IBool (b : bool)
| INumber (n : Z)
| IComposite.

(** [v, ok := x.(string)] where [x] is the result of indexing a map: a
    missing key (or a nil map) yields the nil interface. *)
Definition assertString (x : option iface) : string * bool :=
  match x with
  | Some (IString s) => (s, true)
  | _ => ("", false)
  end.

(** [[]byte] *)
Definition bytes : Type := list byte.

(** [make([]byte, n)] *)
Definition make (n : nat) : bytes := replicate n Byte.x00.

(** What a reader that delivers [src] leaves in the buffer [buf]: the prefix
    is overwritten, the length of the buffer never changes. *)
Definition fill (buf src : bytes) : bytes :=
  take (length buf) (src ++ drop (length src) buf).

(** How a call ends: it returns, or the goroutine panics. *)
Inductive Outcome (A : Type) : Type :=
| Ret (a : A)
| Panic (msg : string).
Arguments Ret {A} a.
Arguments Panic {A} msg.

(** [strings.HasSuffix] *)
Fixpoint HasSuffix (s suffix : string) : bool :=
  if String.eqb s suffix then true
  else match s with
       | EmptyString => false
       | String _ s' => HasSuffix s' suffix
       end.

Fixpoint containsByte (c : ascii) (cutset : string) : bool :=
  match cutset with
  | EmptyString => false
  | String d rest => if Ascii.eqb c d then true else containsByte c rest
  end.

(** [strings.TrimRight] for a cutset of ASCII characters: every trailing
    byte that belongs to the cutset is dropped. *)
Fixpoint TrimRight (s cutset : string) : string :=
  match s with
  | EmptyString => EmptyString
  | String c s' =>
      match TrimRight s' cutset with
      | EmptyString => if containsByte c cutset then EmptyString
                       else String c EmptyString
      | t => String c t
      end
  end.

End Go.
Export Go.

(* ===================================================================== *)
(** * The outside world                                                    *)
(* ===================================================================== *)

(** [vaultapi.Client], reduced to what this repository sets and reads. *)
Record Client : Type := mkClient {
  Address : string;
  Token : string;
}.

Record SecretAuth : Type := { ClientToken : string }.

(** [vaultapi.Secret]: [Data] is a [map[string]interface{}] (a nil map and an
    empty one answer every lookup alike), [Auth] a pointer. *)
Record Secret : Type := mkSecret {
  Data : gmap string iface;
  Auth : option SecretAuth;
}.

(** [time.Time], as seconds since the epoch in UTC. *)
Definition Instant : Type := Z.

(** Everything that crosses the process boundary, in program order. *)
Inductive Event : Type :=
| EvRandRead (n : nat)
| EvVaultWrite (c : Client) (path : string) (payload : gmap string iface)
| EvNow
| EvEncryptTree.

Definition Log : Type := list Event.

Definition isVaultWrite (e : Event) : bool :=
  match e with EvVaultWrite _ _ _ => true | _ => false end.

Definition isEncryptTree (e : Event) : bool :=
  match e with EvEncryptTree => true | _ => false end.

(** Number of requests the Vault endpoint has received. *)
Definition vaultRequests (l : Log) : nat := length (List.filter isVaultWrite l).

(** Number of times the tree walker has run. *)
Definition treeEncryptions (l : Log) : nat := length (List.filter isEncryptTree l).

(** Computations that may touch the outside world: they extend the log and
    either return or panic. *)
Definition M (A : Type) : Type := Log -> Outcome A * Log.

Definition ret {A} (a : A) : M A := fun l => (Ret a, l).

Definition bind {A B} (m : M A) (k : A -> M B) : M B :=
  fun l =>
    match m l with
    | (Ret a, l') => k a l'
    | (Panic msg, l') => (Panic msg, l')
    end.

Definition panic {A} (msg : string) : M A := fun l => (Panic msg, l).

(** An external call: the oracle answers from the history so far, and the
    call is appended to the history. *)
Definition call {A} (ev : Event) (answer : Log -> A) : M A :=
  fun l => (Ret (answer l), l ++ [ev]).

(** The notations [x ← m; k] and ['(x, err) ← m; k] of stdpp sequence two
    such computations, as two consecutive Go statements do. *)
#[global] Instance M_ret : MRet M := @ret.
#[global] Instance M_bind : MBind M := fun A B k m => bind m k.

(* ===================================================================== *)
(** * github.com/getsops/sops/v3: the types the repository builds          *)
(* ===================================================================== *)

Module sops.

(** Modelled from the spec: the value model of a parsed document
    ([sops.TreeBranches], declared in the SOPS library and not in this
    repository).  Section 3 of the specification: a [Scalar] is a string, a
    number, a boolean or null; a [Mapping] is an ordered sequence of
    key/value pairs; a [Sequence] is an ordered list; an [EncryptedLeaf]
    replaces a scalar and holds ciphertext, nonce, tag and the type tag of
    the scalar it replaces.  A number is kept as its decimal literal. *)
Inductive ScalarValue : Type :=
| SString (s : string)
| SNumber (literal : string)
| SBool (b : bool)
| SNull.

(** Modelled from the spec: the type tag an [EncryptedLeaf] keeps of the
    scalar it replaces (section 3), one tag per kind of scalar. *)
Inductive ScalarType : Type := TString | TNumber | TBool | TNull.

Definition typeOf (v : ScalarValue) : ScalarType :=
  match v with
  | SString _ => TString
  | SNumber _ => TNumber
  | SBool _ => TBool
  | SNull => TNull
  end.

(** Modelled from the spec: [DocumentTree] and [EncryptedLeaf] of section 3,
    in one type, since an encrypted leaf takes the place of a scalar. *)
#[local] Unset Elimination Schemes.
Inductive DocumentTree : Type :=
| Scalar (v : ScalarValue)
| EncryptedLeaf (ciphertext nonce tag : bytes) (ty : ScalarType)
| Mapping (items : list (string * DocumentTree))
| Sequence (items : list DocumentTree).
#[local] Set Elimination Schemes.

(** [hcvault.MasterKey], the fields [encryptDocument] fills in. *)
Record MasterKey : Type := mkMasterKey {
  VaultAddress : string;
  EnginePath : string;
  KeyName : string;
  EncryptedKey : string;
  CreationDate : Instant;
}.

(** [sops.Metadata].  [encryptDocument] sets the six fields named here; the
    remaining ones (the library fills them during encryption) are kept as
    name/value pairs and start out empty, which is their Go zero value. *)
Record Metadata : Type := mkMetadata {
  KeyGroups : list (list MasterKey);
  Version : string;
  UnencryptedSuffix : string;
  EncryptedSuffix : string;
  UnencryptedRegex : string;
  EncryptedRegex : string;
  Remaining : list (string * string);
}.

(** [sops.Tree] for a single document. *)
Record Tree : Type := mkTree {
  Branches : DocumentTree;
  TreeMetadata : Metadata;
}.

End sops.

(** The document a [yaml.Encoder] is asked to write. *)
Module yaml.

#[local] Unset Elimination Schemes.
Inductive Node : Type :=
| ScalarNode (value : string)
| MappingNode (fields : list (string * Node))
| SequenceNode (items : list Node).
#[local] Set Elimination Schemes.

End yaml.

(** The libraries and services [encrypt.go] calls.  Pure library functions
    are plain functions; anything that depends on the world answers from the
    log of what has happened so far. *)
Record Env : Type := mkEnv {
  (** [sopsversion.Version] *)
  sopsVersion : string;
  (** [(&sopsjson.Store{}).LoadPlainFile] *)
  LoadPlainFile : bytes -> sops.DocumentTree * option error;
  (** [crypto/rand.Read]: the bytes delivered, and the error *)
  rand_Read : Log -> nat -> bytes * option error;
  (** [base64.StdEncoding.EncodeToString] *)
  base64_EncodeToString : bytes -> string;
  (** [vaultapi.NewClient(cfg)] for [cfg := vaultapi.DefaultConfig()] with
      [cfg.Address] set to the given address: the error.  [DefaultConfig]
      reads the process environment (the first argument: [VAULT_AGENT_ADDR],
      [VAULT_CACERT] and the like), so whether a client can be built depends
      on it and not on the address alone *)
  vault_NewClient : (string -> string) -> string -> option error;
  (** [client.Address()] of the client so built: where its requests go.
      The environment can direct the client elsewhere than the address given
      ([VAULT_AGENT_ADDR]) *)
  vault_Address : (string -> string) -> string -> string;
  (** [client.Logical().Write]: a secret may be nil without an error *)
  Logical_Write : Log -> Client -> string -> gmap string iface ->
                  option Secret * option error;
  (** [time.Now().UTC()] *)
  time_Now : Log -> Instant;
  (** [common.EncryptTree] with [aes.NewCipher()]: the tree it leaves behind *)
  EncryptTree : Log -> bytes -> sops.Tree -> sops.Tree * option error;
  (** [(&sopsjson.Store{}).EmitEncryptedFile] *)
  EmitEncryptedJSON : sops.Tree -> bytes * option error;
  (** [(&sopsyaml.Store{}).EmitEncryptedFile] *)
  EmitEncryptedYAML : sops.Tree -> bytes * option error;
  (** [json.Indent(&buf, src, prefix, indent)]: what is written to [buf] *)
  json_Indent : bytes -> string -> string -> bytes * option error;
  (** [enc.Encode(v)] of a [yaml.Encoder] with [SetIndent(indent)]: what is
      written to the buffer *)
  yaml_Encode : nat -> yaml.Node -> bytes * option error;
  (** [enc.Close()] after that: what is flushed to the buffer *)
  yaml_Close : nat -> yaml.Node -> bytes * option error;
}.

(* ===================================================================== *)
(** * internal/sopsencrypt/encrypt.go                                      *)
(* ===================================================================== *)

Module sopsencrypt.

Record EncryptOpts : Type := mkEncryptOpts {
  UnencryptedSuffix : string;
  EncryptedSuffix : string;
  UnencryptedRegex : string;
  EncryptedRegex : string;
  PrettyJSON : bool;
}.

Section WithEnv.
Context (env : Env).
(** [os.Getenv]: the environment of the process, which the Vault client
    library consults when a client is built *)
Context (Getenv : string -> string).

(** [generateDataKey] *)
Definition generateDataKey : M (bytes * option error) :=
  let key := make 32 in
  '(delivered, err) ← call (EvRandRead (length key)) (fun l => rand_Read env l (length key));
  let key := fill key delivered in
  match err with
  | Some e => mret ([], Some (WrapError "generating data key" e))
  | None => mret (key, None)
  end.

(** [wrapDataKey] *)
Definition wrapDataKey (client : Client) (transitPath keyName : string)
    (dataKey : bytes) : M (string * option error) :=
  let path := transitPath +:+ "/encrypt/" +:+ keyName in
  let payload : gmap string iface :=
    {[ "plaintext" := IString (base64_EncodeToString env dataKey) ]} in
  '(secret, err) ← call (EvVaultWrite client path payload)
                        (fun l => Logical_Write env l client path payload);
  match err with
  | Some e =>
      mret ("", Some (WrapError ("vault transit encrypt (" +:+ path +:+ ")") e))
  | None =>
      match secret with
      | None => panic "invalid memory address or nil pointer dereference"
      | Some secret =>
          let '(ct, ok) := assertString (Data secret !! "ciphertext") in
          if negb ok then
            mret ("", Some (ErrorString
                    "unexpected vault response: ciphertext not a string"))
          else mret (ct, None)
      end
  end.

(** [encryptDocument] *)
Definition encryptDocument (client : Client)
    (transitPath keyName jsonContent : string) (opts : EncryptOpts)
    (emit : sops.Tree -> bytes * option error) : M (bytes * option error) :=
  let '(branches, err) := LoadPlainFile env (String.list_byte_of_string jsonContent) in
  match err with
  | Some e => mret ([], Some (WrapError "parsing content as JSON" e))
  | None =>
  '(dataKey, err) ← generateDataKey;
  match err with
  | Some e => mret ([], Some e)
  | None =>
  '(encryptedKey, err) ← wrapDataKey client transitPath keyName dataKey;
  match err with
  | Some e => mret ([], Some e)
  | None =>
  now ← call EvNow (time_Now env);
  let masterKey := {|
    sops.VaultAddress := Address client;
    sops.EnginePath := transitPath;
    sops.KeyName := keyName;
    sops.EncryptedKey := encryptedKey;
    sops.CreationDate := now;
  |} in
  let tree := {|
    sops.Branches := branches;
    sops.TreeMetadata := {|
      sops.KeyGroups := [[masterKey]];
      sops.Version := sopsVersion env;
      sops.UnencryptedSuffix := UnencryptedSuffix opts;
      sops.EncryptedSuffix := EncryptedSuffix opts;
      sops.UnencryptedRegex := UnencryptedRegex opts;
      sops.EncryptedRegex := EncryptedRegex opts;
      sops.Remaining := [];
    |};
  |} in
  '(tree, err) ← call EvEncryptTree (fun l => EncryptTree env l dataKey tree);
  match err with
  | Some e => mret ([], Some (WrapError "encrypting tree" e))
  | None =>
  let '(out, err) := emit tree in
  match err with
  | Some e => mret ([], Some (WrapError "emitting encrypted document" e))
  | None => mret (out, None)
  end end end end end.

(** [EncryptToJSON] *)
Definition EncryptToJSON (client : Client)
    (transitPath keyName jsonContent : string) (opts : EncryptOpts)
    : M (string * option error) :=
  '(out, err) ← encryptDocument client transitPath keyName jsonContent opts
                  (EmitEncryptedJSON env);
  match err with
  | Some e => mret ("", Some e)
  | None =>
      if PrettyJSON opts then
        let '(buf, err) := json_Indent env out "" "  " in
        match err with
        | Some e => mret ("", Some (WrapError "pretty-printing JSON" e))
        | None => mret (String.string_of_list_byte buf, None)
        end
      else mret (String.string_of_list_byte out, None)
  end.

(** [EncryptToYAML] *)
Definition EncryptToYAML (client : Client)
    (transitPath keyName jsonContent : string) (opts : EncryptOpts)
    : M (string * option error) :=
  '(out, err) ← encryptDocument client transitPath keyName jsonContent opts
                  (EmitEncryptedYAML env);
  match err with
  | Some e => mret ("", Some e)
  | None => mret (String.string_of_list_byte out, None)
  end.

(** [NewVaultClient].  The function takes no environment as an argument,
    but [vaultapi.DefaultConfig()] reads the one of the process before
    [cfg.Address] is set: the error and the address of the client depend on
    it.  [SetToken] replaces whatever token the library found there. *)
Definition NewVaultClient (address token : string) : option Client * option error :=
  match vault_NewClient env Getenv address with
  | Some e => (None, Some (WrapError "creating vault client" e))
  | None =>
      (Some {| Address := vault_Address env Getenv address; Token := token |}, None)
  end.

(** [AppRoleLogin] *)
Definition AppRoleLogin (address approlePath roleID secretID : string)
    : M (string * option error) :=
  match NewVaultClient address "" with
  | (_, Some e) => mret ("", Some e)
  | (None, None) => panic "invalid memory address or nil pointer dereference"
  | (Some client, None) =>
      let path := "auth/" +:+ approlePath +:+ "/login" in
      let payload : gmap string iface :=
        {[ "role_id" := IString roleID; "secret_id" := IString secretID ]} in
      '(secret, err) ← call (EvVaultWrite client path payload)
                            (fun l => Logical_Write env l client path payload);
      match err with
      | Some e =>
          mret ("", Some (WrapError ("approle login at auth/" +:+ approlePath
                                      +:+ "/login") e))
      | None =>
          match secret with
          | None =>
              mret ("", Some (ErrorString
                      "approle login: empty auth response from Vault"))
          | Some s =>
              match Auth s with
              | None =>
                  mret ("", Some (ErrorString
                          "approle login: empty auth response from Vault"))
              | Some a => mret (ClientToken a, None)
              end
          end
      end
  end.

(** [sopsCreationRule], with its struct tags
    [yaml:"path_regex,omitempty"] and [yaml:"hc_vault_transit_uri"]. *)
Record sopsCreationRule : Type := mkRule {
  PathRegex : string;
  HCVaultTransitURI : string;
}.

(** [sopsFileConfig], with its struct tag [yaml:"creation_rules"]. *)
Record sopsFileConfig : Type := { CreationRules : list sopsCreationRule }.

(** What the struct tags make of a rule: fields in declaration order, and
    [omitempty] drops [path_regex] when the string is empty. *)
Definition marshalRule (r : sopsCreationRule) : yaml.Node :=
  yaml.MappingNode
    ((if String.eqb (PathRegex r) "" then []
      else [("path_regex", yaml.ScalarNode (PathRegex r))])
     ++ [("hc_vault_transit_uri", yaml.ScalarNode (HCVaultTransitURI r))]).

Definition marshalConfig (cfg : sopsFileConfig) : yaml.Node :=
  yaml.MappingNode
    [("creation_rules", yaml.SequenceNode (map marshalRule (CreationRules cfg)))].

(** [len] of a slice that may be nil. *)
Definition len {A} (s : option (list A)) : nat :=
  match s with
  | None => 0
  | Some l => length l
  end.

(** [for i, re := range pathRegexes { rules[i] = ... }] *)
Fixpoint rangeRules (uri : string) (i : nat) (pathRegexes : list string)
    (rules : list sopsCreationRule) : list sopsCreationRule :=
  match pathRegexes with
  | [] => rules
  | re :: rest =>
      rangeRules uri (S i) rest
        (<[i := {| PathRegex := re; HCVaultTransitURI := uri |}]> rules)
  end.

(** The [rules] slice [GenerateSOPSConfig] hands to the encoder. *)
Definition creationRules (vaultAddress transitPath keyName : string)
    (pathRegexes : option (list string)) : list sopsCreationRule :=
  let uri := TrimRight vaultAddress "/" +:+ "/v1/" +:+ transitPath
             +:+ "/keys/" +:+ keyName in
  if (len pathRegexes =? 0)%nat then
    [{| PathRegex := ""; HCVaultTransitURI := uri |}]
  else
    let res := default [] pathRegexes in
    rangeRules uri 0 res
      (replicate (length res) {| PathRegex := ""; HCVaultTransitURI := "" |}).

(** The encoder session of [GenerateSOPSConfig]: [yaml.NewEncoder(&buf)],
    [SetIndent(2)], [Encode], [Close], [buf.String()]. *)
Definition encodeYAML (doc : yaml.Node) : string * option error :=
  let '(written, err) := yaml_Encode env 2 doc in
  match err with
  | Some e => ("", Some (WrapError "marshaling sops config" e))
  | None =>
      let '(flushed, err) := yaml_Close env 2 doc in
      match err with
      | Some e => ("", Some (WrapError "closing yaml encoder" e))
      | None => (String.string_of_list_byte (written ++ flushed), None)
      end
  end.

(** [GenerateSOPSConfig] *)
Definition GenerateSOPSConfig (vaultAddress transitPath keyName : string)
    (pathRegexes : option (list string)) : string * option error :=
  let rules := creationRules vaultAddress transitPath keyName pathRegexes in
  let cfg := {| CreationRules := rules |} in
  encodeYAML (marshalConfig cfg).

End WithEnv.

End sopsencrypt.

(* ===================================================================== *)
(** * internal/provider                                                    *)
(* ===================================================================== *)

Module provider.

(** [types.String]: null, unknown, or a known value.  [ValueString] is the
    empty string for the first two. *)
Inductive tfString : Type :=
| StringNull
| StringUnknown
| StringValue (s : string).

Definition IsNull (v : tfString) : bool :=
  match v with StringNull => true | _ => false end.

Definition IsUnknown (v : tfString) : bool :=
  match v with StringUnknown => true | _ => false end.

Definition ValueString (v : tfString) : string :=
  match v with StringValue s => s | _ => "" end.

(** [types.Bool] *)
Inductive tfBool : Type :=
| BoolNull
| BoolUnknown
| BoolValue (b : bool).

Definition ValueBool (v : tfBool) : bool :=
  match v with BoolValue b => b | _ => false end.

Inductive Severity : Type := SeverityError | SeverityWarning.

Record Diagnostic : Type := mkDiag {
  severity : Severity;
  summary : string;
  detail : string;
}.

Definition Diagnostics : Type := list Diagnostic.

Definition isError (d : Diagnostic) : bool :=
  match severity d with SeverityError => true | SeverityWarning => false end.

(** [diags.HasError()] *)
Definition HasError (ds : Diagnostics) : bool := existsb isError ds.

(** [diags.AddError(summary, detail)] *)
Definition AddError (ds : Diagnostics) (summary detail : string) : Diagnostics :=
  ds ++ [mkDiag SeverityError summary detail].

Record sopsProviderData : Type := {
  vaultAddress : string;
  vaultToken : string;
  vaultTransitEngine : string;
}.

(** The loop of [validateScope], shared by both resources: count the
    attributes that are neither null nor unknown nor empty. *)
Definition scopeIsSet (v : tfString) : bool :=
  negb (IsNull v) && negb (IsUnknown v) && negb (String.eqb (ValueString v) "").

Definition countSet (vs : list tfString) : nat :=
  fold_left (fun set v => if scopeIsSet v then S set else set) vs 0.

Definition scopeError : error :=
  ErrorString "at most one of unencrypted_suffix, encrypted_suffix, unencrypted_regex, encrypted_regex may be set".

(** resource_encrypted_json.go *)
Module encryptedJSON.

Record encryptedJSONModel : Type := mkModel {
  ID : tfString;
  Content : tfString;
  VaultKeyName : tfString;
  UnencryptedSuffix : tfString;
  EncryptedSuffix : tfString;
  UnencryptedRegex : tfString;
  EncryptedRegex : tfString;
  Pretty : tfBool;
  Ciphertext : tfString;
}.

(** [encryptedJSONResource]: [pd] is a pointer. *)
Record encryptedJSONResource : Type := { pd : option sopsProviderData }.

(** [resource.CreateResponse], reduced to diagnostics and the state. *)
Record CreateResponse : Type := mkResponse {
  RespDiagnostics : Diagnostics;
  State : option encryptedJSONModel;
}.

Definition validateScope (data : encryptedJSONModel) : option error :=
  let set := countSet [UnencryptedSuffix data; EncryptedSuffix data;
                       UnencryptedRegex data; EncryptedRegex data] in
  if (1 <? set)%nat then Some scopeError else None.

Section WithEnv.
Context (env : Env).
(** [os.Getenv], for the client that [encrypt] builds *)
Context (Getenv : string -> string).
(** [resp.State.Set(ctx, &data)]: the diagnostics of the framework *)
Context (State_Set : encryptedJSONModel -> Diagnostics).

Definition encrypt (r : encryptedJSONResource) (data : encryptedJSONModel)
    : M (string * option error) :=
  match pd r with
  | None => panic "invalid memory address or nil pointer dereference"
  | Some pd =>
      match sopsencrypt.NewVaultClient env Getenv (vaultAddress pd) (vaultToken pd) with
      | (_, Some e) => mret ("", Some e)
      | (None, None) => panic "invalid memory address or nil pointer dereference"
      | (Some client, None) =>
          let opts := {|
            sopsencrypt.UnencryptedSuffix := ValueString (UnencryptedSuffix data);
            sopsencrypt.EncryptedSuffix := ValueString (EncryptedSuffix data);
            sopsencrypt.UnencryptedRegex := ValueString (UnencryptedRegex data);
            sopsencrypt.EncryptedRegex := ValueString (EncryptedRegex data);
            sopsencrypt.PrettyJSON := ValueBool (Pretty data);
          |} in
          sopsencrypt.EncryptToJSON env client (vaultTransitEngine pd)
            (ValueString (VaultKeyName data)) (ValueString (Content data)) opts
      end
  end.

(** [Create].  [plan] is what [req.Plan.Get(ctx, &data)] decodes and
    reports; [resp] is the response as the framework hands it in. *)
Definition Create (r : encryptedJSONResource)
    (plan : encryptedJSONModel * Diagnostics) (resp : CreateResponse)
    : M CreateResponse :=
  let '(data, diags) := plan in
  let resp := mkResponse (RespDiagnostics resp ++ diags) (State resp) in
  if HasError (RespDiagnostics resp) then mret resp
  else
    match validateScope data with
    | Some err =>
        mret (mkResponse
                (AddError (RespDiagnostics resp) "Invalid scope configuration"
                   (Error err))
                (State resp))
    | None =>
        '(ciphertext, err) ← encrypt r data;
        match err with
        | Some err =>
            mret (mkResponse
                    (AddError (RespDiagnostics resp) "SOPS encryption failed"
                       (Error err))
                    (State resp))
        | None =>
            let data := mkModel (StringValue (ValueString (VaultKeyName data)))
                          (Content data) (VaultKeyName data)
                          (UnencryptedSuffix data) (EncryptedSuffix data)
                          (UnencryptedRegex data) (EncryptedRegex data)
                          (Pretty data) (StringValue ciphertext) in
            mret (mkResponse (RespDiagnostics resp ++ State_Set data) (Some data))
        end
    end.

End WithEnv.

End encryptedJSON.

(** resource_encrypted_yaml.go *)
Module encryptedYAML.

Record encryptedYAMLModel : Type := mkModel {
  ID : tfString;
  Content : tfString;
  VaultKeyName : tfString;
  UnencryptedSuffix : tfString;
  EncryptedSuffix : tfString;
  UnencryptedRegex : tfString;
  EncryptedRegex : tfString;
  Ciphertext : tfString;
}.

Record encryptedYAMLResource : Type := { pd : option sopsProviderData }.

Record CreateResponse : Type := mkResponse {
  RespDiagnostics : Diagnostics;
  State : option encryptedYAMLModel;
}.

Definition validateScope (data : encryptedYAMLModel) : option error :=
  let set := countSet [UnencryptedSuffix data; EncryptedSuffix data;
                       UnencryptedRegex data; EncryptedRegex data] in
  if (1 <? set)%nat then Some scopeError else None.

Section WithEnv.
Context (env : Env).
Context (Getenv : string -> string).
Context (State_Set : encryptedYAMLModel -> Diagnostics).

Definition encrypt (r : encryptedYAMLResource) (data : encryptedYAMLModel)
    : M (string * option error) :=
  match pd r with
  | None => panic "invalid memory address or nil pointer dereference"
  | Some pd =>
      match sopsencrypt.NewVaultClient env Getenv (vaultAddress pd) (vaultToken pd) with
      | (_, Some e) => mret ("", Some e)
      | (None, None) => panic "invalid memory address or nil pointer dereference"
      | (Some client, None) =>
          let opts := {|
            sopsencrypt.UnencryptedSuffix := ValueString (UnencryptedSuffix data);
            sopsencrypt.EncryptedSuffix := ValueString (EncryptedSuffix data);
            sopsencrypt.UnencryptedRegex := ValueString (UnencryptedRegex data);
            sopsencrypt.EncryptedRegex := ValueString (EncryptedRegex data);
            sopsencrypt.PrettyJSON := false;
          |} in
          sopsencrypt.EncryptToYAML env client (vaultTransitEngine pd)
            (ValueString (VaultKeyName data)) (ValueString (Content data)) opts
      end
  end.

Definition Create (r : encryptedYAMLResource)
    (plan : encryptedYAMLModel * Diagnostics) (resp : CreateResponse)
    : M CreateResponse :=
  let '(data, diags) := plan in
  let resp := mkResponse (RespDiagnostics resp ++ diags) (State resp) in
  if HasError (RespDiagnostics resp) then mret resp
  else
    match validateScope data with
    | Some err =>
        mret (mkResponse
                (AddError (RespDiagnostics resp) "Invalid scope configuration"
                   (Error err))
                (State resp))
    | None =>
        '(ciphertext, err) ← encrypt r data;
        match err with
        | Some err =>
            mret (mkResponse
                    (AddError (RespDiagnostics resp) "SOPS encryption failed"
                       (Error err))
                    (State resp))
        | None =>
            let data := mkModel (StringValue (ValueString (VaultKeyName data)))
                          (Content data) (VaultKeyName data)
                          (UnencryptedSuffix data) (EncryptedSuffix data)
                          (UnencryptedRegex data) (EncryptedRegex data)
                          (StringValue ciphertext) in
            mret (mkResponse (RespDiagnostics resp ++ State_Set data) (Some data))
        end
    end.

End WithEnv.

End encryptedYAML.

End provider.

(* ===================================================================== *)
(** * internal/provider/provider.go                                        *)
(* ===================================================================== *)

Module providerConfig.
Import provider.

Record sopsProviderModel : Type := mkProviderModel {
  VaultAddress : tfString;
  VaultToken : tfString;
  VaultTransitEngine : tfString;
  VaultRoleID : tfString;
  VaultSecretID : tfString;
  VaultApprolePath : tfString;
}.

(** [provider.ConfigureResponse]: the diagnostics and the two slots the
    provider fills with the pointer to its data. *)
Record ConfigureResponse : Type := mkConfigureResponse {
  ConfDiagnostics : Diagnostics;
  DataSourceData : option sopsProviderData;
  ResourceData : option sopsProviderData;
}.

Section WithEnv.
Context (env : Env).
(** [os.Getenv]: the value of a variable, empty when it is not set *)
Context (Getenv : string -> string).

(** [resolveString] *)
Definition resolveString (attr : tfString) (envVar : string) : string :=
  if negb (IsNull attr) && negb (IsUnknown attr)
     && negb (String.eqb (ValueString attr) "")
  then ValueString attr
  else Getenv envVar.

(** [resolveStringDefault] *)
Definition resolveStringDefault (attr : tfString) (defaultVal : string) : string :=
  if negb (IsNull attr) && negb (IsUnknown attr)
     && negb (String.eqb (ValueString attr) "")
  then ValueString attr
  else defaultVal.

(** [resp.Diagnostics.AddError(summary, detail)] on a response *)
Definition failWith (resp : ConfigureResponse) (summary detail : string)
    : ConfigureResponse :=
  mkConfigureResponse (AddError (ConfDiagnostics resp) summary detail)
    (DataSourceData resp) (ResourceData resp).

(** [Configure].  [config] is what [req.Config.Get(ctx, &config)] decodes
    and reports. *)
Definition Configure (config : sopsProviderModel * Diagnostics)
    (resp : ConfigureResponse) : M ConfigureResponse :=
  let '(config, diags) := config in
  let resp := mkConfigureResponse (ConfDiagnostics resp ++ diags)
                (DataSourceData resp) (ResourceData resp) in
  if HasError (ConfDiagnostics resp) then mret resp
  else
  let vaultAddress := resolveString (VaultAddress config) "VAULT_ADDR" in
  let vaultTransitEngine :=
    resolveStringDefault (VaultTransitEngine config) "transit" in
  if String.eqb vaultAddress "" then
    mret (failWith resp "Missing Vault address"
            "Set vault_address in the provider block or the VAULT_ADDR environment variable.")
  else
  let vaultToken := resolveString (VaultToken config) "VAULT_TOKEN" in
  let roleID := resolveString (VaultRoleID config) "VAULT_ROLE_ID" in
  let secretID := resolveString (VaultSecretID config) "VAULT_SECRET_ID" in
  let hasToken := negb (String.eqb vaultToken "") in
  let hasAppRole :=
    negb (String.eqb roleID "") || negb (String.eqb secretID "") in
  if hasToken && hasAppRole then
    mret (failWith resp "Conflicting Vault credentials"
            "Provide either vault_token or AppRole credentials (vault_role_id + vault_secret_id), not both.")
  else
  let finish (vaultToken : string) : M ConfigureResponse :=
    let pd := {| vaultAddress := vaultAddress;
                 vaultToken := vaultToken;
                 vaultTransitEngine := vaultTransitEngine |} in
    mret (mkConfigureResponse (ConfDiagnostics resp) (Some pd) (Some pd)) in
  if hasToken then finish vaultToken
  else if negb (String.eqb roleID "") && negb (String.eqb secretID "") then
    let approlePath :=
      resolveStringDefault (VaultApprolePath config) "approle" in
    '(token, err) ← sopsencrypt.AppRoleLogin env Getenv vaultAddress approlePath
                      roleID secretID;
    match err with
    | Some err =>
        mret (failWith resp "AppRole authentication failed" (Error err))
    | None => finish token
    end
  else if negb (String.eqb roleID "") || negb (String.eqb secretID "") then
    mret (failWith resp "Incomplete AppRole credentials"
            "Both vault_role_id and vault_secret_id are required for AppRole authentication.")
  else
    mret (failWith resp "Missing Vault credentials"
            "Provide vault_token (or VAULT_TOKEN) or both vault_role_id and vault_secret_id for AppRole authentication.").

End WithEnv.

End providerConfig.

(* ===================================================================== *)
(** * The rest of the resources: Configure, Read, Update                   *)
(* ===================================================================== *)

Module lifecycle.
Import provider.

(** [req.ProviderData], a value of type [any]: nil, a pointer to the
    provider's data (which may itself be nil), or a value of another type,
    of which only the name that [%T] prints matters. *)
Inductive ProviderData : Type :=
| NoProviderData
| ProviderDataPtr (pd : option sopsProviderData)
| OtherProviderData (goType : string).

(** [Configure] of [encryptedJSONResource]: the resource it leaves and the
    diagnostics of the response. *)
Definition ConfigureJSON (r : encryptedJSON.encryptedJSONResource)
    (providerData : ProviderData) (diags : Diagnostics)
    : encryptedJSON.encryptedJSONResource * Diagnostics :=
  match providerData with
  | NoProviderData => (r, diags)
  | ProviderDataPtr pd => ({| encryptedJSON.pd := pd |}, diags)
  | OtherProviderData goType =>
      (r, AddError diags "Unexpected provider data type"
            ("Expected *sopsProviderData, got " +:+ goType))
  end.

(** [Configure] of [encryptedYAMLResource] *)
Definition ConfigureYAML (r : encryptedYAML.encryptedYAMLResource)
    (providerData : ProviderData) (diags : Diagnostics)
    : encryptedYAML.encryptedYAMLResource * Diagnostics :=
  match providerData with
  | NoProviderData => (r, diags)
  | ProviderDataPtr pd => ({| encryptedYAML.pd := pd |}, diags)
  | OtherProviderData goType =>
      (r, AddError diags "Unexpected provider data type"
            ("Expected *sopsProviderData, got " +:+ goType))
  end.

(** [Read] of [encryptedJSONResource].  [state] is what
    [req.State.Get(ctx, &data)] decodes and reports; the state is written
    back whatever was reported. *)
Definition ReadJSON (State_Set : encryptedJSON.encryptedJSONModel -> Diagnostics)
    (state : encryptedJSON.encryptedJSONModel * Diagnostics)
    (resp : encryptedJSON.CreateResponse) : encryptedJSON.CreateResponse :=
  let '(data, diags) := state in
  encryptedJSON.mkResponse
    ((encryptedJSON.RespDiagnostics resp ++ diags) ++ State_Set data) (Some data).

(** [Read] of [encryptedYAMLResource] *)
Definition ReadYAML (State_Set : encryptedYAML.encryptedYAMLModel -> Diagnostics)
    (state : encryptedYAML.encryptedYAMLModel * Diagnostics)
    (resp : encryptedYAML.CreateResponse) : encryptedYAML.CreateResponse :=
  let '(data, diags) := state in
  encryptedYAML.mkResponse
    ((encryptedYAML.RespDiagnostics resp ++ diags) ++ State_Set data) (Some data).

(** [Update] of [encryptedJSONResource] *)
Definition UpdateJSON (resp : encryptedJSON.CreateResponse)
    : encryptedJSON.CreateResponse :=
  encryptedJSON.mkResponse
    (AddError (encryptedJSON.RespDiagnostics resp) "unexpected update"
       "sops_encrypted_json does not support in-place updates")
    (encryptedJSON.State resp).

(** [Update] of [encryptedYAMLResource] *)
Definition UpdateYAML (resp : encryptedYAML.CreateResponse)
    : encryptedYAML.CreateResponse :=
  encryptedYAML.mkResponse
    (AddError (encryptedYAML.RespDiagnostics resp) "unexpected update"
       "sops_encrypted_yaml does not support in-place updates")
    (encryptedYAML.State resp).

End lifecycle.

(* ===================================================================== *)
(** * The data source sops_config                                          *)
(* ===================================================================== *)

Module sopsConfig.
Import provider.

(** [types.List] of strings *)
Inductive tfList : Type :=
| ListNull
| ListUnknown
| ListValue (elems : list tfString).

Definition ListIsNull (v : tfList) : bool :=
  match v with ListNull => true | _ => false end.

Definition ListIsUnknown (v : tfList) : bool :=
  match v with ListUnknown => true | _ => false end.

Record sopsConfigModel : Type := mkModel {
  ID : tfString;
  VaultKeyName : tfString;
  PathRegexes : tfList;
  Content : tfString;
}.

Record sopsConfigDataSource : Type := { pd : option sopsProviderData }.

(** [datasource.ReadResponse], reduced to diagnostics and the state. *)
Record ReadResponse : Type := mkResponse {
  RespDiagnostics : Diagnostics;
  State : option sopsConfigModel;
}.

Section WithEnv.
Context (env : Env).
(** [data.PathRegexes.ElementsAs(ctx, &pathRegexes, false)]: the slice it
    leaves in [pathRegexes] (which starts out nil) and its diagnostics *)
Context (ElementsAs : tfList -> option (list string) * Diagnostics).
(** [fmt.Sprintf("%x", sha256.Sum256([]byte(content)))] *)
Context (sha256Hex : string -> string).
(** [resp.State.Set(ctx, &data)] *)
Context (State_Set : sopsConfigModel -> Diagnostics).

(** [Read].  [config] is what [req.Config.Get(ctx, &data)] decodes and
    reports. *)
Definition Read (d : sopsConfigDataSource)
    (config : sopsConfigModel * Diagnostics) (resp : ReadResponse)
    : Outcome ReadResponse :=
  let '(data, diags) := config in
  let resp := mkResponse (RespDiagnostics resp ++ diags) (State resp) in
  if HasError (RespDiagnostics resp) then Ret resp
  else
  let '(pathRegexes, resp, stop) :=
    if negb (ListIsNull (PathRegexes data))
       && negb (ListIsUnknown (PathRegexes data))
    then
      let '(slice, diags) := ElementsAs (PathRegexes data) in
      let resp := mkResponse (RespDiagnostics resp ++ diags) (State resp) in
      (slice, resp, HasError (RespDiagnostics resp))
    else (None, resp, false) in
  if stop then Ret resp
  else
  match pd d with
  | None => Panic "invalid memory address or nil pointer dereference"
  | Some pd =>
      let '(content, err) :=
        sopsencrypt.GenerateSOPSConfig env (vaultAddress pd)
          (vaultTransitEngine pd) (ValueString (VaultKeyName data))
          pathRegexes in
      match err with
      | Some err =>
          Ret (mkResponse
                 (AddError (RespDiagnostics resp) "Failed to generate SOPS config"
                    (Error err))
                 (State resp))
      | None =>
          let data := mkModel (StringValue (sha256Hex content))
                        (VaultKeyName data) (PathRegexes data)
                        (StringValue content) in
          Ret (mkResponse (RespDiagnostics resp ++ State_Set data) (Some data))
      end
  end.

End WithEnv.

End sopsConfig.

(* ===================================================================== *)
(** * The tree walker of the SOPS library, after the specification         *)
(* ===================================================================== *)

Module EnvelopeEncryptor.
Import sops.

(** Modelled from the spec: the scope policy of section 3 (the tagged
    one-of that stands for the four nullable strings of [sops.Metadata]);
    the library code that reads these fields is not in this repository. *)
Inductive ScopePolicy : Type :=
| NoPolicy
| PUnencryptedSuffix (s : string)
| PEncryptedSuffix (s : string)
| PUnencryptedRegex (r : string)
| PEncryptedRegex (r : string).

(** Modelled from the spec: one step of the path from the root to a leaf,
    a mapping key or a sequence index (section 4.2). *)
Inductive PathComponent : Type :=
| Key (k : string)
| Index (i : nat).

(** Modelled from the spec: the non-empty scope fields of the metadata, in
    declaration order; the policy is the single active one, there is none
    when all four are empty, and two or more are a conflict (section 4.2,
    "Exactly one policy field may be active"). *)
Definition activePolicies (md : Metadata) : list ScopePolicy :=
  (if String.eqb (UnencryptedSuffix md) "" then []
   else [PUnencryptedSuffix (UnencryptedSuffix md)])
  ++ (if String.eqb (EncryptedSuffix md) "" then []
      else [PEncryptedSuffix (EncryptedSuffix md)])
  ++ (if String.eqb (UnencryptedRegex md) "" then []
      else [PUnencryptedRegex (UnencryptedRegex md)])
  ++ (if String.eqb (EncryptedRegex md) "" then []
      else [PEncryptedRegex (EncryptedRegex md)]).

(** Modelled from the spec: the policy of a document, or none when two or
    more fields are set (the [ScopeConflictError] of section 4.4). *)
Definition policyOf (md : Metadata) : option ScopePolicy :=
  match activePolicies md with
  | [] => Some NoPolicy
  | [p] => Some p
  | _ => None
  end.

(** Modelled from the spec: the key name a rule is matched on, the last
    mapping key of the path; sequence indices never match and an element of
    a sequence inherits the outcome of its enclosing mapping key (sections
    4.2 and 9). *)
Fixpoint leafName (path : list PathComponent) : option string :=
  match path with
  | [] => None
  | c :: rest =>
      match leafName rest with
      | Some k => Some k
      | None => match c with Key k => Some k | Index _ => None end
      end
  end.

Section Walker.
(** [regexp.MatchString pattern name] of the Go standard library *)
Context (regexMatch : string -> string -> bool).
(** the nonces drawn during one call, in the order they are drawn *)
Context (nonceAt : nat -> bytes).
(** AES-256-GCM: key, nonce, plaintext to ciphertext and tag *)
Context (aead : bytes -> bytes -> bytes -> bytes * bytes).
(** the canonical byte representation of a scalar *)
Context (canonical : ScalarValue -> bytes).

(** Modelled from the spec: a test on the key name of a path; a path
    without a mapping key matches nothing (section 4.2). *)
Definition nameMatches (test : string -> bool) (path : list PathComponent) : bool :=
  match leafName path with
  | Some name => test name
  | None => false
  end.

(** Modelled from the spec: [ScopeMatcher.shouldEncrypt] (section 4.2,
    "Rule evaluation"). *)
Definition shouldEncrypt (path : list PathComponent) (policy : ScopePolicy) : bool :=
  match policy with
  | NoPolicy => true
  | PUnencryptedSuffix s => negb (nameMatches (fun name => HasSuffix name s) path)
  | PEncryptedSuffix s => nameMatches (fun name => HasSuffix name s) path
  | PUnencryptedRegex r => negb (nameMatches (regexMatch r) path)
  | PEncryptedRegex r => nameMatches (regexMatch r) path
  end.

(** Modelled from the spec: the children of a node are visited from left to
    right (section 4.4, "depth-first"); the number of nonces drawn so far is
    threaded through, so that every leaf gets a nonce of its own. *)
Fixpoint visit {A B} (f : nat -> A -> nat -> B * nat) (i : nat) (l : list A)
    (drawn : nat) : list B * nat :=
  match l with
  | [] => ([], drawn)
  | x :: rest =>
      let '(y, drawn) := f i x drawn in
      let '(ys, drawn) := visit f (S i) rest drawn in
      (y :: ys, drawn)
  end.

(** Modelled from the spec: step 4 of section 4.4.  Depth first; a scalar
    the policy selects gets a fresh nonce and becomes an [EncryptedLeaf]
    that carries ciphertext, nonce, tag and the type tag; every other node
    keeps its shape. *)
Fixpoint walk (policy : ScopePolicy) (key : bytes) (path : list PathComponent)
    (t : DocumentTree) (drawn : nat) : DocumentTree * nat :=
  match t with
  | Scalar v =>
      if shouldEncrypt path policy then
        let nonce := nonceAt drawn in
        let '(ciphertext, tag) := aead key nonce (canonical v) in
        (EncryptedLeaf ciphertext nonce tag (typeOf v), S drawn)
      else (Scalar v, drawn)
  | EncryptedLeaf _ _ _ _ => (t, drawn)
  | Mapping items =>
      let '(items, drawn) :=
        visit (fun _ item drawn =>
                 let '(v, drawn) := walk policy key (path ++ [Key item.1]) item.2 drawn in
                 ((item.1, v), drawn)) 0 items drawn in
      (Mapping items, drawn)
  | Sequence items =>
      let '(items, drawn) :=
        visit (fun i item drawn => walk policy key (path ++ [Index i]) item drawn)
          0 items drawn in
      (Sequence items, drawn)
  end.

(** Modelled from the spec: [common.EncryptTree] as section 4.4 describes
    the encryptor: a conflicting policy is refused before a leaf is touched,
    otherwise the branches are walked and the metadata is kept. *)
Definition encrypt (key : bytes) (tree : Tree) : Tree * option error :=
  match policyOf (TreeMetadata tree) with
  | None => (tree, Some (ErrorString "more than one scope field set"))
  | Some policy =>
      ({| Branches := (walk policy key [] (Branches tree) 0).1;
          TreeMetadata := TreeMetadata tree |}, None)
  end.

End Walker.

(** The node at a position (child numbers from the root), with the path of
    keys and indices that leads to it. *)
Fixpoint nodeAt (pos : list nat) (path : list PathComponent) (t : DocumentTree)
    : option (list PathComponent * DocumentTree) :=
  match pos with
  | [] => Some (path, t)
  | i :: rest =>
      match t with
      | Mapping items =>
          match items !! i with
          | Some (k, v) => nodeAt rest (path ++ [Key k]) v
          | None => None
          end
      | Sequence items =>
          match items !! i with
          | Some v => nodeAt rest (path ++ [Index i]) v
          | None => None
          end
      | _ => None
      end
  end.

Definition isEncryptedLeaf (t : DocumentTree) : bool :=
  match t with EncryptedLeaf _ _ _ _ => true | _ => false end.

End EnvelopeEncryptor.

(* ===================================================================== *)
(** * What one encryption call asks of the outside world                   *)
(* ===================================================================== *)

(** The answers of the oracles at the points of the log where
    [encryptDocument] consults them, named so that statements about a call
    can refer to them. *)
Module Steps.
Import sopsencrypt.

Section OneCall.
Context (env : Env) (client : Client) (transitPath keyName jsonContent : string)
        (opts : EncryptOpts) (l : Log).

(** the parser's answer *)
Definition parsed : sops.DocumentTree * option error :=
  LoadPlainFile env (String.list_byte_of_string jsonContent).

(** the answer of crypto/rand, and the 32-byte buffer it leaves *)
Definition keyRead : bytes * option error := rand_Read env l 32.
Definition dataKey : bytes := fill (make 32) keyRead.1.
Definition afterKey : Log := l ++ [EvRandRead 32].

(** the one request to the transit endpoint, and its answer *)
Definition wrapPath : string := transitPath +:+ "/encrypt/" +:+ keyName.
Definition wrapPayload : gmap string iface :=
  {[ "plaintext" := IString (base64_EncodeToString env dataKey) ]}.
Definition wrapRequest : Event := EvVaultWrite client wrapPath wrapPayload.
Definition wrapAnswer : option Secret * option error :=
  Logical_Write env afterKey client wrapPath wrapPayload.
Definition afterWrap : Log := afterKey ++ [wrapRequest].

(** the token in a well-formed answer *)
Definition wrappedToken : option string :=
  match wrapAnswer with
  | (Some secret, None) =>
      match Data secret !! "ciphertext" with
      | Some (IString ct) => Some ct
      | _ => None
      end
  | _ => None
  end.

(** the tree handed to the library, and what the library leaves of it *)
Definition plainTree (encryptedKey : string) : sops.Tree :=
  {| sops.Branches := parsed.1;
     sops.TreeMetadata := {|
       sops.KeyGroups := [[ {| sops.VaultAddress := Address client;
                               sops.EnginePath := transitPath;
                               sops.KeyName := keyName;
                               sops.EncryptedKey := encryptedKey;
                               sops.CreationDate := time_Now env afterWrap |} ]];
       sops.Version := sopsVersion env;
       sops.UnencryptedSuffix := UnencryptedSuffix opts;
       sops.EncryptedSuffix := EncryptedSuffix opts;
       sops.UnencryptedRegex := UnencryptedRegex opts;
       sops.EncryptedRegex := EncryptedRegex opts;
       sops.Remaining := [] |} |}.
Definition afterNow : Log := afterWrap ++ [EvNow].
Definition treeAnswer (encryptedKey : string) : sops.Tree * option error :=
  EncryptTree env afterNow dataKey (plainTree encryptedKey).
Definition afterTree : Log := afterNow ++ [EvEncryptTree].

(** How the key-wrap call can fail in the eyes of [wrapDataKey]: the client
    reports an error, or the secret carries no string under "ciphertext". *)
Definition wrapError : option error :=
  match wrapAnswer with
  | (_, Some e) =>
      Some (WrapError ("vault transit encrypt (" +:+ wrapPath +:+ ")") e)
  | (Some secret, None) =>
      match Data secret !! "ciphertext" with
      | Some (IString _) => None
      | _ => Some (ErrorString "unexpected vault response: ciphertext not a string")
      end
  | (None, None) => None
  end.

End OneCall.
End Steps.

(* ===================================================================== *)
(** * Concrete environments                                                *)
(* ===================================================================== *)

Module Mock.
Import sops.

(** The double quote. *)
Definition dq : string := String (ascii_of_nat 34) EmptyString.

(** The line feed. *)
Definition newline : string := String (ascii_of_nat 10) EmptyString.

(** The document of the package's tests: an object with a [password] and a
    [host]. *)
Definition document : string :=
  "{" +:+ dq +:+ "password" +:+ dq +:+ ":" +:+ dq +:+ "secret" +:+ dq +:+ ","
      +:+ dq +:+ "host" +:+ dq +:+ ":" +:+ dq +:+ "db.example.com" +:+ dq +:+ "}".

Definition documentTree : DocumentTree :=
  Mapping [("password", Scalar (SString "secret"));
           ("host", Scalar (SString "db.example.com"))].

(** A parser that knows this one document and rejects everything else. *)
Definition parse (b : bytes) : DocumentTree * option error :=
  if String.eqb (String.string_of_list_byte b) document
  then (documentTree, None)
  else (Mapping [], Some (ErrorString "invalid character"))%string.

(** The transit endpoint of [mockVaultServer] in the package's tests: the
    ciphertext is the plaintext behind a [vault:v1:] prefix. *)
Definition transit (_ : Log) (_ : Client) (_ : string)
    (payload : gmap string iface) : option Secret * option error :=
  match payload !! "plaintext" with
  | Some (IString p) =>
      (Some {| Data := {[ "ciphertext" := IString ("vault:v1:" +:+ p) ]};
               Auth := None |}, None)
  | _ => (None, Some (ErrorString "400 Bad Request"))
  end.

(** An endpoint that answers with an empty body. *)
Definition emptyBody (_ : Log) (_ : Client) (_ : string)
    (_ : gmap string iface) : option Secret * option error := (None, None).

(** An endpoint that is down. *)
Definition refused (_ : Log) (_ : Client) (_ : string)
    (_ : gmap string iface) : option Secret * option error :=
  (None, Some (ErrorString "connection refused")).

(** Stand-ins for the cipher: the nonce is a counter, the ciphertext is the
    plaintext behind the nonce, the tag is empty. *)
Definition nonceAt (n : nat) : bytes := replicate 12 (default Byte.x00 (Byte.of_nat n)).
Definition aead (key nonce plaintext : bytes) : bytes * bytes := (nonce ++ plaintext, []).
Definition canonical (v : ScalarValue) : bytes :=
  match v with
  | SString s | SNumber s => String.list_byte_of_string s
  | SBool true => String.list_byte_of_string "true"
  | SBool false => String.list_byte_of_string "false"
  | SNull => []
  end.

(** A pattern matches the names it is equal to (enough for the examples). *)
Definition regexMatch (pattern name : string) : bool := String.eqb pattern name.

(** A serializer that writes the version field and nothing else. *)
Definition emitted (tree : Tree) : bytes * option error :=
  (String.list_byte_of_string (Version (TreeMetadata tree)), None).

(** A stand-in for the YAML encoder: the document in flow style, on one
    line. *)
Fixpoint render (node : yaml.Node) : string :=
  match node with
  | yaml.ScalarNode value => value
  | yaml.MappingNode fields =>
      "{" +:+ String.concat ", "
                (List.map (fun field => match field with
                                        | (key, value) => key +:+ ": " +:+ render value
                                        end) fields) +:+ "}"
  | yaml.SequenceNode items =>
      "[" +:+ String.concat ", " (List.map render items) +:+ "]"
  end.

(** An empty process environment. *)
Definition Getenv : string -> string := fun _ => "".

(** An environment that sets [VAULT_AGENT_ADDR] and nothing else. *)
Definition behindAgent : string -> string :=
  fun var => if String.eqb var "VAULT_AGENT_ADDR" then "http://127.0.0.1:8100"
             else "".

(** The address of a client of the library: the agent's when the
    environment names one, the one given otherwise. *)
Definition agentOr (getenv : string -> string) (address : string) : string :=
  if String.eqb (getenv "VAULT_AGENT_ADDR") "" then address
  else getenv "VAULT_AGENT_ADDR".

Definition env : Env := {|
  sopsVersion := "3.9.0";
  LoadPlainFile := parse;
  rand_Read := fun _ n => (replicate n Byte.x2a, None);
  base64_EncodeToString := String.string_of_list_byte;
  vault_NewClient := fun _ _ => None;
  vault_Address := agentOr;
  Logical_Write := transit;
  time_Now := fun _ => 0%Z;
  EncryptTree := fun _ => EnvelopeEncryptor.encrypt regexMatch nonceAt aead canonical;
  EmitEncryptedJSON := emitted;
  EmitEncryptedYAML := emitted;
  json_Indent := fun src _ _ => (src, None);
  yaml_Encode := fun _ doc => (String.list_byte_of_string (render doc), None);
  yaml_Close := fun _ _ => (String.list_byte_of_string newline, None);
|}.

(** The same environment with another transit endpoint. *)
Definition withEndpoint
    (endpoint : Log -> Client -> string -> gmap string iface ->
                option Secret * option error) : Env :=
  {| sopsVersion := sopsVersion env;
     LoadPlainFile := LoadPlainFile env;
     rand_Read := rand_Read env;
     base64_EncodeToString := base64_EncodeToString env;
     vault_NewClient := vault_NewClient env;
     vault_Address := vault_Address env;
     Logical_Write := endpoint;
     time_Now := time_Now env;
     EncryptTree := EncryptTree env;
     EmitEncryptedJSON := EmitEncryptedJSON env;
     EmitEncryptedYAML := EmitEncryptedYAML env;
     json_Indent := json_Indent env;
     yaml_Encode := yaml_Encode env;
     yaml_Close := yaml_Close env |}.

(** The same environment with a client library that rejects every address. *)
Definition withoutClient : Env :=
  {| sopsVersion := sopsVersion env;
     LoadPlainFile := LoadPlainFile env;
     rand_Read := rand_Read env;
     base64_EncodeToString := base64_EncodeToString env;
     vault_NewClient := fun _ _ => Some (ErrorString "invalid address");
     vault_Address := vault_Address env;
     Logical_Write := Logical_Write env;
     time_Now := time_Now env;
     EncryptTree := EncryptTree env;
     EmitEncryptedJSON := EmitEncryptedJSON env;
     EmitEncryptedYAML := EmitEncryptedYAML env;
     json_Indent := json_Indent env;
     yaml_Encode := yaml_Encode env;
     yaml_Close := yaml_Close env |}.

Definition client : Client := {| Address := "http://127.0.0.1:8200"; Token := "test-token" |}.

Definition noOpts : sopsencrypt.EncryptOpts :=
  {| sopsencrypt.UnencryptedSuffix := "";
     sopsencrypt.EncryptedSuffix := "";
     sopsencrypt.UnencryptedRegex := "";
     sopsencrypt.EncryptedRegex := "";
     sopsencrypt.PrettyJSON := false |}.

End Mock.

(* ===================================================================== *)
(** * Vocabulary of the statements                                         *)
(* ===================================================================== *)

(** The number of scope attributes the caller has given a non-empty value. *)
Definition nonEmptyScopes (vs : list provider.tfString) : nat :=
  length (List.filter
            (fun v => negb (String.eqb (provider.ValueString v) "")) vs).

(** The number of scope fields of the options that are not empty. *)
Definition scopeFieldsSet (opts : sopsencrypt.EncryptOpts) : nat :=
  length (List.filter (fun s => negb (String.eqb s ""))
            [sopsencrypt.UnencryptedSuffix opts; sopsencrypt.EncryptedSuffix opts;
             sopsencrypt.UnencryptedRegex opts; sopsencrypt.EncryptedRegex opts]).

(** The policy that stands for options with at most one field set. *)
Definition scopePolicy (opts : sopsencrypt.EncryptOpts)
    : EnvelopeEncryptor.ScopePolicy :=
  if negb (String.eqb (sopsencrypt.UnencryptedSuffix opts) "")
  then EnvelopeEncryptor.PUnencryptedSuffix (sopsencrypt.UnencryptedSuffix opts)
  else if negb (String.eqb (sopsencrypt.EncryptedSuffix opts) "")
  then EnvelopeEncryptor.PEncryptedSuffix (sopsencrypt.EncryptedSuffix opts)
  else if negb (String.eqb (sopsencrypt.UnencryptedRegex opts) "")
  then EnvelopeEncryptor.PUnencryptedRegex (sopsencrypt.UnencryptedRegex opts)
  else if negb (String.eqb (sopsencrypt.EncryptedRegex opts) "")
  then EnvelopeEncryptor.PEncryptedRegex (sopsencrypt.EncryptedRegex opts)
  else EnvelopeEncryptor.NoPolicy.

(** [n] slashes. *)
Fixpoint slashes (n : nat) : string :=
  match n with
  | 0 => ""
  | S n => String "/" (slashes n)
  end.

(** The fields of a mapping node. *)
Definition fieldsOf (node : yaml.Node) : list (string * yaml.Node) :=
  match node with
  | yaml.MappingNode fields => fields
  | _ => []
  end.

(* ===================================================================== *)
(** * Lemmas: running the model                                            *)
(* ===================================================================== *)

Import sopsencrypt.

(** Unfold the sequencing of the monad. *)
Ltac unfold_monad :=
  unfold mbind, mret, M_bind, M_ret, bind, ret, call, panic in *.

(** Count the events of a log that is given by its pieces. *)
Ltac count_events :=
  unfold vaultRequests, treeEncryptions, Steps.afterWrap, Steps.afterKey,
    Steps.wrapRequest in *;
  rewrite ?List.filter_app, ?length_app in *; simpl in *; try lia.

Section Runs.
Context (env : Env) (client : Client) (transitPath keyName jsonContent : string)
        (opts : EncryptOpts) (l : Log).

#[local] Abbreviation parsed := (Steps.parsed env jsonContent).
#[local] Abbreviation keyRead := (Steps.keyRead env l).
#[local] Abbreviation afterKey := (Steps.afterKey l).
#[local] Abbreviation wrapAnswer := (Steps.wrapAnswer env client transitPath keyName l).
#[local] Abbreviation wrapError := (Steps.wrapError env client transitPath keyName l).
#[local] Abbreviation wrappedToken := (Steps.wrappedToken env client transitPath keyName l).
#[local] Abbreviation afterWrap := (Steps.afterWrap env client transitPath keyName l).
#[local] Abbreviation treeAnswer := (Steps.treeAnswer env client transitPath keyName jsonContent opts l).
#[local] Abbreviation afterTree := (Steps.afterTree env client transitPath keyName l).

Lemma generateDataKey_run :
  generateDataKey env l =
  (Ret match keyRead.2 with
       | Some e => ([], Some (WrapError "generating data key" e))
       | None => (Steps.dataKey env l, None)
       end, afterKey).
Proof.
  unfold generateDataKey, Steps.dataKey, Steps.afterKey, Steps.keyRead.
  unfold_monad. simpl.
  destruct (rand_Read env l 32) as [delivered [e|]]; reflexivity.
Qed.

(** The data key is 32 bytes long, whatever the random source delivers. *)
Lemma dataKey_length : length (Steps.dataKey env l) = 32.
Proof.
  unfold Steps.dataKey, fill, make. rewrite length_replicate, length_take.
  rewrite length_app, length_drop, length_replicate. lia.
Qed.

Lemma wrapDataKey_run (key : bytes) (l0 : Log) :
  let path := transitPath +:+ "/encrypt/" +:+ keyName in
  let payload : gmap string iface :=
    {[ "plaintext" := IString (base64_EncodeToString env key) ]} in
  wrapDataKey env client transitPath keyName key l0 =
  (match Logical_Write env l0 client path payload with
   | (_, Some e) =>
       Ret ("", Some (WrapError ("vault transit encrypt (" +:+ path +:+ ")") e))
   | (None, None) => Panic "invalid memory address or nil pointer dereference"
   | (Some secret, None) =>
       match Data secret !! "ciphertext" with
       | Some (IString ct) => Ret (ct, None)
       | _ => Ret ("", Some (ErrorString
                      "unexpected vault response: ciphertext not a string"))
       end
   end, l0 ++ [EvVaultWrite client path payload]).
Proof.
  intros path payload. unfold wrapDataKey. unfold_monad.
  fold path. fold payload.
  destruct (Logical_Write env l0 client path payload) as [[secret|] [e|]];
    try reflexivity.
  destruct (Data secret !! "ciphertext") as [[]|]; reflexivity.
Qed.

(** The three ways the answer of the endpoint can look to [wrapDataKey]. *)
Lemma wrapAnswer_cases :
  (exists e, wrapError = Some e /\ wrappedToken = None /\ wrapAnswer <> (None, None))
  \/ (wrapAnswer = (None, None) /\ wrapError = None /\ wrappedToken = None)
  \/ (exists ct, wrappedToken = Some ct /\ wrapError = None /\ wrapAnswer <> (None, None)).
Proof.
  unfold Steps.wrapError, Steps.wrappedToken.
  destruct wrapAnswer as [[secret|] [e|]].
  - left. eexists. done.
  - destruct (Data secret !! "ciphertext") as [[]|].
    all: try (left; eexists; done).
    right. right. eexists. done.
  - left. eexists. done.
  - right. left. done.
Qed.

Section Emit.
Context (emit : sops.Tree -> bytes * option error).

#[local] Abbreviation run := (encryptDocument env client transitPath keyName jsonContent opts emit l).

Lemma encryptDocument_parse_error e :
  parsed.2 = Some e ->
  run = (Ret ([], Some (WrapError "parsing content as JSON" e)), l).
Proof.
  unfold encryptDocument, Steps.parsed. intros H.
  destruct (LoadPlainFile env _) as [branches err]. simpl in H. subst err.
  reflexivity.
Qed.

Lemma encryptDocument_key_error e :
  parsed.2 = None -> keyRead.2 = Some e ->
  run = (Ret ([], Some (WrapError "generating data key" e)), afterKey).
Proof.
  unfold encryptDocument, Steps.parsed. intros Hp Hk.
  destruct (LoadPlainFile env _) as [branches err]. simpl in Hp. subst err.
  unfold mbind, M_bind, bind at 1. rewrite generateDataKey_run, Hk. reflexivity.
Qed.

(** After parsing and key generation the call is decided by [wrapDataKey]
    and what follows it. *)
Lemma encryptDocument_after_key :
  parsed.2 = None -> keyRead.2 = None ->
  run =
  match wrapAnswer with
  | (_, Some e) =>
      (Ret ([], Some (WrapError ("vault transit encrypt ("
                                  +:+ Steps.wrapPath transitPath keyName +:+ ")") e)),
       afterWrap)
  | (None, None) =>
      (Panic "invalid memory address or nil pointer dereference", afterWrap)
  | (Some secret, None) =>
      match Data secret !! "ciphertext" with
      | Some (IString ct) =>
          (Ret match treeAnswer ct with
               | (_, Some e) => ([], Some (WrapError "encrypting tree" e))
               | (tree, None) =>
                   match emit tree with
                   | (_, Some e) =>
                       ([], Some (WrapError "emitting encrypted document" e))
                   | (out, None) => (out, None)
                   end
               end, afterTree)
      | _ => (Ret ([], Some (ErrorString
                       "unexpected vault response: ciphertext not a string")),
              afterWrap)
      end
  end.
Proof.
  unfold encryptDocument. intros Hp Hk.
  unfold Steps.treeAnswer, Steps.plainTree, Steps.afterTree, Steps.afterNow.
  unfold Steps.parsed in *.
  destruct (LoadPlainFile env _) as [branches err]. simpl in Hp. subst err.
  unfold mbind, M_bind, bind at 1. rewrite generateDataKey_run, Hk.
  unfold mbind, M_bind, bind at 1. rewrite wrapDataKey_run.
  change (Logical_Write env afterKey client _ _) with wrapAnswer.
  change (afterKey ++ [EvVaultWrite _ _ _]) with afterWrap.
  destruct wrapAnswer as [[secret|] [e|]]; try reflexivity.
  destruct (Data secret !! "ciphertext") as [[]|]; try reflexivity.
  unfold_monad. simpl.
  destruct (EncryptTree env _ _ _) as [tree [e|]]; try reflexivity.
  destruct (emit tree) as [out [e|]]; reflexivity.
Qed.

Lemma encryptDocument_wrap_error e :
  parsed.2 = None -> keyRead.2 = None -> wrapError = Some e ->
  run = (Ret ([], Some e), afterWrap).
Proof.
  intros Hp Hk Hw. rewrite encryptDocument_after_key by done.
  unfold Steps.wrapError in Hw.
  destruct wrapAnswer as [[secret|] [e'|]]; try congruence.
  destruct (Data secret !! "ciphertext") as [[]|]; congruence.
Qed.

Lemma encryptDocument_wrap_nil :
  parsed.2 = None -> keyRead.2 = None -> wrapAnswer = (None, None) ->
  run = (Panic "invalid memory address or nil pointer dereference", afterWrap).
Proof.
  intros Hp Hk Hw. rewrite encryptDocument_after_key by done.
  rewrite Hw. reflexivity.
Qed.

Lemma encryptDocument_wrapped ct :
  parsed.2 = None -> keyRead.2 = None -> wrappedToken = Some ct ->
  run =
  (Ret match treeAnswer ct with
       | (_, Some e) => ([], Some (WrapError "encrypting tree" e))
       | (tree, None) =>
           match emit tree with
           | (_, Some e) => ([], Some (WrapError "emitting encrypted document" e))
           | (out, None) => (out, None)
           end
       end, afterTree).
Proof.
  intros Hp Hk Hw. rewrite encryptDocument_after_key by done.
  unfold Steps.wrappedToken in Hw.
  destruct wrapAnswer as [[secret|] [e'|]]; try congruence.
  destruct (Data secret !! "ciphertext") as [[]|]; try congruence.
  by injection Hw as ->.
Qed.

End Emit.
End Runs.

(** ** The two entry points *)

Section EntryPoints.
Context (env : Env) (client : Client) (transitPath keyName jsonContent : string)
        (opts : EncryptOpts) (l : Log).

Lemma EncryptToJSON_run :
  EncryptToJSON env client transitPath keyName jsonContent opts l =
  match encryptDocument env client transitPath keyName jsonContent opts
          (EmitEncryptedJSON env) l with
  | (Ret (_, Some e), l') => (Ret ("", Some e), l')
  | (Ret (out, None), l') =>
      (Ret (if PrettyJSON opts then
              match json_Indent env out "" "  " with
              | (_, Some e) => ("", Some (WrapError "pretty-printing JSON" e))
              | (buf, None) => (String.string_of_list_byte buf, None)
              end
            else (String.string_of_list_byte out, None)), l')
  | (Panic msg, l') => (Panic msg, l')
  end.
Proof.
  unfold EncryptToJSON. unfold mbind, M_bind, bind at 1.
  destruct (encryptDocument _ _ _ _ _ _ _ _) as [[[out [e|]]|msg] l'];
    try reflexivity.
  unfold_monad. destruct (PrettyJSON opts); try reflexivity.
  destruct (json_Indent env out "" "  ") as [buf [e|]]; reflexivity.
Qed.

Lemma EncryptToYAML_run :
  EncryptToYAML env client transitPath keyName jsonContent opts l =
  match encryptDocument env client transitPath keyName jsonContent opts
          (EmitEncryptedYAML env) l with
  | (Ret (_, Some e), l') => (Ret ("", Some e), l')
  | (Ret (out, None), l') => (Ret (String.string_of_list_byte out, None), l')
  | (Panic msg, l') => (Panic msg, l')
  end.
Proof.
  unfold EncryptToYAML. unfold mbind, M_bind, bind at 1.
  destruct (encryptDocument _ _ _ _ _ _ _ _) as [[[out [e|]]|msg] l'];
    reflexivity.
Qed.



(** The log of a call is the log of [encryptDocument], whatever the emitter. *)
Lemma encryptDocument_log emit :
  (encryptDocument env client transitPath keyName jsonContent opts emit l).2 =
  match (Steps.parsed env jsonContent).2, (Steps.keyRead env l).2 with
  | Some _, _ => l
  | None, Some _ => Steps.afterKey l
  | None, None =>
      match Steps.wrappedToken env client transitPath keyName l with
      | Some _ => Steps.afterTree env client transitPath keyName l
      | None => Steps.afterWrap env client transitPath keyName l
      end
  end.
Proof.
  destruct (Steps.parsed env jsonContent).2 as [e|] eqn:Hp.
  { erewrite encryptDocument_parse_error; [reflexivity | eassumption]. }
  destruct (Steps.keyRead env l).2 as [e|] eqn:Hk.
  { erewrite encryptDocument_key_error; [reflexivity | eassumption..]. }
  destruct (wrapAnswer_cases env client transitPath keyName l)
    as [(e & He & -> & _) | [(Hnil & _ & ->) | (ct & Hct & _ & _)]].
  - erewrite encryptDocument_wrap_error; [reflexivity | eassumption..].
  - erewrite encryptDocument_wrap_nil; [reflexivity | eassumption..].
  - rewrite Hct. erewrite encryptDocument_wrapped; [reflexivity | eassumption..].
Qed.

Lemma EncryptToJSON_log :
  (EncryptToJSON env client transitPath keyName jsonContent opts l).2 =
  (encryptDocument env client transitPath keyName jsonContent opts
     (EmitEncryptedJSON env) l).2.
Proof.
  rewrite EncryptToJSON_run.
  by destruct (encryptDocument _ _ _ _ _ _ _ _) as [[[raw [e'|]]|msg] l''].
Qed.

Lemma EncryptToYAML_log :
  (EncryptToYAML env client transitPath keyName jsonContent opts l).2 =
  (encryptDocument env client transitPath keyName jsonContent opts
     (EmitEncryptedYAML env) l).2.
Proof.
  rewrite EncryptToYAML_run.
  by destruct (encryptDocument _ _ _ _ _ _ _ _) as [[[raw [e'|]]|msg] l''].
Qed.

End EntryPoints.

(** Rewrite an entry point with what [encryptDocument] is known to do. *)
Ltac entry lemma :=
  rewrite ?EncryptToJSON_run, ?EncryptToYAML_run;
  erewrite lemma by eassumption; simpl.

(** ** Counting events *)

Lemma vaultRequests_app l1 l2 :
  vaultRequests (l1 ++ l2) = vaultRequests l1 + vaultRequests l2.
Proof. unfold vaultRequests. by rewrite List.filter_app, length_app. Qed.

Lemma treeEncryptions_app l1 l2 :
  treeEncryptions (l1 ++ l2) = treeEncryptions l1 + treeEncryptions l2.
Proof. unfold treeEncryptions. by rewrite List.filter_app, length_app. Qed.

(** ** Errors of the key-wrap call *)

(** What [wrapDataKey] does get right: an error of the client is wrapped
    and stays reachable through [Unwrap], and a secret without a string
    under "ciphertext" is reported. *)
Lemma wrapDataKey_surfaces_cause env client transitPath keyName key l secret cause :
  Logical_Write env l client (transitPath +:+ "/encrypt/" +:+ keyName)
    {[ "plaintext" := IString (base64_EncodeToString env key) ]}
    = (secret, Some cause) ->
  exists e, (wrapDataKey env client transitPath keyName key l).1 = Ret ("", Some e)
            /\ Unwrap e = Some cause /\ Surfaces cause e.
Proof.
  intros H. rewrite wrapDataKey_run. cbv zeta. rewrite H.
  assert (Surfaces cause cause) by (destruct cause; simpl; auto).
  destruct secret;
    (eexists; split; [reflexivity | split; [reflexivity | simpl; auto]]).
Qed.

(** ** Scope validation in the resources *)

Import provider.

Lemma scopeIsSet_nonEmpty v :
  scopeIsSet v = negb (String.eqb (ValueString v) "").
Proof. by destruct v. Qed.

Lemma countSet_nonEmptyScopes vs : countSet vs = nonEmptyScopes vs.
Proof.
  unfold countSet, nonEmptyScopes.
  enough (forall n,
    fold_left (fun set v => if scopeIsSet v then S set else set) vs n
    = n + length (List.filter (fun v => negb (String.eqb (ValueString v) "")) vs))
    as H by apply (H 0).
  induction vs as [|v vs IH]; intros n; simpl.
  - lia.
  - rewrite IH, scopeIsSet_nonEmpty.
    destruct (negb (String.eqb (ValueString v) "")); simpl; lia.
Qed.

(** A failed [encrypt] leaves the state of the resource as it was. *)
Lemma encryptedJSON_Create_error_keeps_state env Getenv State_Set r data diags resp l
    out e l' :
  encryptedJSON.encrypt env Getenv r data l = (Ret (out, Some e), l') ->
  exists diags' l'',
    encryptedJSON.Create env Getenv State_Set r (data, diags) resp l
    = (Ret (encryptedJSON.mkResponse diags' (encryptedJSON.State resp)), l'').
Proof.
  intros Hencrypt. unfold encryptedJSON.Create. simpl.
  destruct (HasError _); [by eexists _, _|].
  destruct (encryptedJSON.validateScope data); [by eexists _, _|].
  unfold_monad. rewrite Hencrypt. by eexists _, _.
Qed.

Lemma encryptedYAML_Create_error_keeps_state env Getenv State_Set r data diags resp l
    out e l' :
  encryptedYAML.encrypt env Getenv r data l = (Ret (out, Some e), l') ->
  exists diags' l'',
    encryptedYAML.Create env Getenv State_Set r (data, diags) resp l
    = (Ret (encryptedYAML.mkResponse diags' (encryptedYAML.State resp)), l'').
Proof.
  intros Hencrypt. unfold encryptedYAML.Create. simpl.
  destruct (HasError _); [by eexists _, _|].
  destruct (encryptedYAML.validateScope data); [by eexists _, _|].
  unfold_monad. rewrite Hencrypt. by eexists _, _.
Qed.

(** The package itself does not look at the scope fields: called directly
    with two of them set, [EncryptToJSON] reads the random source and sends
    the request before the library gets to see the metadata. *)
Lemma EncryptToJSON_leaves_scope_to_caller :
  let opts := mkEncryptOpts "_plain" "" "" "password" false in
  let call := EncryptToJSON Mock.env Mock.client "transit" "k" Mock.document
                opts [] in
  scopeFieldsSet opts = 2 /\ vaultRequests call.2 = 1
  /\ call.1 = Ret ("", Some (WrapError "encrypting tree"
                               (ErrorString "more than one scope field set"))).
Proof. repeat split; vm_compute; reflexivity. Qed.

(** ** Strings *)

Lemma append_nil_l (s : string) : "" +:+ s = s.
Proof. reflexivity. Qed.

Lemma append_cons c (s1 s2 : string) : String c s1 +:+ s2 = String c (s1 +:+ s2).
Proof. reflexivity. Qed.

(** Push [+:+] through literals and constructors. *)
Ltac simpl_append := rewrite ?append_cons, ?append_nil_l in *; simpl in *.

Lemma append_nil_r (s : string) : s +:+ "" = s.
Proof. induction s as [|c s IH]; simpl_append; congruence. Qed.

Lemma append_assoc (s1 s2 s3 : string) : (s1 +:+ s2) +:+ s3 = s1 +:+ s2 +:+ s3.
Proof. induction s1 as [|c s1 IH]; simpl_append; congruence. Qed.

Lemma length_append (s1 s2 : string) :
  String.length (s1 +:+ s2) = String.length s1 + String.length s2.
Proof. induction s1 as [|c s1 IH]; simpl_append; congruence. Qed.

(** A common tail can be cancelled. *)
Lemma append_inv_tail (tail s1 s2 : string) :
  s1 +:+ tail = s2 +:+ tail -> s1 = s2.
Proof.
  revert s2. induction s1 as [|c s1 IH]; intros [|d s2] H; simpl_append.
  - reflexivity.
  - apply (f_equal String.length) in H. simpl in H.
    rewrite length_append in H. lia.
  - apply (f_equal String.length) in H. simpl in H.
    rewrite length_append in H. lia.
  - injection H as -> H. f_equal. by apply IH.
Qed.

Lemma HasSuffix_empty (suffix : string) :
  HasSuffix "" suffix = if String.eqb "" suffix then true else false.
Proof. reflexivity. Qed.

Lemma HasSuffix_cons c (s suffix : string) :
  HasSuffix (String c s) suffix =
  if String.eqb (String c s) suffix then true else HasSuffix s suffix.
Proof. reflexivity. Qed.

(** [HasSuffix] decides whether the string ends with the suffix. *)
Lemma HasSuffix_spec (s suffix : string) :
  HasSuffix s suffix = true <-> exists p, s = p +:+ suffix.
Proof.
  induction s as [|c s IH]; [rewrite HasSuffix_empty | rewrite HasSuffix_cons].
  - destruct (String.eqb_spec "" suffix) as [<-|Hne].
    + split; [intros _; by exists "" | done].
    + split; [discriminate|].
      intros [[|d p] H]; simpl_append; [by subst | discriminate].
  - destruct (String.eqb_spec (String c s) suffix) as [<-|Hne].
    + split; [intros _; by exists "" | done].
    + rewrite IH. split.
      * intros [p ->]. by exists (String c p).
      * intros [[|d p] H]; simpl_append; [by subst|].
        injection H as -> ->. by exists p.
Qed.

(** [TrimRight s "/"] is [s] without the slashes at its end ... *)
Lemma TrimRight_slashes (s : string) :
  exists n, s = TrimRight s "/" +:+ slashes n.
Proof.
  induction s as [|c s [n IH]]; simpl.
  - by exists 0.
  - destruct (TrimRight s "/") as [|d t] eqn:Ht.
    + simpl_append. destruct (Ascii.eqb_spec c "/") as [->|Hc].
      * exists (S n). simpl_append. congruence.
      * exists n. simpl_append. congruence.
    + exists n. simpl_append. congruence.
Qed.

(** ... and does not end with a slash itself. *)
Lemma TrimRight_no_trailing_slash (s : string) :
  HasSuffix (TrimRight s "/") "/" = false.
Proof.
  induction s as [|c s IH]; simpl; [reflexivity|].
  destruct (TrimRight s "/") as [|d t] eqn:Ht.
  - destruct (Ascii.eqb_spec c "/") as [->|Hc]; [reflexivity|].
    simpl. destruct (Ascii.eqb_spec c "/"); [done|]. reflexivity.
  - rewrite HasSuffix_cons, IH. simpl. by destruct (Ascii.eqb c "/").
Qed.

(** ** The rules of GenerateSOPSConfig *)

(** The indexed loop fills the slice made for it with one rule per regex. *)
Lemma rangeRules_map uri (filled : list sopsCreationRule) (pathRegexes : list string)
    (zero : sopsCreationRule) :
  rangeRules uri (length filled) pathRegexes
    (filled ++ replicate (length pathRegexes) zero)
  = filled ++ map (fun re => {| PathRegex := re; HCVaultTransitURI := uri |})
                pathRegexes.
Proof.
  revert filled. induction pathRegexes as [|re rest IH]; intros filled; simpl.
  - reflexivity.
  - rewrite insert_app_r_alt by lia. rewrite Nat.sub_diag. simpl.
    rewrite (cons_middle _ filled), app_assoc.
    replace (S (length filled)) with (length (filled ++ [mkRule re uri]))
      by (rewrite length_app; simpl; lia).
    rewrite IH, <- app_assoc. reflexivity.
Qed.

(** The slice of rules in closed form. *)
Lemma creationRules_eq vaultAddress transitPath keyName pathRegexes :
  let uri := TrimRight vaultAddress "/" +:+ "/v1/" +:+ transitPath
             +:+ "/keys/" +:+ keyName in
  creationRules vaultAddress transitPath keyName pathRegexes =
  match pathRegexes with
  | None | Some [] => [{| PathRegex := ""; HCVaultTransitURI := uri |}]
  | Some res => map (fun re => {| PathRegex := re; HCVaultTransitURI := uri |}) res
  end.
Proof.
  unfold creationRules. destruct pathRegexes as [[|re rest]|]; try reflexivity.
  cbv zeta. change (len (Some (re :: rest)) =? 0)%nat with false. cbv iota.
  apply (rangeRules_map _ [] (re :: rest)).
Qed.

(** ** The tree walker *)

Import sops EnvelopeEncryptor.

Section WalkerFacts.
Context (regexMatch : string -> string -> bool) (nonceAt : nat -> bytes)
        (aead : bytes -> bytes -> bytes -> bytes * bytes)
        (canonical : ScalarValue -> bytes)
        (policy : ScopePolicy) (key : bytes).

#[local] Abbreviation walk' := (walk regexMatch nonceAt aead canonical policy key).

(** Children keep their place: the child at position [j] of the visited
    list is the visit of the child at position [j]. *)
Lemma visit_lookup {A B} (f : nat -> A -> nat -> B * nat) (l : list A) :
  forall i drawn j x,
    l !! j = Some x ->
    exists drawn', (visit f i l drawn).1 !! j = Some (f (i + j) x drawn').1.
Proof.
  induction l as [|y l IH]; intros i drawn j x Hj; [done|].
  simpl. destruct (f i y drawn) as [y' drawn1] eqn:Hy.
  destruct (visit f (S i) l drawn1) as [ys drawn2] eqn:Hys.
  destruct j as [|j]; simpl in *.
  - injection Hj as ->. exists drawn. by rewrite Nat.add_0_r, Hy.
  - destruct (IH (S i) drawn1 j x Hj) as [drawn' H].
    exists drawn'. rewrite Hys in H. simpl in H.
    by replace (i + S j) with (S i + j) by lia.
Qed.

Lemma walk_Mapping path items drawn :
  (walk' path (Mapping items) drawn).1 =
  Mapping (visit (fun _ item drawn =>
                    let '(v, drawn) := walk' (path ++ [Key item.1]) item.2 drawn in
                    ((item.1, v), drawn)) 0 items drawn).1.
Proof. simpl. by destruct (visit _ _ _ _). Qed.

Lemma walk_Sequence path items drawn :
  (walk' path (Sequence items) drawn).1 =
  Sequence (visit (fun i item drawn => walk' (path ++ [Index i]) item drawn)
              0 items drawn).1.
Proof. simpl. by destruct (visit _ _ _ _). Qed.

(** The walker keeps every node where it is and under the same path: what
    sits at a position afterwards is the walk of what sat there before. *)
Lemma nodeAt_walk pos :
  forall path t drawn p node,
    nodeAt pos path t = Some (p, node) ->
    exists drawn',
      nodeAt pos path (walk' path t drawn).1 = Some (p, (walk' p node drawn').1).
Proof.
  induction pos as [|i pos IH]; intros path t drawn p node H.
  - injection H as <- <-. by exists drawn.
  - destruct t as [v|ct nonce tag ty|items|items]; try done.
    + simpl in H. destruct (items !! i) as [[k v]|] eqn:Hi; [|done].
      rewrite walk_Mapping.
      destruct (visit_lookup
                  (fun _ item drawn =>
                     let '(v, drawn) := walk' (path ++ [Key item.1]) item.2 drawn in
                     ((item.1, v), drawn)) items 0 drawn i (k, v) Hi)
        as [drawn1 Hvisit].
      simpl in Hvisit.
      destruct (IH (path ++ [Key k]) v drawn1 p node H) as [drawn' Hrec].
      exists drawn'. cbn [nodeAt]. rewrite Hvisit.
      destruct (walk' (path ++ [Key k]) v drawn1) as [v' drawn2]. exact Hrec.
    + simpl in H. destruct (items !! i) as [v|] eqn:Hi; [|done].
      rewrite walk_Sequence.
      destruct (visit_lookup
                  (fun i item drawn => walk' (path ++ [Index i]) item drawn)
                  items 0 drawn i v Hi) as [drawn1 Hvisit].
      simpl in Hvisit.
      destruct (IH (path ++ [Index i]) v drawn1 p node H) as [drawn' Hrec].
      exists drawn'. cbn [nodeAt]. rewrite Hvisit. exact Hrec.
Qed.

(** A scalar is encrypted exactly when the policy selects its path. *)
Lemma walk_Scalar path v drawn :
  (walk' path (Scalar v) drawn).1 =
  if shouldEncrypt regexMatch path policy then
    EncryptedLeaf (aead key (nonceAt drawn) (canonical v)).1 (nonceAt drawn)
      (aead key (nonceAt drawn) (canonical v)).2 (typeOf v)
  else Scalar v.
Proof.
  simpl. destruct (shouldEncrypt regexMatch path policy); [|done].
  by destruct (aead key (nonceAt drawn) (canonical v)).
Qed.

End WalkerFacts.

Lemma policyOf_plainTree env client transitPath keyName jsonContent opts l ct :
  scopeFieldsSet opts <= 1 ->
  policyOf (TreeMetadata (Steps.plainTree env client transitPath keyName
                            jsonContent opts l ct))
  = Some (scopePolicy opts).
Proof.
  unfold scopeFieldsSet, scopePolicy, policyOf, activePolicies. simpl.
  destruct (String.eqb (sopsencrypt.UnencryptedSuffix opts) "");
    destruct (String.eqb (sopsencrypt.EncryptedSuffix opts) "");
    destruct (String.eqb (sopsencrypt.UnencryptedRegex opts) "");
    destruct (String.eqb (sopsencrypt.EncryptedRegex opts) "");
    simpl; intros H; try reflexivity; lia.
Qed.

(* ===================================================================== *)
(** * The claims                                                           *)
(* ===================================================================== *)

(** ** Scope of encryption *)

(** C1. Take the tree walker of the SOPS library to be the one the
    specification describes.  For options with at most one scope field set,
    a document that parses, and a data key that is generated and wrapped,
    [encryptDocument] hands its emitter (the JSON store for [EncryptToJSON],
    the YAML store for [EncryptToYAML]) a tree in which every scalar leaf of
    the input sits at its old position and path, and is an [EncryptedLeaf]
    (with the type tag of the scalar) exactly when the scope rule selects its
    path; a leaf that is not selected is unchanged.  The rule: no field set,
    every leaf; [UnencryptedSuffix], unless the key name ends with it;
    [EncryptedSuffix], only if the key name ends with it; the two regex
    fields, the same with a regex match on the key name. *)
Theorem scope_rule_selects_leaves env regexMatch nonceAt aead canonical
    client transitPath keyName jsonContent opts l D ct :
  (forall log key tree,
     EncryptTree env log key tree
     = EnvelopeEncryptor.encrypt regexMatch nonceAt aead canonical key tree) ->
  scopeFieldsSet opts <= 1 ->
  Steps.parsed env jsonContent = (D, None) ->
  (Steps.keyRead env l).2 = None ->
  Steps.wrappedToken env client transitPath keyName l = Some ct ->
  let policy := scopePolicy opts in
  let selected := fun path => shouldEncrypt regexMatch path policy in
  (exists tree,
     (forall emit,
        encryptDocument env client transitPath keyName jsonContent opts emit l
        = (Ret match emit tree with
               | (_, Some e) => ([], Some (WrapError "emitting encrypted document" e))
               | (out, None) => (out, None)
               end, Steps.afterTree env client transitPath keyName l))
     /\ forall pos path v,
          nodeAt pos [] D = Some (path, Scalar v) ->
          exists node,
            nodeAt pos [] (Branches tree) = Some (path, node)
            /\ isEncryptedLeaf node = selected path
            /\ (selected path = true ->
                exists ciphertext nonce tag,
                  node = EncryptedLeaf ciphertext nonce tag (typeOf v))
            /\ (selected path = false -> node = Scalar v))
  /\ (scopeFieldsSet opts = 0 -> forall path, selected path = true)
  /\ (sopsencrypt.UnencryptedSuffix opts <> "" -> forall path,
        selected path
        = negb (nameMatches
                  (fun name => HasSuffix name (sopsencrypt.UnencryptedSuffix opts))
                  path))
  /\ (sopsencrypt.EncryptedSuffix opts <> "" -> forall path,
        selected path
        = nameMatches
            (fun name => HasSuffix name (sopsencrypt.EncryptedSuffix opts)) path)
  /\ (sopsencrypt.UnencryptedRegex opts <> "" -> forall path,
        selected path
        = negb (nameMatches (regexMatch (sopsencrypt.UnencryptedRegex opts)) path))
  /\ (sopsencrypt.EncryptedRegex opts <> "" -> forall path,
        selected path
        = nameMatches (regexMatch (sopsencrypt.EncryptedRegex opts)) path).
Proof.
  intros Hlib Hone Hparsed Hkey Hwrap policy selected.
  split.
  - set (key := Steps.dataKey env l).
    exists {| Branches := (walk regexMatch nonceAt aead canonical policy key [] D 0).1;
              TreeMetadata := TreeMetadata (Steps.plainTree env client transitPath
                                              keyName jsonContent opts l ct) |}.
    split.
    + intros emit.
      rewrite (encryptDocument_wrapped _ _ _ _ _ _ _ _ ct);
        [| by rewrite Hparsed | done | done].
      unfold Steps.treeAnswer. rewrite Hlib.
      unfold EnvelopeEncryptor.encrypt.
      rewrite policyOf_plainTree by done.
      unfold Steps.plainTree at 1. simpl Branches. rewrite Hparsed. reflexivity.
    + intros pos path v Hnode. simpl Branches.
      destruct (nodeAt_walk regexMatch nonceAt aead canonical policy key
                  pos [] D 0 path (Scalar v) Hnode) as [drawn Hwalk].
      rewrite walk_Scalar in Hwalk. fold (selected path) in Hwalk.
      eexists. split; [exact Hwalk|].
      destruct (selected path); repeat split; try done.
      intros _. by eexists _, _, _.
  - unfold selected, policy, scopePolicy, scopeFieldsSet in *. simpl in Hone |- *.
    destruct (String.eqb_spec (sopsencrypt.UnencryptedSuffix opts) "") as [->|];
      destruct (String.eqb_spec (sopsencrypt.EncryptedSuffix opts) "") as [->|];
      destruct (String.eqb_spec (sopsencrypt.UnencryptedRegex opts) "") as [->|];
      destruct (String.eqb_spec (sopsencrypt.EncryptedRegex opts) "") as [->|];
      simpl in *; try lia; repeat split; try done; intros; lia.
Qed.

(** The document of the tests with [EncryptedRegex] set to the name
    [password]: the password is encrypted, the host stays as it is. *)
Lemma scope_rule_selects_leaves_witness :
  let opts := {| sopsencrypt.UnencryptedSuffix := "";
                 sopsencrypt.EncryptedSuffix := "";
                 sopsencrypt.UnencryptedRegex := "";
                 sopsencrypt.EncryptedRegex := "password";
                 sopsencrypt.PrettyJSON := false |} in
  exists tree,
    (encryptDocument Mock.env Mock.client "transit" "k" Mock.document opts
       Mock.emitted []).1 = Ret (Mock.emitted tree)
    /\ (exists node, nodeAt [0] [] (Branches tree) = Some ([Key "password"], node)
                     /\ isEncryptedLeaf node = true)
    /\ nodeAt [1] [] (Branches tree)
       = Some ([Key "host"], Scalar (SString "db.example.com")).
Proof.
  intros opts.
  destruct (scope_rule_selects_leaves Mock.env Mock.regexMatch Mock.nonceAt
              Mock.aead Mock.canonical Mock.client "transit" "k" Mock.document
              opts [] Mock.documentTree
              ("vault:v1:" +:+ String.string_of_list_byte (replicate 32 Byte.x2a)))
    as [(tree & Hrun & Hleaves) _].
  - reflexivity.
  - vm_compute. lia.
  - reflexivity.
  - reflexivity.
  - vm_compute. reflexivity.
  - exists tree. split; [|split].
    + rewrite Hrun. reflexivity.
    + destruct (Hleaves [0] [Key "password"] (SString "secret") eq_refl)
        as (node & Hnode & Henc & _).
      exists node. split; [exact Hnode | exact Henc].
    + destruct (Hleaves [1] [Key "host"] (SString "db.example.com") eq_refl)
        as (node & Hnode & _ & _ & Hplain).
      rewrite Hnode, (Hplain eq_refl). reflexivity.
Defined.

(** ** Scope validation *)

(** C2. When more than one of the four scope attributes of the plan has a
    non-empty value, [Create] of either resource stops at [validateScope]:
    the response gains the error "Invalid scope configuration", the state is
    not set, and the log is untouched, so no random bytes were read, no tree
    was encrypted and the transit endpoint received no request.  The check
    comes right after the plan is decoded, before the client is built. *)
Theorem Create_rejects_conflicting_scope (env : Env) (l : Log) :
  (forall Getenv State_Set r data diags resp,
     1 < nonEmptyScopes [encryptedJSON.UnencryptedSuffix data;
                         encryptedJSON.EncryptedSuffix data;
                         encryptedJSON.UnencryptedRegex data;
                         encryptedJSON.EncryptedRegex data] ->
     let r' := encryptedJSON.Create env Getenv State_Set r (data, diags) resp l in
     r'.2 = l /\ vaultRequests r'.2 = vaultRequests l
     /\ (HasError (encryptedJSON.RespDiagnostics resp ++ diags) = false ->
         r'.1 = Ret (encryptedJSON.mkResponse
                       ((encryptedJSON.RespDiagnostics resp ++ diags)
                        ++ [mkDiag SeverityError "Invalid scope configuration"
                              (Error scopeError)])
                       (encryptedJSON.State resp))))
  /\ (forall Getenv State_Set r data diags resp,
     1 < nonEmptyScopes [encryptedYAML.UnencryptedSuffix data;
                         encryptedYAML.EncryptedSuffix data;
                         encryptedYAML.UnencryptedRegex data;
                         encryptedYAML.EncryptedRegex data] ->
     let r' := encryptedYAML.Create env Getenv State_Set r (data, diags) resp l in
     r'.2 = l /\ vaultRequests r'.2 = vaultRequests l
     /\ (HasError (encryptedYAML.RespDiagnostics resp ++ diags) = false ->
         r'.1 = Ret (encryptedYAML.mkResponse
                       ((encryptedYAML.RespDiagnostics resp ++ diags)
                        ++ [mkDiag SeverityError "Invalid scope configuration"
                              (Error scopeError)])
                       (encryptedYAML.State resp)))).
Proof.
  split; intros Getenv State_Set r data diags resp Hmany; cbv zeta.
  - unfold encryptedJSON.Create, encryptedJSON.validateScope.
    rewrite countSet_nonEmptyScopes.
    destruct (Nat.ltb_spec 1 (nonEmptyScopes
      [encryptedJSON.UnencryptedSuffix data; encryptedJSON.EncryptedSuffix data;
       encryptedJSON.UnencryptedRegex data; encryptedJSON.EncryptedRegex data]));
      [|lia].
    simpl. destruct (HasError _); simpl; repeat split; try done.
  - unfold encryptedYAML.Create, encryptedYAML.validateScope.
    rewrite countSet_nonEmptyScopes.
    destruct (Nat.ltb_spec 1 (nonEmptyScopes
      [encryptedYAML.UnencryptedSuffix data; encryptedYAML.EncryptedSuffix data;
       encryptedYAML.UnencryptedRegex data; encryptedYAML.EncryptedRegex data]));
      [|lia].
    simpl. destruct (HasError _); simpl; repeat split; try done.
Qed.

(** The plan of a resource that sets both [unencrypted_suffix] and
    [encrypted_regex], against the endpoint of the tests. *)
Lemma Create_rejects_conflicting_scope_witness :
  let data := encryptedJSON.mkModel StringUnknown (StringValue Mock.document)
                (StringValue "k") (StringValue "_plain") StringNull StringNull
                (StringValue "^password$") (BoolValue false) StringUnknown in
  let r := {| encryptedJSON.pd := Some {| vaultAddress := "http://127.0.0.1:8200";
                                          vaultToken := "test-token";
                                          vaultTransitEngine := "transit" |} |} in
  let r' := encryptedJSON.Create Mock.env Mock.Getenv (fun _ => []) r (data, [])
              (encryptedJSON.mkResponse [] None) [] in
  vaultRequests r'.2 = 0
  /\ r'.1 = Ret (encryptedJSON.mkResponse
                   [mkDiag SeverityError "Invalid scope configuration"
                      (Error scopeError)] None).
Proof.
  cbv zeta.
  pose proof (Create_rejects_conflicting_scope Mock.env []) as [HJ _].
  match goal with
  | |- context [encryptedJSON.Create _ _ ?s ?r (?d, ?ds) ?resp _] =>
      specialize (HJ Mock.Getenv s r d ds resp)
  end.
  destruct HJ as (_ & Hreq & Hdiag); [vm_compute; lia|].
  split; [exact Hreq | exact (Hdiag eq_refl)].
Defined.

(** ** Errors and output *)

Section AllOrNothing.
Context (env : Env) (client : Client) (transitPath keyName jsonContent : string)
        (opts : EncryptOpts) (l : Log).

#[local] Abbreviation toJSON :=
  (EncryptToJSON env client transitPath keyName jsonContent opts l).
#[local] Abbreviation toYAML :=
  (EncryptToYAML env client transitPath keyName jsonContent opts l).
#[local] Abbreviation parsed := (Steps.parsed env jsonContent).
#[local] Abbreviation keyRead := (Steps.keyRead env l).
#[local] Abbreviation afterKey := (Steps.afterKey l).
#[local] Abbreviation wrapRequest := (Steps.wrapRequest env client transitPath keyName l).
#[local] Abbreviation wrapAnswer := (Steps.wrapAnswer env client transitPath keyName l).
#[local] Abbreviation wrapError := (Steps.wrapError env client transitPath keyName l).
#[local] Abbreviation wrappedToken := (Steps.wrappedToken env client transitPath keyName l).
#[local] Abbreviation afterWrap := (Steps.afterWrap env client transitPath keyName l).
#[local] Abbreviation treeAnswer :=
  (Steps.treeAnswer env client transitPath keyName jsonContent opts l).
#[local] Abbreviation afterTree := (Steps.afterTree env client transitPath keyName l).


End AllOrNothing.


(** ** The key-wrap call *)

Section KeyWrap.
Context (env : Env) (client : Client) (transitPath keyName jsonContent : string)
        (opts : EncryptOpts) (l : Log).

#[local] Abbreviation toJSON' :=
  (EncryptToJSON env client transitPath keyName jsonContent opts l).
#[local] Abbreviation toYAML' :=
  (EncryptToYAML env client transitPath keyName jsonContent opts l).
#[local] Abbreviation parsed' := (Steps.parsed env jsonContent).
#[local] Abbreviation keyRead' := (Steps.keyRead env l).
#[local] Abbreviation request := (Steps.wrapRequest env client transitPath keyName l).
#[local] Abbreviation wrapError' := (Steps.wrapError env client transitPath keyName l).
#[local] Abbreviation afterWrap' := (Steps.afterWrap env client transitPath keyName l).

(** C4, as the code has it.  A call sends at most one request to the
    transit endpoint.  It sends none when the parser or the random source
    fails.  Otherwise it sends exactly one, for the key just generated,
    right after the read from the random source and before the tree walker
    runs (which happens at most once, after the clock is read).  When that one
    request fails, both entry points return its error with the empty string,
    the tree walker has not run, and a resource whose [Create] made the call
    keeps the state it had. *)
Theorem key_wrap_at_most_once :
  toJSON'.2 = toYAML'.2
  /\ (parsed'.2 <> None \/ keyRead'.2 <> None ->
        vaultRequests toJSON'.2 = vaultRequests l
        /\ treeEncryptions toJSON'.2 = treeEncryptions l)
  /\ (parsed'.2 = None -> keyRead'.2 = None ->
        (toJSON'.2 = l ++ [EvRandRead 32; request]
         \/ toJSON'.2 = l ++ [EvRandRead 32; request; EvNow; EvEncryptTree])
        /\ vaultRequests toJSON'.2 = S (vaultRequests l))
  /\ (parsed'.2 = None -> keyRead'.2 = None ->
      forall e, wrapError' = Some e ->
        toJSON' = (Ret ("", Some e), afterWrap')
        /\ toYAML' = (Ret ("", Some e), afterWrap')
        /\ afterWrap' = l ++ [EvRandRead 32; request]
        /\ treeEncryptions afterWrap' = treeEncryptions l
        /\ (forall Getenv State_Set r data diags resp,
              encryptedJSON.encrypt env Getenv r data l = toJSON' ->
              exists diags' l',
                encryptedJSON.Create env Getenv State_Set r (data, diags) resp l
                = (Ret (encryptedJSON.mkResponse diags'
                          (encryptedJSON.State resp)), l'))
        /\ (forall Getenv State_Set r data diags resp,
              encryptedYAML.encrypt env Getenv r data l = toYAML' ->
              exists diags' l',
                encryptedYAML.Create env Getenv State_Set r (data, diags) resp l
                = (Ret (encryptedYAML.mkResponse diags'
                          (encryptedYAML.State resp)), l'))).
Proof.
  assert (Hlog : forall emit,
    (encryptDocument env client transitPath keyName jsonContent opts emit l).2
    = match parsed'.2, keyRead'.2 with
      | Some _, _ => l
      | None, Some _ => l ++ [EvRandRead 32]
      | None, None =>
          match Steps.wrappedToken env client transitPath keyName l with
          | Some _ => l ++ [EvRandRead 32; request; EvNow; EvEncryptTree]
          | None => l ++ [EvRandRead 32; request]
          end
      end).
  { intros emit. rewrite encryptDocument_log.
    unfold Steps.afterTree, Steps.afterNow, Steps.afterWrap, Steps.afterKey.
    rewrite <- !app_assoc. reflexivity. }
  rewrite EncryptToJSON_log, EncryptToYAML_log, !Hlog.
  split; [reflexivity|]. split; [|split].
  - intros [H|H].
    + destruct parsed'.2; [done | congruence].
    + destruct parsed'.2; [done|]. destruct keyRead'.2; [|congruence].
      count_events.
  - intros -> ->. split.
    + destruct (Steps.wrappedToken _ _ _ _ _); auto.
    + destruct (Steps.wrappedToken _ _ _ _ _); count_events.
  - intros Hp Hk e Hw.
    assert (toJSON' = (Ret ("", Some e), afterWrap')) as ->
      by (entry encryptDocument_wrap_error; reflexivity).
    assert (toYAML' = (Ret ("", Some e), afterWrap')) as ->
      by (entry encryptDocument_wrap_error; reflexivity).
    split; [reflexivity|]. split; [reflexivity|]. split; [|split; [|split]].
    + unfold Steps.afterWrap, Steps.afterKey. by rewrite <- app_assoc.
    + count_events.
    + intros Getenv State_Set r data diags resp Hcall.
      by eapply encryptedJSON_Create_error_keeps_state.
    + intros Getenv State_Set r data diags resp Hcall.
      by eapply encryptedYAML_Create_error_keeps_state.
Qed.

End KeyWrap.

(** C4 as stated fails: a call whose input does not parse returns before
    [wrapDataKey] and the endpoint sees no request at all, not one. *)
Lemma key_wrap_exactly_once_fails :
  let call := EncryptToJSON Mock.env Mock.client "transit" "k" "not json"
                Mock.noOpts [] in
  call = (Ret ("", Some (WrapError "parsing content as JSON"
                           (ErrorString "invalid character"))), [])
  /\ vaultRequests call.2 <> 1.
Proof. split; [vm_compute; reflexivity | vm_compute; lia]. Qed.

(** A witness for the amended statement: the document of the tests against
    an endpoint that is down. *)
Lemma key_wrap_at_most_once_witness :
  let env := Mock.withEndpoint Mock.refused in
  let call := EncryptToJSON env Mock.client "transit" "k" Mock.document
                Mock.noOpts [] in
  vaultRequests call.2 = 1 /\ treeEncryptions call.2 = 0
  /\ exists e, call.1 = Ret ("", Some e).
Proof.
  pose proof (key_wrap_at_most_once (Mock.withEndpoint Mock.refused) Mock.client
                "transit" "k" Mock.document Mock.noOpts [])
    as (_ & _ & Hone & Hfail).
  destruct (Hone eq_refl eq_refl) as [_ Hcount].
  destruct (Hfail eq_refl eq_refl _ eq_refl) as (Hj & _ & _ & Htree & _).
  cbv zeta. rewrite Hj in *. simpl in *.
  split; [exact Hcount|]. split; [exact Htree|].
  eexists. reflexivity.
Defined.

(** ** The .sops.yaml renderer *)

(** C7. A nil slice and an empty slice of path regexes give the same text.
    In both cases the encoder is handed a document with exactly one creation
    rule whose only field is [hc_vault_transit_uri]: there is no
    [path_regex] key, not even one with an empty value.  For a non-empty
    slice the rules are the regexes in the given order, one rule each, all
    with the same URI, and the document handed to the encoder lists them in
    that order.  The text returned is, byte for byte, what the YAML encoder
    (indent two) writes for that document followed by what it flushes when
    it is closed; when the encoder fails at either step the result is the
    empty string with the wrapped error. *)
Theorem GenerateSOPSConfig_rules env base enginePath keyName :
  let uri := TrimRight base "/" +:+ "/v1/" +:+ enginePath
             +:+ "/keys/" +:+ keyName in
  let catchAll :=
    yaml.MappingNode
      [("creation_rules",
        yaml.SequenceNode
          [yaml.MappingNode [("hc_vault_transit_uri", yaml.ScalarNode uri)]])] in
  let output (doc : yaml.Node) : string * option error :=
    match yaml_Encode env 2 doc with
    | (_, Some e) => ("", Some (WrapError "marshaling sops config" e))
    | (written, None) =>
        match yaml_Close env 2 doc with
        | (_, Some e) => ("", Some (WrapError "closing yaml encoder" e))
        | (flushed, None) =>
            (String.string_of_list_byte (written ++ flushed), None)
        end
    end in
  GenerateSOPSConfig env base enginePath keyName None
    = GenerateSOPSConfig env base enginePath keyName (Some [])
  /\ GenerateSOPSConfig env base enginePath keyName None = output catchAll
  /\ creationRules base enginePath keyName None
       = [{| PathRegex := ""; HCVaultTransitURI := uri |}]
  /\ Forall (fun r => "path_regex" ∉ (fieldsOf (marshalRule r)).*1)
       (creationRules base enginePath keyName None)
  /\ forall res, res <> [] ->
       let rules := creationRules base enginePath keyName (Some res) in
       rules = map (fun re => {| PathRegex := re; HCVaultTransitURI := uri |}) res
       /\ length rules = length res
       /\ (forall i re, res !! i = Some re ->
             rules !! i = Some {| PathRegex := re; HCVaultTransitURI := uri |})
       /\ GenerateSOPSConfig env base enginePath keyName (Some res)
          = output
              (yaml.MappingNode
                 [("creation_rules",
                   yaml.SequenceNode
                     (map (fun re => marshalRule
                                       {| PathRegex := re; HCVaultTransitURI := uri |})
                        res))]).
Proof.
  cbv zeta.
  repeat split.
  - repeat constructor. simpl. by intros ?%list_elem_of_singleton.
  - rewrite creationRules_eq. by destruct res.
  - rewrite creationRules_eq. destruct res; [done|]. by rewrite length_map.
  - intros i re Hi. rewrite creationRules_eq. destruct res; [done|].
    by rewrite list_lookup_fmap, Hi.
  - unfold GenerateSOPSConfig, marshalConfig, encodeYAML. cbv zeta.
    simpl CreationRules.
    rewrite creationRules_eq. destruct res; [done|].
    by rewrite <- list_fmap_compose.
Qed.

(** The renderer on the addresses of the package's tests, with a stand-in
    for the encoder that writes flow style: the catch-all rule in the text,
    with and without a trailing slash the same URI, and one rule per regex
    in the order given. *)
Lemma GenerateSOPSConfig_rules_witness :
  creationRules "http://127.0.0.1:8200/" "transit" "my-key" None
    = [{| PathRegex := "";
          HCVaultTransitURI := "http://127.0.0.1:8200/v1/transit/keys/my-key" |}]
  /\ creationRules "http://127.0.0.1:8200" "transit" "my-key"
       (Some ["^secrets/.*$"; "^config/.*$"])
     = [{| PathRegex := "^secrets/.*$";
           HCVaultTransitURI := "http://127.0.0.1:8200/v1/transit/keys/my-key" |};
        {| PathRegex := "^config/.*$";
           HCVaultTransitURI := "http://127.0.0.1:8200/v1/transit/keys/my-key" |}]
  /\ GenerateSOPSConfig Mock.env "http://127.0.0.1:8200/" "transit" "my-key" None
     = ("{creation_rules: [{hc_vault_transit_uri: http://127.0.0.1:8200/v1/transit/keys/my-key}]}"
        +:+ Mock.newline, None)
  /\ GenerateSOPSConfig Mock.env "http://127.0.0.1:8200" "transit" "my-key"
       (Some ["^secrets/.*$"; "^config/.*$"])
     = ("{creation_rules: [{path_regex: ^secrets/.*$, hc_vault_transit_uri: http://127.0.0.1:8200/v1/transit/keys/my-key}, {path_regex: ^config/.*$, hc_vault_transit_uri: http://127.0.0.1:8200/v1/transit/keys/my-key}]}"
        +:+ Mock.newline, None).
Proof.
  pose proof (GenerateSOPSConfig_rules Mock.env "http://127.0.0.1:8200/"
                "transit" "my-key") as (_ & Hout & Hnil & _).
  pose proof (GenerateSOPSConfig_rules Mock.env "http://127.0.0.1:8200"
                "transit" "my-key") as (_ & _ & _ & _ & Hmany).
  destruct (Hmany ["^secrets/.*$"; "^config/.*$"]) as (Hrules & _ & _ & Htext);
    [discriminate|].
  split; [exact Hnil|]. split; [exact Hrules|]. split.
  - rewrite Hout. vm_compute. reflexivity.
  - rewrite Htext. vm_compute. reflexivity.
Defined.

(** C8. Every rule carries the base with its trailing slashes removed,
    followed by [/v1/<enginePath>/keys/<keyName>]; the same URI is the
    [hc_vault_transit_uri] field of every rule handed to the encoder.  The
    trimmed base is the base minus a run of slashes at its end and does not
    end with a slash, so the URI never ends with
    [//v1/<enginePath>/keys/<keyName>]. *)
Theorem key_uri_trims_trailing_slashes base enginePath keyName pathRegexes :
  let trimmed := TrimRight base "/" in
  let path := "/v1/" +:+ enginePath +:+ "/keys/" +:+ keyName in
  let rules := creationRules base enginePath keyName pathRegexes in
  rules <> []
  /\ Forall (fun r => HCVaultTransitURI r = trimmed +:+ path) rules
  /\ Forall (fun r => ("hc_vault_transit_uri", yaml.ScalarNode (trimmed +:+ path))
                      ∈ fieldsOf (marshalRule r)) rules
  /\ (exists n, base = trimmed +:+ slashes n)
  /\ HasSuffix trimmed "/" = false
  /\ HasSuffix (trimmed +:+ path) ("/" +:+ path) = false.
Proof.
  cbv zeta.
  assert (Huri : Forall (fun r => HCVaultTransitURI r
                   = TrimRight base "/" +:+ "/v1/" +:+ enginePath +:+ "/keys/"
                     +:+ keyName)
                   (creationRules base enginePath keyName pathRegexes)).
  { rewrite creationRules_eq. cbv zeta.
    destruct pathRegexes as [[|re rest]|]; try by repeat constructor.
    apply Forall_fmap, Forall_true. done. }
  repeat split.
  - rewrite creationRules_eq. by destruct pathRegexes as [[|re rest]|].
  - exact Huri.
  - eapply Forall_impl; [exact Huri|]. intros [re uri]; simpl; intros ->.
    unfold marshalRule. simpl. set_solver.
  - apply TrimRight_slashes.
  - apply TrimRight_no_trailing_slash.
  - apply not_true_is_false. intros [p Hp]%HasSuffix_spec.
    change ("/" +:+ "/v1/" +:+ enginePath +:+ "/keys/" +:+ keyName)
      with (String "/" ("/v1/" +:+ enginePath +:+ "/keys/" +:+ keyName)) in Hp.
    replace (p +:+ String "/" ("/v1/" +:+ enginePath +:+ "/keys/" +:+ keyName))
      with ((p +:+ "/") +:+ "/v1/" +:+ enginePath +:+ "/keys/" +:+ keyName) in Hp
      by (by rewrite append_assoc).
    apply append_inv_tail in Hp.
    pose proof (TrimRight_no_trailing_slash base) as Hno.
    rewrite Hp in Hno. apply not_true_iff_false in Hno. apply Hno.
    apply HasSuffix_spec. by exists p.
Qed.

(** ** An empty answer from the endpoint *)

(** C9, at the input where the code departs from it.  The endpoint answers
    the one request with an empty body, so [Logical().Write] returns a nil
    secret and a nil error.  [wrapDataKey] reads [secret.Data] without a
    check: both entry points panic, after exactly one request, instead of
    returning an error.  [AppRoleLogin] in the same file receives the same
    answer and returns an error. *)
Theorem wrapDataKey_nil_secret_panics :
  let env := Mock.withEndpoint Mock.emptyBody in
  let request :=
    EvVaultWrite Mock.client "transit/encrypt/k"
      {[ "plaintext" := IString (String.string_of_list_byte (replicate 32 Byte.x2a)) ]} in
  Logical_Write env [EvRandRead 32] Mock.client "transit/encrypt/k"
    {[ "plaintext" := IString (String.string_of_list_byte (replicate 32 Byte.x2a)) ]}
    = (None, None)
  /\ EncryptToJSON env Mock.client "transit" "k" Mock.document Mock.noOpts []
     = (Panic "invalid memory address or nil pointer dereference",
        [EvRandRead 32; request])
  /\ EncryptToYAML env Mock.client "transit" "k" Mock.document Mock.noOpts []
     = (Panic "invalid memory address or nil pointer dereference",
        [EvRandRead 32; request])
  /\ (AppRoleLogin env Mock.Getenv "http://127.0.0.1:8200" "approle" "role" "secret" []).1
     = Ret ("", Some (ErrorString "approle login: empty auth response from Vault")).
Proof. repeat split; vm_compute; reflexivity. Qed.

(** ** The PrettyJSON flag and the YAML path *)

(** C10. [EncryptToYAML] does not look at [PrettyJSON]: two option values
    that agree on the four scope fields give the same result and the same
    log (hence the same request to the endpoint), for every environment and
    every log to start from. *)
Theorem EncryptToYAML_ignores_PrettyJSON env client transitPath keyName jsonContent
    (opts opts' : EncryptOpts) l :
  sopsencrypt.UnencryptedSuffix opts = sopsencrypt.UnencryptedSuffix opts' ->
  sopsencrypt.EncryptedSuffix opts = sopsencrypt.EncryptedSuffix opts' ->
  sopsencrypt.UnencryptedRegex opts = sopsencrypt.UnencryptedRegex opts' ->
  sopsencrypt.EncryptedRegex opts = sopsencrypt.EncryptedRegex opts' ->
  EncryptToYAML env client transitPath keyName jsonContent opts l
  = EncryptToYAML env client transitPath keyName jsonContent opts' l.
Proof.
  destruct opts, opts'. simpl. intros -> -> -> ->.
  unfold EncryptToYAML, encryptDocument. simpl. reflexivity.
Qed.

Lemma EncryptToYAML_ignores_PrettyJSON_witness :
  let pretty := sopsencrypt.mkEncryptOpts "" "" "" "host" true in
  let plain := sopsencrypt.mkEncryptOpts "" "" "" "host" false in
  PrettyJSON pretty <> PrettyJSON plain
  /\ EncryptToYAML Mock.env Mock.client "transit" "k" Mock.document pretty []
     = EncryptToYAML Mock.env Mock.client "transit" "k" Mock.document plain [].
Proof.
  split; [discriminate|].
  apply EncryptToYAML_ignores_PrettyJSON; reflexivity.
Defined.

(* ===================================================================== *)
(** * Further properties of the code                                       *)
(* ===================================================================== *)

(** ** AppRole login *)

(** X1. [AppRoleLogin] returns for every answer of Vault; it never panics.
    When the client cannot be built nothing is sent; otherwise exactly one
    request goes to [auth/<approlePath>/login], with the role id and the
    secret id as payload and an empty token.  An error always comes with the
    empty token, and the call succeeds exactly when the client was built and
    the answer carries a secret with an [Auth] part, whose client token is
    then the result. *)
Theorem AppRoleLogin_never_panics env Getenv address approlePath roleID secretID l :
  let client := {| Address := vault_Address env Getenv address; Token := "" |} in
  let path := "auth/" +:+ approlePath +:+ "/login" in
  let payload : gmap string iface :=
    {[ "role_id" := IString roleID; "secret_id" := IString secretID ]} in
  exists token err l',
    AppRoleLogin env Getenv address approlePath roleID secretID l = (Ret (token, err), l')
    /\ (err <> None -> token = "")
    /\ (vault_NewClient env Getenv address <> None -> l' = l)
    /\ (vault_NewClient env Getenv address = None ->
        l' = l ++ [EvVaultWrite client path payload])
    /\ (err = None <->
        vault_NewClient env Getenv address = None
        /\ exists secret auth,
             Logical_Write env l client path payload = (Some secret, None)
             /\ Auth secret = Some auth /\ token = ClientToken auth).
Proof.
  cbv zeta. unfold AppRoleLogin, NewVaultClient.
  destruct (vault_NewClient env Getenv address) as [e|] eqn:Hclient.
  { eexists _, _, _. split; [reflexivity|]. repeat split; try done.
    intros [? _]. done. }
  unfold_monad.
  destruct (Logical_Write env l _ _ _) as [[secret|] [e|]] eqn:Hwrite.
  - eexists _, _, _. split; [reflexivity|]. repeat split; try done.
    intros (_ & s & a & ? & _). done.
  - destruct (Auth secret) as [auth|] eqn:Hauth.
    + eexists _, _, _. split; [reflexivity|]. repeat split; try done.
      by exists secret, auth.
    + eexists _, _, _. split; [reflexivity|]. repeat split; try done.
      intros (_ & s & a & Hs & Ha & _). injection Hs as <-. congruence.
  - eexists _, _, _. split; [reflexivity|]. repeat split; try done.
    intros (_ & s & a & ? & _). done.
  - eexists _, _, _. split; [reflexivity|]. repeat split; try done.
    intros (_ & s & a & ? & _). done.
Qed.

(** ** Configuring the provider *)

Lemma AppRoleLogin_run env Getenv address approlePath roleID secretID l :
  let client := {| Address := vault_Address env Getenv address; Token := "" |} in
  let path := "auth/" +:+ approlePath +:+ "/login" in
  let payload : gmap string iface :=
    {[ "role_id" := IString roleID; "secret_id" := IString secretID ]} in
  AppRoleLogin env Getenv address approlePath roleID secretID l =
  match vault_NewClient env Getenv address with
  | Some e => (Ret ("", Some (WrapError "creating vault client" e)), l)
  | None =>
      (Ret match Logical_Write env l client path payload with
           | (_, Some e) =>
               ("", Some (WrapError ("approle login at auth/" +:+ approlePath
                                      +:+ "/login") e))
           | (None, None) =>
               ("", Some (ErrorString
                            "approle login: empty auth response from Vault"))
           | (Some secret, None) =>
               match Auth secret with
               | None =>
                   ("", Some (ErrorString
                                "approle login: empty auth response from Vault"))
               | Some auth => (ClientToken auth, None)
               end
           end, l ++ [EvVaultWrite client path payload])
  end.
Proof.
  cbv zeta. unfold AppRoleLogin, NewVaultClient.
  destruct (vault_NewClient env Getenv address); [reflexivity|].
  unfold_monad.
  destruct (Logical_Write env l _ _ _) as [[secret|] [e|]]; try reflexivity.
  by destruct (Auth secret).
Qed.

Lemma HasError_AddError ds summary detail :
  HasError (AddError ds summary detail) = true.
Proof.
  unfold HasError, AddError. rewrite existsb_app. simpl.
  by rewrite orb_true_r.
Qed.

Lemma resolveStringDefault_nonempty attr defaultVal :
  defaultVal <> "" -> providerConfig.resolveStringDefault attr defaultVal <> "".
Proof.
  intros Hdef. unfold providerConfig.resolveStringDefault.
  destruct attr as [| |s]; simpl; try done.
  by destruct (String.eqb_spec s "").
Qed.

(** X2. [Configure] of the provider returns for every configuration and
    every answer of Vault, and talks to Vault at most once.  It sends
    nothing when the configuration has errors, when no address is resolved,
    when a token is resolved, or when the role id or the secret id is
    missing.  Only with an address, no token, and both halves of the AppRole
    credentials does it send the login request, through the client the
    library builds for the resolved address, at the AppRole mount (default
    [approle]). *)
Theorem Configure_logs_in_only_for_approle env Getenv config diags resp l :
  let address := providerConfig.resolveString Getenv
                   (providerConfig.VaultAddress config) "VAULT_ADDR" in
  let token := providerConfig.resolveString Getenv
                 (providerConfig.VaultToken config) "VAULT_TOKEN" in
  let role := providerConfig.resolveString Getenv
                (providerConfig.VaultRoleID config) "VAULT_ROLE_ID" in
  let secret := providerConfig.resolveString Getenv
                  (providerConfig.VaultSecretID config) "VAULT_SECRET_ID" in
  let mount := providerConfig.resolveStringDefault
                 (providerConfig.VaultApprolePath config) "approle" in
  let run := providerConfig.Configure env Getenv (config, diags) resp l in
  (exists resp', run.1 = Ret resp')
  /\ vaultRequests run.2 <= vaultRequests l + 1
  /\ (HasError (providerConfig.ConfDiagnostics resp ++ diags) = true
      \/ address = "" \/ token <> "" \/ role = "" \/ secret = ""
      \/ vault_NewClient env Getenv address <> None -> run.2 = l)
  /\ (HasError (providerConfig.ConfDiagnostics resp ++ diags) = false ->
      address <> "" -> token = "" -> role <> "" -> secret <> "" ->
      vault_NewClient env Getenv address = None ->
      run.2 = l ++ [EvVaultWrite {| Address := vault_Address env Getenv address; Token := "" |}
                      ("auth/" +:+ mount +:+ "/login")
                      {[ "role_id" := IString role;
                         "secret_id" := IString secret ]}]).
Proof.
  cbv zeta. unfold providerConfig.Configure. simpl.
  destruct (HasError _) eqn:Herr.
  { simpl. repeat split; eauto; lia. }
  destruct (String.eqb_spec
              (providerConfig.resolveString Getenv
                 (providerConfig.VaultAddress config) "VAULT_ADDR") "")
    as [Ha|Ha].
  { simpl. repeat split; eauto; try lia. done. }
  destruct (String.eqb_spec
              (providerConfig.resolveString Getenv
                 (providerConfig.VaultToken config) "VAULT_TOKEN") "")
    as [Ht|Ht];
  destruct (String.eqb_spec
              (providerConfig.resolveString Getenv
                 (providerConfig.VaultRoleID config) "VAULT_ROLE_ID") "")
    as [Hr|Hr];
  destruct (String.eqb_spec
              (providerConfig.resolveString Getenv
                 (providerConfig.VaultSecretID config) "VAULT_SECRET_ID") "")
    as [Hs|Hs]; simpl;
  try (repeat split; eauto; try lia; done).
  unfold_monad. rewrite AppRoleLogin_run. cbv zeta.
  destruct (vault_NewClient env _ _) as [e|] eqn:Hclient.
  { simpl. repeat split; eauto; try lia. done. }
  destruct (Logical_Write env l _ _ _) as [[s|] [e|]]; simpl;
    try destruct (Auth s); simpl;
    (split; [eauto|]); (split; [count_events|]);
    (split; [intros [?|[?|[?|[?|[?|?]]]]]; congruence | done]).
Qed.

(** X3. Starting from a response without provider data, [Configure] hands
    out provider data exactly when it reports no error.  Both slots then
    hold the same data; its address is the resolved one and is not empty,
    its transit mount is not empty (it defaults to [transit]), no diagnostic
    was added, and a resolved token is stored unchanged without any request
    to Vault; without a token the stored one is the client token of the
    login answer.  When no data is handed out the response has an error. *)
Theorem Configure_data_iff_no_error env Getenv config diags resp l resp' l' :
  providerConfig.DataSourceData resp = None ->
  providerConfig.ResourceData resp = None ->
  providerConfig.Configure env Getenv (config, diags) resp l = (Ret resp', l') ->
  let address := providerConfig.resolveString Getenv
                   (providerConfig.VaultAddress config) "VAULT_ADDR" in
  let token := providerConfig.resolveString Getenv
                 (providerConfig.VaultToken config) "VAULT_TOKEN" in
  let role := providerConfig.resolveString Getenv
                (providerConfig.VaultRoleID config) "VAULT_ROLE_ID" in
  let secretID := providerConfig.resolveString Getenv
                    (providerConfig.VaultSecretID config) "VAULT_SECRET_ID" in
  let mount := providerConfig.resolveStringDefault
                 (providerConfig.VaultApprolePath config) "approle" in
  providerConfig.DataSourceData resp' = providerConfig.ResourceData resp'
  /\ match providerConfig.ResourceData resp' with
     | Some pd =>
         HasError (providerConfig.ConfDiagnostics resp') = false
         /\ providerConfig.ConfDiagnostics resp'
            = providerConfig.ConfDiagnostics resp ++ diags
         /\ vaultAddress pd = address /\ address <> ""
         /\ vaultTransitEngine pd <> ""
         /\ (token <> "" -> vaultToken pd = token /\ l' = l)
         /\ (token = "" ->
             exists secret auth,
               Logical_Write env l {| Address := vault_Address env Getenv address;
                                      Token := "" |}
                 ("auth/" +:+ mount +:+ "/login")
                 {[ "role_id" := IString role; "secret_id" := IString secretID ]}
               = (Some secret, None)
               /\ Auth secret = Some auth
               /\ vaultToken pd = ClientToken auth
               /\ vaultRequests l' = S (vaultRequests l))
     | None => HasError (providerConfig.ConfDiagnostics resp') = true
     end.
Proof.
  intros Hds Hrs. cbv zeta. unfold providerConfig.Configure. simpl.
  rewrite Hds, Hrs.
  pose proof (resolveStringDefault_nonempty
                (providerConfig.VaultTransitEngine config) "transit") as Hengine.
  destruct (HasError _) eqn:Herr.
  { intros [= <- <-]. simpl. done. }
  destruct (String.eqb_spec
              (providerConfig.resolveString Getenv
                 (providerConfig.VaultAddress config) "VAULT_ADDR") "")
    as [Ha|Ha].
  { intros [= <- <-]. simpl. by rewrite HasError_AddError. }
  destruct (String.eqb_spec
              (providerConfig.resolveString Getenv
                 (providerConfig.VaultToken config) "VAULT_TOKEN") "")
    as [Ht|Ht];
  destruct (String.eqb_spec
              (providerConfig.resolveString Getenv
                 (providerConfig.VaultRoleID config) "VAULT_ROLE_ID") "")
    as [Hr|Hr];
  destruct (String.eqb_spec
              (providerConfig.resolveString Getenv
                 (providerConfig.VaultSecretID config) "VAULT_SECRET_ID") "")
    as [Hs|Hs]; simpl;
  try (intros [= <- <-]; simpl; rewrite ?HasError_AddError;
       repeat split; auto; done).
  unfold_monad. rewrite AppRoleLogin_run. cbv zeta.
  destruct (vault_NewClient env _ _) as [e|] eqn:Hclient.
  { intros [= <- <-]. simpl. by rewrite HasError_AddError. }
  destruct (Logical_Write env l _ _ _) as [[s|] [e|]] eqn:Hwrite; simpl;
    try (intros [= <- <-]; simpl; by rewrite HasError_AddError).
  destruct (Auth s) as [auth|] eqn:Hauth; simpl;
    try (intros [= <- <-]; simpl; by rewrite HasError_AddError).
  intros [= <- <-]. simpl. repeat split; auto; try congruence.
  intros _. exists s, auth. repeat split; auto. count_events.
Qed.

(** A provider block with an address and a token, in an empty environment:
    the data is handed out and nothing is sent. *)
Lemma Configure_data_iff_no_error_witness :
  let config := providerConfig.mkProviderModel
                  (StringValue "http://127.0.0.1:8200") (StringValue "test-token")
                  StringNull StringNull StringNull StringNull in
  exists resp',
    providerConfig.Configure Mock.env (fun _ => "") (config, [])
      (providerConfig.mkConfigureResponse [] None None) [] = (Ret resp', [])
    /\ providerConfig.ResourceData resp'
       = Some {| vaultAddress := "http://127.0.0.1:8200";
                 vaultToken := "test-token";
                 vaultTransitEngine := "transit" |}
    /\ providerConfig.DataSourceData resp' = providerConfig.ResourceData resp'.
Proof.
  intros config. eexists. split; [reflexivity|]. split; [reflexivity|].
  match goal with
  | |- providerConfig.DataSourceData ?r = _ =>
      exact (proj1 (Configure_data_iff_no_error Mock.env (fun _ => "") config []
                      (providerConfig.mkConfigureResponse [] None None) [] r []
                      eq_refl eq_refl eq_refl))
  end.
Defined.

(** X4. Where [Configure] does not log in, the environment only fills
    gaps.  When the configuration has errors, no address is resolved, a
    token is resolved, or the role id or the secret id is missing,
    [Configure] builds no Vault client and reads the environment only
    through [resolveString], and not at all for an attribute that is set to
    a non-empty value: two environments that agree on the variables of the
    attributes left null, unknown or empty give the same response and the
    same log, however else they differ.  An attribute set to the empty
    string counts as not set.  (On the AppRole path the client library reads
    the environment as well, and nothing of the kind holds.) *)
Theorem Configure_environment_fills_gaps env Getenv1 Getenv2 config diags resp l :
  (scopeIsSet (providerConfig.VaultAddress config) = false ->
   Getenv1 "VAULT_ADDR" = Getenv2 "VAULT_ADDR") ->
  (scopeIsSet (providerConfig.VaultToken config) = false ->
   Getenv1 "VAULT_TOKEN" = Getenv2 "VAULT_TOKEN") ->
  (scopeIsSet (providerConfig.VaultRoleID config) = false ->
   Getenv1 "VAULT_ROLE_ID" = Getenv2 "VAULT_ROLE_ID") ->
  (scopeIsSet (providerConfig.VaultSecretID config) = false ->
   Getenv1 "VAULT_SECRET_ID" = Getenv2 "VAULT_SECRET_ID") ->
  HasError (providerConfig.ConfDiagnostics resp ++ diags) = true
  \/ providerConfig.resolveString Getenv1
       (providerConfig.VaultAddress config) "VAULT_ADDR" = ""
  \/ providerConfig.resolveString Getenv1
       (providerConfig.VaultToken config) "VAULT_TOKEN" <> ""
  \/ providerConfig.resolveString Getenv1
       (providerConfig.VaultRoleID config) "VAULT_ROLE_ID" = ""
  \/ providerConfig.resolveString Getenv1
       (providerConfig.VaultSecretID config) "VAULT_SECRET_ID" = "" ->
  providerConfig.Configure env Getenv1 (config, diags) resp l
  = providerConfig.Configure env Getenv2 (config, diags) resp l.
Proof.
  intros Ha Ht Hr Hs Hnologin.
  assert (Hres : forall attr var,
            (scopeIsSet attr = false -> Getenv1 var = Getenv2 var) ->
            providerConfig.resolveString Getenv2 attr var
            = providerConfig.resolveString Getenv1 attr var).
  { intros attr var H. unfold providerConfig.resolveString.
    fold (scopeIsSet attr). destruct (scopeIsSet attr); auto.
    symmetry. auto. }
  unfold providerConfig.Configure.
  rewrite (Hres _ _ Ha), (Hres _ _ Ht), (Hres _ _ Hr), (Hres _ _ Hs).
  cbv zeta.
  destruct (HasError _); [reflexivity|].
  destruct (String.eqb_spec
              (providerConfig.resolveString Getenv1
                 (providerConfig.VaultAddress config) "VAULT_ADDR") "");
    [reflexivity|].
  destruct (String.eqb_spec
              (providerConfig.resolveString Getenv1
                 (providerConfig.VaultToken config) "VAULT_TOKEN") "");
  destruct (String.eqb_spec
              (providerConfig.resolveString Getenv1
                 (providerConfig.VaultRoleID config) "VAULT_ROLE_ID") "");
  destruct (String.eqb_spec
              (providerConfig.resolveString Getenv1
                 (providerConfig.VaultSecretID config) "VAULT_SECRET_ID") "");
    simpl; try reflexivity.
  destruct Hnologin as [?|[?|[?|[?|?]]]]; congruence.
Qed.

(** A provider block that sets the address and the token, in an empty
    environment and in one that sets [VAULT_TOKEN] and an agent address: the
    outcome is the same. *)
Lemma Configure_environment_fills_gaps_witness :
  let config := providerConfig.mkProviderModel
                  (StringValue "http://127.0.0.1:8200") (StringValue "test-token")
                  StringNull StringNull StringNull StringNull in
  let resp := providerConfig.mkConfigureResponse [] None None in
  providerConfig.Configure Mock.env
    (fun var => if String.eqb var "VAULT_TOKEN" then "from-env"
                else Mock.behindAgent var)
    (config, []) resp []
  = providerConfig.Configure Mock.env Mock.Getenv (config, []) resp [].
Proof.
  intros config resp.
  apply Configure_environment_fills_gaps;
    try (intros H; solve [discriminate H | reflexivity]).
  right. right. left. discriminate.
Defined.

(** ** Creating a resource *)

Lemma encryptDocument_panics_iff env client transitPath keyName jsonContent
    opts emit l :
  (exists msg,
     (encryptDocument env client transitPath keyName jsonContent opts emit l).1
     = Panic msg)
  <-> (Steps.parsed env jsonContent).2 = None
      /\ (Steps.keyRead env l).2 = None
      /\ Steps.wrapAnswer env client transitPath keyName l = (None, None).
Proof.
  destruct (Steps.parsed env jsonContent).2 as [e|] eqn:Hp.
  { erewrite encryptDocument_parse_error by eassumption.
    split; [intros [? ?]; done | intros (? & _); done]. }
  destruct (Steps.keyRead env l).2 as [e|] eqn:Hk.
  { erewrite encryptDocument_key_error by eassumption.
    split; [intros [? ?]; done | intros (_ & ? & _); done]. }
  destruct (wrapAnswer_cases env client transitPath keyName l)
    as [(e & He & _ & Hne) | [(Hnil & _ & _) | (ct & Hct & _ & Hne)]].
  - erewrite encryptDocument_wrap_error by eassumption.
    split; [intros [? ?]; done | intros (_ & _ & ?); done].
  - erewrite encryptDocument_wrap_nil by eassumption.
    split; [done | intros _; by eexists].
  - erewrite encryptDocument_wrapped by eassumption.
    split; [intros [? ?]; done | intros (_ & _ & ?); done].
Qed.

Lemma encryptedJSON_encrypt_run env Getenv r data l :
  encryptedJSON.encrypt env Getenv r data l =
  match encryptedJSON.pd r with
  | None => (Panic "invalid memory address or nil pointer dereference", l)
  | Some pd =>
      match vault_NewClient env Getenv (vaultAddress pd) with
      | Some e => (Ret ("", Some (WrapError "creating vault client" e)), l)
      | None =>
          EncryptToJSON env
            {| Address := vault_Address env Getenv (vaultAddress pd); Token := vaultToken pd |}
            (vaultTransitEngine pd)
            (ValueString (encryptedJSON.VaultKeyName data))
            (ValueString (encryptedJSON.Content data))
            (mkEncryptOpts
               (ValueString (encryptedJSON.UnencryptedSuffix data))
               (ValueString (encryptedJSON.EncryptedSuffix data))
               (ValueString (encryptedJSON.UnencryptedRegex data))
               (ValueString (encryptedJSON.EncryptedRegex data))
               (ValueBool (encryptedJSON.Pretty data))) l
      end
  end.
Proof.
  unfold encryptedJSON.encrypt, NewVaultClient.
  destruct (encryptedJSON.pd r) as [pd|]; [|reflexivity].
  by destruct (vault_NewClient env Getenv (vaultAddress pd)).
Qed.

Lemma encryptedYAML_encrypt_run env Getenv r data l :
  encryptedYAML.encrypt env Getenv r data l =
  match encryptedYAML.pd r with
  | None => (Panic "invalid memory address or nil pointer dereference", l)
  | Some pd =>
      match vault_NewClient env Getenv (vaultAddress pd) with
      | Some e => (Ret ("", Some (WrapError "creating vault client" e)), l)
      | None =>
          EncryptToYAML env
            {| Address := vault_Address env Getenv (vaultAddress pd); Token := vaultToken pd |}
            (vaultTransitEngine pd)
            (ValueString (encryptedYAML.VaultKeyName data))
            (ValueString (encryptedYAML.Content data))
            (mkEncryptOpts
               (ValueString (encryptedYAML.UnencryptedSuffix data))
               (ValueString (encryptedYAML.EncryptedSuffix data))
               (ValueString (encryptedYAML.UnencryptedRegex data))
               (ValueString (encryptedYAML.EncryptedRegex data))
               false) l
      end
  end.
Proof.
  unfold encryptedYAML.encrypt, NewVaultClient.
  destruct (encryptedYAML.pd r) as [pd|]; [|reflexivity].
  by destruct (vault_NewClient env Getenv (vaultAddress pd)).
Qed.

Lemma encryptedJSON_Create_run env Getenv State_Set r data diags resp l :
  encryptedJSON.Create env Getenv State_Set r (data, diags) resp l =
  let ds := encryptedJSON.RespDiagnostics resp ++ diags in
  if HasError ds then (Ret (encryptedJSON.mkResponse ds (encryptedJSON.State resp)), l)
  else
    match encryptedJSON.validateScope data with
    | Some err =>
        (Ret (encryptedJSON.mkResponse
                (AddError ds "Invalid scope configuration" (Error err))
                (encryptedJSON.State resp)), l)
    | None =>
        match encryptedJSON.encrypt env Getenv r data l with
        | (Ret (_, Some err), l') =>
            (Ret (encryptedJSON.mkResponse
                    (AddError ds "SOPS encryption failed" (Error err))
                    (encryptedJSON.State resp)), l')
        | (Ret (ciphertext, None), l') =>
            let data' :=
              encryptedJSON.mkModel
                (StringValue (ValueString (encryptedJSON.VaultKeyName data)))
                (encryptedJSON.Content data) (encryptedJSON.VaultKeyName data)
                (encryptedJSON.UnencryptedSuffix data)
                (encryptedJSON.EncryptedSuffix data)
                (encryptedJSON.UnencryptedRegex data)
                (encryptedJSON.EncryptedRegex data)
                (encryptedJSON.Pretty data) (StringValue ciphertext) in
            (Ret (encryptedJSON.mkResponse (ds ++ State_Set data') (Some data')), l')
        | (Panic msg, l') => (Panic msg, l')
        end
    end.
Proof.
  unfold encryptedJSON.Create. simpl.
  destruct (HasError _); [reflexivity|].
  destruct (encryptedJSON.validateScope data); [reflexivity|].
  unfold_monad.
  by destruct (encryptedJSON.encrypt env Getenv r data l) as [[[ct [e|]]|msg] l'].
Qed.

Lemma encryptedYAML_Create_run env Getenv State_Set r data diags resp l :
  encryptedYAML.Create env Getenv State_Set r (data, diags) resp l =
  let ds := encryptedYAML.RespDiagnostics resp ++ diags in
  if HasError ds then (Ret (encryptedYAML.mkResponse ds (encryptedYAML.State resp)), l)
  else
    match encryptedYAML.validateScope data with
    | Some err =>
        (Ret (encryptedYAML.mkResponse
                (AddError ds "Invalid scope configuration" (Error err))
                (encryptedYAML.State resp)), l)
    | None =>
        match encryptedYAML.encrypt env Getenv r data l with
        | (Ret (_, Some err), l') =>
            (Ret (encryptedYAML.mkResponse
                    (AddError ds "SOPS encryption failed" (Error err))
                    (encryptedYAML.State resp)), l')
        | (Ret (ciphertext, None), l') =>
            let data' :=
              encryptedYAML.mkModel
                (StringValue (ValueString (encryptedYAML.VaultKeyName data)))
                (encryptedYAML.Content data) (encryptedYAML.VaultKeyName data)
                (encryptedYAML.UnencryptedSuffix data)
                (encryptedYAML.EncryptedSuffix data)
                (encryptedYAML.UnencryptedRegex data)
                (encryptedYAML.EncryptedRegex data)
                (StringValue ciphertext) in
            (Ret (encryptedYAML.mkResponse (ds ++ State_Set data') (Some data')), l')
        | (Panic msg, l') => (Panic msg, l')
        end
    end.
Proof.
  unfold encryptedYAML.Create. simpl.
  destruct (HasError _); [reflexivity|].
  destruct (encryptedYAML.validateScope data); [reflexivity|].
  unfold_monad.
  by destruct (encryptedYAML.encrypt env Getenv r data l) as [[[ct [e|]]|msg] l'].
Qed.

Lemma validateScope_JSON_spec data :
  encryptedJSON.validateScope data =
  if (1 <? nonEmptyScopes [encryptedJSON.UnencryptedSuffix data;
                           encryptedJSON.EncryptedSuffix data;
                           encryptedJSON.UnencryptedRegex data;
                           encryptedJSON.EncryptedRegex data])%nat
  then Some scopeError else None.
Proof. unfold encryptedJSON.validateScope. by rewrite countSet_nonEmptyScopes. Qed.

Lemma validateScope_YAML_spec data :
  encryptedYAML.validateScope data =
  if (1 <? nonEmptyScopes [encryptedYAML.UnencryptedSuffix data;
                           encryptedYAML.EncryptedSuffix data;
                           encryptedYAML.UnencryptedRegex data;
                           encryptedYAML.EncryptedRegex data])%nat
  then Some scopeError else None.
Proof. unfold encryptedYAML.validateScope. by rewrite countSet_nonEmptyScopes. Qed.

Lemma EncryptToJSON_panics_iff env client transitPath keyName jsonContent opts l :
  (exists msg,
     (EncryptToJSON env client transitPath keyName jsonContent opts l).1 = Panic msg)
  <-> (Steps.parsed env jsonContent).2 = None
      /\ (Steps.keyRead env l).2 = None
      /\ Steps.wrapAnswer env client transitPath keyName l = (None, None).
Proof.
  rewrite <- (encryptDocument_panics_iff env client transitPath keyName
                jsonContent opts (EmitEncryptedJSON env) l).
  rewrite EncryptToJSON_run.
  destruct (encryptDocument _ _ _ _ _ _ _ _) as [[[raw [e|]]|msg] l'']; simpl.
  - split; intros [? ?]; done.
  - split; intros [? ?]; done.
  - split; intros _; by eexists.
Qed.

Lemma EncryptToYAML_panics_iff env client transitPath keyName jsonContent opts l :
  (exists msg,
     (EncryptToYAML env client transitPath keyName jsonContent opts l).1 = Panic msg)
  <-> (Steps.parsed env jsonContent).2 = None
      /\ (Steps.keyRead env l).2 = None
      /\ Steps.wrapAnswer env client transitPath keyName l = (None, None).
Proof.
  rewrite <- (encryptDocument_panics_iff env client transitPath keyName
                jsonContent opts (EmitEncryptedYAML env) l).
  rewrite EncryptToYAML_run.
  destruct (encryptDocument _ _ _ _ _ _ _ _) as [[[raw [e|]]|msg] l'']; simpl.
  - split; intros [? ?]; done.
  - split; intros [? ?]; done.
  - split; intros _; by eexists.
Qed.

(** X5. [validateScope] of either resource accepts a plan exactly when at
    most one of its four scope attributes has a non-empty value; a null, an
    unknown and an empty attribute all count as not set, and the only error
    it ever returns is the one that names the four attributes. *)
Theorem validateScope_accepts_at_most_one :
  (forall data,
     (encryptedJSON.validateScope data = None
      <-> nonEmptyScopes [encryptedJSON.UnencryptedSuffix data;
                          encryptedJSON.EncryptedSuffix data;
                          encryptedJSON.UnencryptedRegex data;
                          encryptedJSON.EncryptedRegex data] <= 1)
     /\ (encryptedJSON.validateScope data <> None ->
         encryptedJSON.validateScope data = Some scopeError))
  /\ (forall data,
     (encryptedYAML.validateScope data = None
      <-> nonEmptyScopes [encryptedYAML.UnencryptedSuffix data;
                          encryptedYAML.EncryptedSuffix data;
                          encryptedYAML.UnencryptedRegex data;
                          encryptedYAML.EncryptedRegex data] <= 1)
     /\ (encryptedYAML.validateScope data <> None ->
         encryptedYAML.validateScope data = Some scopeError)).
Proof.
  split; intros data.
  - rewrite validateScope_JSON_spec.
    destruct (Nat.ltb_spec 1 (nonEmptyScopes
      [encryptedJSON.UnencryptedSuffix data; encryptedJSON.EncryptedSuffix data;
       encryptedJSON.UnencryptedRegex data; encryptedJSON.EncryptedRegex data]));
      (split; [split; [try done; lia | try done; lia] | done]).
  - rewrite validateScope_YAML_spec.
    destruct (Nat.ltb_spec 1 (nonEmptyScopes
      [encryptedYAML.UnencryptedSuffix data; encryptedYAML.EncryptedSuffix data;
       encryptedYAML.UnencryptedRegex data; encryptedYAML.EncryptedRegex data]));
      (split; [split; [try done; lia | try done; lia] | done]).
Qed.

(** X6. [Create] can panic in two situations only, and in both the plan
    was decoded without error and has at most one scope attribute set: the
    resource was never given provider data, or the client was built, the
    document parsed, the data key was generated and the transit endpoint
    answered the request with neither a secret nor an error.  In every other
    case [Create] returns a response. *)
Theorem Create_panics_only_when env l :
  (forall Getenv State_Set r data diags resp,
     (exists msg,
        (encryptedJSON.Create env Getenv State_Set r (data, diags) resp l).1 = Panic msg)
     <-> HasError (encryptedJSON.RespDiagnostics resp ++ diags) = false
         /\ nonEmptyScopes [encryptedJSON.UnencryptedSuffix data;
                            encryptedJSON.EncryptedSuffix data;
                            encryptedJSON.UnencryptedRegex data;
                            encryptedJSON.EncryptedRegex data] <= 1
         /\ match encryptedJSON.pd r with
            | None => True
            | Some pd =>
                vault_NewClient env Getenv (vaultAddress pd) = None
                /\ (Steps.parsed env
                      (ValueString (encryptedJSON.Content data))).2 = None
                /\ (Steps.keyRead env l).2 = None
                /\ Steps.wrapAnswer env
                     {| Address := vault_Address env Getenv (vaultAddress pd);
                        Token := vaultToken pd |}
                     (vaultTransitEngine pd)
                     (ValueString (encryptedJSON.VaultKeyName data)) l
                   = (None, None)
            end)
  /\ (forall Getenv State_Set r data diags resp,
     (exists msg,
        (encryptedYAML.Create env Getenv State_Set r (data, diags) resp l).1 = Panic msg)
     <-> HasError (encryptedYAML.RespDiagnostics resp ++ diags) = false
         /\ nonEmptyScopes [encryptedYAML.UnencryptedSuffix data;
                            encryptedYAML.EncryptedSuffix data;
                            encryptedYAML.UnencryptedRegex data;
                            encryptedYAML.EncryptedRegex data] <= 1
         /\ match encryptedYAML.pd r with
            | None => True
            | Some pd =>
                vault_NewClient env Getenv (vaultAddress pd) = None
                /\ (Steps.parsed env
                      (ValueString (encryptedYAML.Content data))).2 = None
                /\ (Steps.keyRead env l).2 = None
                /\ Steps.wrapAnswer env
                     {| Address := vault_Address env Getenv (vaultAddress pd);
                        Token := vaultToken pd |}
                     (vaultTransitEngine pd)
                     (ValueString (encryptedYAML.VaultKeyName data)) l
                   = (None, None)
            end).
Proof.
  split; intros Getenv State_Set r data diags resp.
  - rewrite encryptedJSON_Create_run, validateScope_JSON_spec. cbv zeta.
    destruct (HasError _).
    { split; [intros [? ?]; done | intros (? & _); done]. }
    destruct (Nat.ltb_spec 1 (nonEmptyScopes
      [encryptedJSON.UnencryptedSuffix data; encryptedJSON.EncryptedSuffix data;
       encryptedJSON.UnencryptedRegex data; encryptedJSON.EncryptedRegex data])).
    { split; [intros [? ?]; done | intros (_ & ? & _); lia]. }
    rewrite encryptedJSON_encrypt_run.
    destruct (encryptedJSON.pd r) as [pd|].
    2:{ split; [done | intros _; by eexists]. }
    destruct (vault_NewClient env Getenv (vaultAddress pd)) as [e|].
    { split; [intros [? ?]; done | intros (_ & _ & ? & _); done]. }
    match goal with
    | |- context [EncryptToJSON ?e ?c ?t ?k ?j ?o ?l0] =>
        pose proof (EncryptToJSON_panics_iff e c t k j o l0) as Hp;
        destruct (EncryptToJSON e c t k j o l0) as [[[ct [e'|]]|msg] l']
    end; simpl in *.
    + split; [intros [? ?]; done|].
      intros (_ & _ & _ & Hq). apply Hp in Hq as [? ?]. done.
    + split; [intros [? ?]; done|].
      intros (_ & _ & _ & Hq). apply Hp in Hq as [? ?]. done.
    + split; [|intros _; by eexists].
      intros _. repeat split; [lia|..]; apply Hp; by eexists.
  - rewrite encryptedYAML_Create_run, validateScope_YAML_spec. cbv zeta.
    destruct (HasError _).
    { split; [intros [? ?]; done | intros (? & _); done]. }
    destruct (Nat.ltb_spec 1 (nonEmptyScopes
      [encryptedYAML.UnencryptedSuffix data; encryptedYAML.EncryptedSuffix data;
       encryptedYAML.UnencryptedRegex data; encryptedYAML.EncryptedRegex data])).
    { split; [intros [? ?]; done | intros (_ & ? & _); lia]. }
    rewrite encryptedYAML_encrypt_run.
    destruct (encryptedYAML.pd r) as [pd|].
    2:{ split; [done | intros _; by eexists]. }
    destruct (vault_NewClient env Getenv (vaultAddress pd)) as [e|].
    { split; [intros [? ?]; done | intros (_ & _ & ? & _); done]. }
    match goal with
    | |- context [EncryptToYAML ?e ?c ?t ?k ?j ?o ?l0] =>
        pose proof (EncryptToYAML_panics_iff e c t k j o l0) as Hp;
        destruct (EncryptToYAML e c t k j o l0) as [[[ct [e'|]]|msg] l']
    end; simpl in *.
    + split; [intros [? ?]; done|].
      intros (_ & _ & _ & Hq). apply Hp in Hq as [? ?]. done.
    + split; [intros [? ?]; done|].
      intros (_ & _ & _ & Hq). apply Hp in Hq as [? ?]. done.
    + split; [|intros _; by eexists].
      intros _. repeat split; [lia|..]; apply Hp; by eexists.
Qed.

(** With a plan that decodes and passes [validateScope], [Create] is decided
    by [encrypt]. *)
Lemma encryptedJSON_Create_reaches_encrypt env Getenv State_Set r data diags resp l :
  HasError (encryptedJSON.RespDiagnostics resp ++ diags) = false ->
  nonEmptyScopes [encryptedJSON.UnencryptedSuffix data;
                  encryptedJSON.EncryptedSuffix data;
                  encryptedJSON.UnencryptedRegex data;
                  encryptedJSON.EncryptedRegex data] <= 1 ->
  encryptedJSON.Create env Getenv State_Set r (data, diags) resp l =
  let ds := encryptedJSON.RespDiagnostics resp ++ diags in
  match encryptedJSON.encrypt env Getenv r data l with
  | (Ret (_, Some err), l') =>
      (Ret (encryptedJSON.mkResponse
              (AddError ds "SOPS encryption failed" (Error err))
              (encryptedJSON.State resp)), l')
  | (Ret (ciphertext, None), l') =>
      let data' :=
        encryptedJSON.mkModel
          (StringValue (ValueString (encryptedJSON.VaultKeyName data)))
          (encryptedJSON.Content data) (encryptedJSON.VaultKeyName data)
          (encryptedJSON.UnencryptedSuffix data)
          (encryptedJSON.EncryptedSuffix data)
          (encryptedJSON.UnencryptedRegex data)
          (encryptedJSON.EncryptedRegex data)
          (encryptedJSON.Pretty data) (StringValue ciphertext) in
      (Ret (encryptedJSON.mkResponse (ds ++ State_Set data') (Some data')), l')
  | (Panic msg, l') => (Panic msg, l')
  end.
Proof.
  intros Herr Hscope.
  rewrite encryptedJSON_Create_run, validateScope_JSON_spec. cbv zeta.
  rewrite Herr.
  destruct (Nat.ltb_spec 1 (nonEmptyScopes
    [encryptedJSON.UnencryptedSuffix data; encryptedJSON.EncryptedSuffix data;
     encryptedJSON.UnencryptedRegex data; encryptedJSON.EncryptedRegex data]));
    [lia | reflexivity].
Qed.

Lemma encryptedYAML_Create_reaches_encrypt env Getenv State_Set r data diags resp l :
  HasError (encryptedYAML.RespDiagnostics resp ++ diags) = false ->
  nonEmptyScopes [encryptedYAML.UnencryptedSuffix data;
                  encryptedYAML.EncryptedSuffix data;
                  encryptedYAML.UnencryptedRegex data;
                  encryptedYAML.EncryptedRegex data] <= 1 ->
  encryptedYAML.Create env Getenv State_Set r (data, diags) resp l =
  let ds := encryptedYAML.RespDiagnostics resp ++ diags in
  match encryptedYAML.encrypt env Getenv r data l with
  | (Ret (_, Some err), l') =>
      (Ret (encryptedYAML.mkResponse
              (AddError ds "SOPS encryption failed" (Error err))
              (encryptedYAML.State resp)), l')
  | (Ret (ciphertext, None), l') =>
      let data' :=
        encryptedYAML.mkModel
          (StringValue (ValueString (encryptedYAML.VaultKeyName data)))
          (encryptedYAML.Content data) (encryptedYAML.VaultKeyName data)
          (encryptedYAML.UnencryptedSuffix data)
          (encryptedYAML.EncryptedSuffix data)
          (encryptedYAML.UnencryptedRegex data)
          (encryptedYAML.EncryptedRegex data)
          (StringValue ciphertext) in
      (Ret (encryptedYAML.mkResponse (ds ++ State_Set data') (Some data')), l')
  | (Panic msg, l') => (Panic msg, l')
  end.
Proof.
  intros Herr Hscope.
  rewrite encryptedYAML_Create_run, validateScope_YAML_spec. cbv zeta.
  rewrite Herr.
  destruct (Nat.ltb_spec 1 (nonEmptyScopes
    [encryptedYAML.UnencryptedSuffix data; encryptedYAML.EncryptedSuffix data;
     encryptedYAML.UnencryptedRegex data; encryptedYAML.EncryptedRegex data]));
    [lia | reflexivity].
Qed.

(** X7. [Create] touches the state only after a successful encryption.  A
    response it returns either keeps the state it was handed and carries an
    error, or holds the plan with [id] set to the name of the Vault key and
    [ciphertext] set to what [encrypt] returned without error, every other
    attribute as planned; the diagnostics are then those of decoding the plan
    followed by those of writing the state. *)
Theorem Create_sets_state_only_on_success env l :
  (forall Getenv State_Set r data diags resp resp' l',
     encryptedJSON.Create env Getenv State_Set r (data, diags) resp l = (Ret resp', l') ->
     let ds := encryptedJSON.RespDiagnostics resp ++ diags in
     (encryptedJSON.State resp' = encryptedJSON.State resp
      /\ HasError (encryptedJSON.RespDiagnostics resp') = true)
     \/ (exists ciphertext,
           let data' :=
             encryptedJSON.mkModel
               (StringValue (ValueString (encryptedJSON.VaultKeyName data)))
               (encryptedJSON.Content data) (encryptedJSON.VaultKeyName data)
               (encryptedJSON.UnencryptedSuffix data)
               (encryptedJSON.EncryptedSuffix data)
               (encryptedJSON.UnencryptedRegex data)
               (encryptedJSON.EncryptedRegex data)
               (encryptedJSON.Pretty data) (StringValue ciphertext) in
           encryptedJSON.encrypt env Getenv r data l = (Ret (ciphertext, None), l')
           /\ HasError ds = false
           /\ encryptedJSON.State resp' = Some data'
           /\ encryptedJSON.RespDiagnostics resp' = ds ++ State_Set data'))
  /\ (forall Getenv State_Set r data diags resp resp' l',
     encryptedYAML.Create env Getenv State_Set r (data, diags) resp l = (Ret resp', l') ->
     let ds := encryptedYAML.RespDiagnostics resp ++ diags in
     (encryptedYAML.State resp' = encryptedYAML.State resp
      /\ HasError (encryptedYAML.RespDiagnostics resp') = true)
     \/ (exists ciphertext,
           let data' :=
             encryptedYAML.mkModel
               (StringValue (ValueString (encryptedYAML.VaultKeyName data)))
               (encryptedYAML.Content data) (encryptedYAML.VaultKeyName data)
               (encryptedYAML.UnencryptedSuffix data)
               (encryptedYAML.EncryptedSuffix data)
               (encryptedYAML.UnencryptedRegex data)
               (encryptedYAML.EncryptedRegex data)
               (StringValue ciphertext) in
           encryptedYAML.encrypt env Getenv r data l = (Ret (ciphertext, None), l')
           /\ HasError ds = false
           /\ encryptedYAML.State resp' = Some data'
           /\ encryptedYAML.RespDiagnostics resp' = ds ++ State_Set data')).
Proof.
  split; intros Getenv State_Set r data diags resp resp' l'; cbv zeta.
  - rewrite encryptedJSON_Create_run. cbv zeta.
    destruct (HasError _) eqn:Herr.
    { intros [= <- <-]. left. done. }
    destruct (encryptedJSON.validateScope data).
    { intros [= <- <-]. left. simpl. by rewrite HasError_AddError. }
    destruct (encryptedJSON.encrypt env Getenv r data l) as [[[ct [e|]]|msg] l''].
    + intros [= <- <-]. left. simpl. by rewrite HasError_AddError.
    + intros [= <- <-]. right. by exists ct.
    + done.
  - rewrite encryptedYAML_Create_run. cbv zeta.
    destruct (HasError _) eqn:Herr.
    { intros [= <- <-]. left. done. }
    destruct (encryptedYAML.validateScope data).
    { intros [= <- <-]. left. simpl. by rewrite HasError_AddError. }
    destruct (encryptedYAML.encrypt env Getenv r data l) as [[[ct [e|]]|msg] l''].
    + intros [= <- <-]. left. simpl. by rewrite HasError_AddError.
    + intros [= <- <-]. right. by exists ct.
    + done.
Qed.

(** The plan of the acceptance test against the endpoint of the tests: the
    state receives the plan with [id] and [ciphertext] filled in. *)
Lemma Create_sets_state_only_on_success_witness :
  let data := encryptedJSON.mkModel StringUnknown (StringValue Mock.document)
                (StringValue "k") StringNull StringNull StringNull StringNull
                (BoolValue false) StringUnknown in
  let r := {| encryptedJSON.pd := Some {| vaultAddress := "http://127.0.0.1:8200";
                                          vaultToken := "test-token";
                                          vaultTransitEngine := "transit" |} |} in
  let resp := encryptedJSON.mkResponse [] None in
  exists resp' l',
    encryptedJSON.Create Mock.env Mock.Getenv (fun _ => []) r (data, []) resp []
    = (Ret resp', l')
    /\ ((encryptedJSON.State resp' = None
         /\ HasError (encryptedJSON.RespDiagnostics resp') = true)
        \/ exists ciphertext,
             encryptedJSON.encrypt Mock.env Mock.Getenv r data []
             = (Ret (ciphertext, None), l')
             /\ HasError ([] ++ []) = false
             /\ encryptedJSON.State resp'
                = Some (encryptedJSON.mkModel (StringValue "k")
                          (StringValue Mock.document) (StringValue "k")
                          StringNull StringNull StringNull StringNull
                          (BoolValue false) (StringValue ciphertext))
             /\ encryptedJSON.RespDiagnostics resp' = ([] ++ []) ++ []).
Proof.
  cbv zeta. eexists _, _. split; [vm_compute; reflexivity|].
  match goal with
  | |- _ \/ (exists ct, encryptedJSON.encrypt _ _ ?r ?data _ = (Ret (ct, None), ?l') /\ _
                        /\ encryptedJSON.State ?resp' = _ /\ _) =>
      exact (proj1 (Create_sets_state_only_on_success Mock.env [])
               Mock.Getenv (fun _ => []) r data [] (encryptedJSON.mkResponse [] None)
               resp' l' eq_refl)
  end.
Defined.

(** The text of a wrapped error, with the prefix written as the format
    string of the source has it. *)
Lemma Error_vault_transit_encrypt path cause :
  Error (WrapError ("vault transit encrypt (" +:+ path +:+ ")") cause)
  = "vault transit encrypt (" +:+ path +:+ "): " +:+ Error cause.
Proof. simpl. by rewrite !append_assoc. Qed.

(** X8. An error of the transit endpoint reaches the user.  When the plan
    is in order, the client is built, the document parses and the data key
    is generated, and Vault answers the request with an error, [Create]
    returns with one more diagnostic, the error "SOPS encryption failed"
    whose detail is [vault transit encrypt (<mount>/encrypt/<key>): ]
    followed by the text of Vault's error; the state is left as it was, and
    the log shows the random read and that one request and nothing after
    it. *)
Theorem Create_reports_vault_error env l :
  (forall Getenv State_Set r pd data diags resp secret cause,
     let ds := encryptedJSON.RespDiagnostics resp ++ diags in
     let key := ValueString (encryptedJSON.VaultKeyName data) in
     let client := {| Address := vault_Address env Getenv (vaultAddress pd);
                      Token := vaultToken pd |} in
     let path := vaultTransitEngine pd +:+ "/encrypt/" +:+ key in
     let payload : gmap string iface :=
       {[ "plaintext" := IString (base64_EncodeToString env (Steps.dataKey env l)) ]} in
     encryptedJSON.pd r = Some pd ->
     HasError ds = false ->
     nonEmptyScopes [encryptedJSON.UnencryptedSuffix data;
                     encryptedJSON.EncryptedSuffix data;
                     encryptedJSON.UnencryptedRegex data;
                     encryptedJSON.EncryptedRegex data] <= 1 ->
     vault_NewClient env Getenv (vaultAddress pd) = None ->
     (Steps.parsed env (ValueString (encryptedJSON.Content data))).2 = None ->
     (Steps.keyRead env l).2 = None ->
     Logical_Write env (l ++ [EvRandRead 32]) client path payload
       = (secret, Some cause) ->
     encryptedJSON.Create env Getenv State_Set r (data, diags) resp l
     = (Ret (encryptedJSON.mkResponse
               (ds ++ [mkDiag SeverityError "SOPS encryption failed"
                         ("vault transit encrypt (" +:+ path +:+ "): "
                          +:+ Error cause)])
               (encryptedJSON.State resp)),
        l ++ [EvRandRead 32; EvVaultWrite client path payload]))
  /\ (forall Getenv State_Set r pd data diags resp secret cause,
     let ds := encryptedYAML.RespDiagnostics resp ++ diags in
     let key := ValueString (encryptedYAML.VaultKeyName data) in
     let client := {| Address := vault_Address env Getenv (vaultAddress pd);
                      Token := vaultToken pd |} in
     let path := vaultTransitEngine pd +:+ "/encrypt/" +:+ key in
     let payload : gmap string iface :=
       {[ "plaintext" := IString (base64_EncodeToString env (Steps.dataKey env l)) ]} in
     encryptedYAML.pd r = Some pd ->
     HasError ds = false ->
     nonEmptyScopes [encryptedYAML.UnencryptedSuffix data;
                     encryptedYAML.EncryptedSuffix data;
                     encryptedYAML.UnencryptedRegex data;
                     encryptedYAML.EncryptedRegex data] <= 1 ->
     vault_NewClient env Getenv (vaultAddress pd) = None ->
     (Steps.parsed env (ValueString (encryptedYAML.Content data))).2 = None ->
     (Steps.keyRead env l).2 = None ->
     Logical_Write env (l ++ [EvRandRead 32]) client path payload
       = (secret, Some cause) ->
     encryptedYAML.Create env Getenv State_Set r (data, diags) resp l
     = (Ret (encryptedYAML.mkResponse
               (ds ++ [mkDiag SeverityError "SOPS encryption failed"
                         ("vault transit encrypt (" +:+ path +:+ "): "
                          +:+ Error cause)])
               (encryptedYAML.State resp)),
        l ++ [EvRandRead 32; EvVaultWrite client path payload])).
Proof.
  split; intros Getenv State_Set r pd data diags resp secret cause; cbv zeta;
    intros Hpd Herr Hscope Hclient Hp Hk Hw.
  - rewrite encryptedJSON_Create_reaches_encrypt by done. cbv zeta.
    rewrite encryptedJSON_encrypt_run, Hpd, Hclient, EncryptToJSON_run.
    erewrite encryptDocument_wrap_error; [|exact Hp|exact Hk|].
    2:{ unfold Steps.wrapError, Steps.wrapAnswer, Steps.wrapPayload,
          Steps.wrapPath, Steps.afterKey. rewrite Hw. by destruct secret. }
    rewrite Error_vault_transit_encrypt.
    unfold Steps.afterWrap, Steps.afterKey, Steps.wrapRequest, Steps.wrapPath,
      Steps.wrapPayload, AddError.
    f_equal. by rewrite <- (app_assoc l [EvRandRead 32]).
  - rewrite encryptedYAML_Create_reaches_encrypt by done. cbv zeta.
    rewrite encryptedYAML_encrypt_run, Hpd, Hclient, EncryptToYAML_run.
    erewrite encryptDocument_wrap_error; [|exact Hp|exact Hk|].
    2:{ unfold Steps.wrapError, Steps.wrapAnswer, Steps.wrapPayload,
          Steps.wrapPath, Steps.afterKey. rewrite Hw. by destruct secret. }
    rewrite Error_vault_transit_encrypt.
    unfold Steps.afterWrap, Steps.afterKey, Steps.wrapRequest, Steps.wrapPath,
      Steps.wrapPayload, AddError.
    f_equal. by rewrite <- (app_assoc l [EvRandRead 32]).
Qed.

(** An endpoint that is down, under the plan of the acceptance test. *)
Lemma Create_reports_vault_error_witness :
  let data := encryptedYAML.mkModel StringUnknown (StringValue Mock.document)
                (StringValue "k") StringNull StringNull StringNull StringNull
                StringUnknown in
  let r := {| encryptedYAML.pd := Some {| vaultAddress := "http://127.0.0.1:8200";
                                          vaultToken := "test-token";
                                          vaultTransitEngine := "transit" |} |} in
  (encryptedYAML.Create (Mock.withEndpoint Mock.refused) Mock.Getenv (fun _ => []) r (data, [])
     (encryptedYAML.mkResponse [] None) []).1
  = Ret (encryptedYAML.mkResponse
           [mkDiag SeverityError "SOPS encryption failed"
              "vault transit encrypt (transit/encrypt/k): connection refused"]
           None).
Proof.
  cbv zeta.
  pose proof (Create_reports_vault_error (Mock.withEndpoint Mock.refused) [])
    as [_ HY].
  match goal with
  | |- (encryptedYAML.Create _ _ ?s ?r (?d, ?ds) ?resp _).1 = _ =>
      rewrite (HY Mock.Getenv s r _ d ds resp None (ErrorString "connection refused")
                 eq_refl eq_refl) by (vm_compute; first [lia | reflexivity])
  end.
  reflexivity.
Defined.

(** X9. The Vault client is built before anything else is done with the
    plan's content: when it cannot be built, [Create] reports
    "SOPS encryption failed" with the detail [creating vault client: ]
    followed by the cause, keeps the state, and leaves the log as it was;
    the document is not looked at, no random bytes are read and nothing is
    sent. *)
Theorem Create_client_failure_sends_nothing env l :
  (forall Getenv State_Set r pd data diags resp cause,
     let ds := encryptedJSON.RespDiagnostics resp ++ diags in
     encryptedJSON.pd r = Some pd ->
     HasError ds = false ->
     nonEmptyScopes [encryptedJSON.UnencryptedSuffix data;
                     encryptedJSON.EncryptedSuffix data;
                     encryptedJSON.UnencryptedRegex data;
                     encryptedJSON.EncryptedRegex data] <= 1 ->
     vault_NewClient env Getenv (vaultAddress pd) = Some cause ->
     encryptedJSON.Create env Getenv State_Set r (data, diags) resp l
     = (Ret (encryptedJSON.mkResponse
               (ds ++ [mkDiag SeverityError "SOPS encryption failed"
                         ("creating vault client: " +:+ Error cause)])
               (encryptedJSON.State resp)), l))
  /\ (forall Getenv State_Set r pd data diags resp cause,
     let ds := encryptedYAML.RespDiagnostics resp ++ diags in
     encryptedYAML.pd r = Some pd ->
     HasError ds = false ->
     nonEmptyScopes [encryptedYAML.UnencryptedSuffix data;
                     encryptedYAML.EncryptedSuffix data;
                     encryptedYAML.UnencryptedRegex data;
                     encryptedYAML.EncryptedRegex data] <= 1 ->
     vault_NewClient env Getenv (vaultAddress pd) = Some cause ->
     encryptedYAML.Create env Getenv State_Set r (data, diags) resp l
     = (Ret (encryptedYAML.mkResponse
               (ds ++ [mkDiag SeverityError "SOPS encryption failed"
                         ("creating vault client: " +:+ Error cause)])
               (encryptedYAML.State resp)), l)).
Proof.
  split; intros Getenv State_Set r pd data diags resp cause; cbv zeta;
    intros Hpd Herr Hscope Hclient.
  - rewrite encryptedJSON_Create_reaches_encrypt by done. cbv zeta.
    by rewrite encryptedJSON_encrypt_run, Hpd, Hclient.
  - rewrite encryptedYAML_Create_reaches_encrypt by done. cbv zeta.
    by rewrite encryptedYAML_encrypt_run, Hpd, Hclient.
Qed.

(** A client library that rejects the address, under the plan of the
    acceptance test: one diagnostic, an empty log. *)
Lemma Create_client_failure_sends_nothing_witness :
  let data := encryptedJSON.mkModel StringUnknown (StringValue Mock.document)
                (StringValue "k") StringNull StringNull StringNull StringNull
                (BoolValue false) StringUnknown in
  let r := {| encryptedJSON.pd := Some {| vaultAddress := "://";
                                          vaultToken := "test-token";
                                          vaultTransitEngine := "transit" |} |} in
  encryptedJSON.Create Mock.withoutClient Mock.Getenv (fun _ => []) r (data, [])
    (encryptedJSON.mkResponse [] None) []
  = (Ret (encryptedJSON.mkResponse
            [mkDiag SeverityError "SOPS encryption failed"
               "creating vault client: invalid address"]
            None), []).
Proof.
  cbv zeta.
  pose proof (Create_client_failure_sends_nothing Mock.withoutClient [])
    as [HJ _].
  match goal with
  | |- encryptedJSON.Create _ _ ?s ?r (?d, ?ds) ?resp _ = _ =>
      rewrite (HJ Mock.Getenv s r _ d ds resp (ErrorString "invalid address")
                 eq_refl eq_refl) by (vm_compute; first [lia | reflexivity])
  end.
  reflexivity.
Defined.

(** ** From the provider block to the request *)

(** A [Configure] of the provider that reports no error has stored its
    data, built from what it resolved. *)
Lemma Configure_success env Getenv config diags resp l resp' l' :
  providerConfig.Configure env Getenv (config, diags) resp l = (Ret resp', l') ->
  HasError (providerConfig.ConfDiagnostics resp') = false ->
  exists token,
    providerConfig.ResourceData resp'
    = Some {| vaultAddress := providerConfig.resolveString Getenv
                                (providerConfig.VaultAddress config) "VAULT_ADDR";
              vaultToken := token;
              vaultTransitEngine := providerConfig.resolveStringDefault
                                      (providerConfig.VaultTransitEngine config)
                                      "transit" |}
    /\ (providerConfig.resolveString Getenv
          (providerConfig.VaultToken config) "VAULT_TOKEN" <> "" ->
        token = providerConfig.resolveString Getenv
                  (providerConfig.VaultToken config) "VAULT_TOKEN"
        /\ l' = l).
Proof.
  unfold providerConfig.Configure. simpl.
  destruct (HasError (_ ++ _)) eqn:Herr.
  { intros [= <- <-]. simpl. congruence. }
  destruct (String.eqb_spec
              (providerConfig.resolveString Getenv
                 (providerConfig.VaultAddress config) "VAULT_ADDR") "")
    as [Ha|Ha].
  { intros [= <- <-]. simpl. rewrite HasError_AddError. (intros Hno; discriminate Hno). }
  destruct (String.eqb_spec
              (providerConfig.resolveString Getenv
                 (providerConfig.VaultToken config) "VAULT_TOKEN") "")
    as [Ht|Ht];
  destruct (String.eqb_spec
              (providerConfig.resolveString Getenv
                 (providerConfig.VaultRoleID config) "VAULT_ROLE_ID") "")
    as [Hr|Hr];
  destruct (String.eqb_spec
              (providerConfig.resolveString Getenv
                 (providerConfig.VaultSecretID config) "VAULT_SECRET_ID") "")
    as [Hs|Hs]; simpl;
  try (intros [= <- <-]; simpl; rewrite ?HasError_AddError;
       first [(intros Hno; discriminate Hno) | intros _; eexists; split; [reflexivity | done]]).
  unfold_monad. rewrite AppRoleLogin_run. cbv zeta.
  destruct (vault_NewClient env _ _) as [e|].
  { intros [= <- <-]. simpl. rewrite HasError_AddError. (intros Hno; discriminate Hno). }
  destruct (Logical_Write env l _ _ _) as [[s|] [e|]]; simpl;
    try (intros [= <- <-]; simpl; rewrite HasError_AddError; (intros Hno; discriminate Hno)).
  destruct (Auth s) as [auth|]; simpl;
    try (intros [= <- <-]; simpl; rewrite HasError_AddError; (intros Hno; discriminate Hno)).
  intros [= <- <-]. simpl. intros _. eexists. split; [reflexivity | done].
Qed.

(** The log of a [Create] that gets as far as the key. *)
Lemma encryptedJSON_Create_log env Getenv State_Set r pd data diags resp l :
  encryptedJSON.pd r = Some pd ->
  HasError (encryptedJSON.RespDiagnostics resp ++ diags) = false ->
  nonEmptyScopes [encryptedJSON.UnencryptedSuffix data;
                  encryptedJSON.EncryptedSuffix data;
                  encryptedJSON.UnencryptedRegex data;
                  encryptedJSON.EncryptedRegex data] <= 1 ->
  vault_NewClient env Getenv (vaultAddress pd) = None ->
  (Steps.parsed env (ValueString (encryptedJSON.Content data))).2 = None ->
  (Steps.keyRead env l).2 = None ->
  exists rest,
    (encryptedJSON.Create env Getenv State_Set r (data, diags) resp l).2
    = l ++ [EvRandRead 32;
            EvVaultWrite {| Address := vault_Address env Getenv (vaultAddress pd);
                            Token := vaultToken pd |}
              (vaultTransitEngine pd +:+ "/encrypt/"
               +:+ ValueString (encryptedJSON.VaultKeyName data))
              {[ "plaintext" :=
                   IString (base64_EncodeToString env (Steps.dataKey env l)) ]}]
        ++ rest
    /\ vaultRequests rest = 0.
Proof.
  intros Hpd Herr Hscope Hclient Hp Hk.
  rewrite encryptedJSON_Create_reaches_encrypt by done. cbv zeta.
  assert (Hlog : forall (x : Outcome (string * option error) * Log) f g,
            (match x with
             | (Ret (_, Some err), l') => (Ret (f err), l')
             | (Ret (ct, None), l') => (Ret (g ct), l')
             | (Panic msg, l') =>
                 (Panic msg : Outcome encryptedJSON.CreateResponse, l')
             end).2 = x.2).
  { by intros [[[ct [e|]]|msg] l'] f g. }
  rewrite Hlog, encryptedJSON_encrypt_run, Hpd, Hclient.
  rewrite EncryptToJSON_log, encryptDocument_log, Hp, Hk.
  unfold Steps.afterTree, Steps.afterNow, Steps.afterWrap, Steps.afterKey,
    Steps.wrapRequest, Steps.wrapPath, Steps.wrapPayload.
  destruct (Steps.wrappedToken _ _ _ _ _).
  - exists [EvNow; EvEncryptTree]. split; [|reflexivity].
    by rewrite <- !app_assoc.
  - exists []. split; [|reflexivity].
    by rewrite <- !app_assoc.
Qed.

Lemma encryptedYAML_Create_log env Getenv State_Set r pd data diags resp l :
  encryptedYAML.pd r = Some pd ->
  HasError (encryptedYAML.RespDiagnostics resp ++ diags) = false ->
  nonEmptyScopes [encryptedYAML.UnencryptedSuffix data;
                  encryptedYAML.EncryptedSuffix data;
                  encryptedYAML.UnencryptedRegex data;
                  encryptedYAML.EncryptedRegex data] <= 1 ->
  vault_NewClient env Getenv (vaultAddress pd) = None ->
  (Steps.parsed env (ValueString (encryptedYAML.Content data))).2 = None ->
  (Steps.keyRead env l).2 = None ->
  exists rest,
    (encryptedYAML.Create env Getenv State_Set r (data, diags) resp l).2
    = l ++ [EvRandRead 32;
            EvVaultWrite {| Address := vault_Address env Getenv (vaultAddress pd);
                            Token := vaultToken pd |}
              (vaultTransitEngine pd +:+ "/encrypt/"
               +:+ ValueString (encryptedYAML.VaultKeyName data))
              {[ "plaintext" :=
                   IString (base64_EncodeToString env (Steps.dataKey env l)) ]}]
        ++ rest
    /\ vaultRequests rest = 0.
Proof.
  intros Hpd Herr Hscope Hclient Hp Hk.
  rewrite encryptedYAML_Create_reaches_encrypt by done. cbv zeta.
  assert (Hlog : forall (x : Outcome (string * option error) * Log) f g,
            (match x with
             | (Ret (_, Some err), l') => (Ret (f err), l')
             | (Ret (ct, None), l') => (Ret (g ct), l')
             | (Panic msg, l') =>
                 (Panic msg : Outcome encryptedYAML.CreateResponse, l')
             end).2 = x.2).
  { by intros [[[ct [e|]]|msg] l'] f g. }
  rewrite Hlog, encryptedYAML_encrypt_run, Hpd, Hclient.
  rewrite EncryptToYAML_log, encryptDocument_log, Hp, Hk.
  unfold Steps.afterTree, Steps.afterNow, Steps.afterWrap, Steps.afterKey,
    Steps.wrapRequest, Steps.wrapPath, Steps.wrapPayload.
  destruct (Steps.wrappedToken _ _ _ _ _).
  - exists [EvNow; EvEncryptTree]. split; [|reflexivity].
    by rewrite <- !app_assoc.
  - exists []. split; [|reflexivity].
    by rewrite <- !app_assoc.
Qed.

(** X10. From the provider block to the request.  When [Configure] of the
    provider returns without an error, it has stored data with the resolved
    address and the resolved transit mount (default [transit]); a resolved
    token is stored as it is, and then nothing was sent.  A resource that is
    configured with that data gains no diagnostic, and its [Create], once
    the plan is in order, the client is built, the document parses and the
    key is generated, reads 32 random bytes and sends one request: through
    the client that the library builds for the stored address under the
    environment of the process, with the stored token, at
    [<mount>/encrypt/<key name>], with the base64 text of the data key as
    [plaintext].  Where that client sends it is [client.Address()], which
    the environment can set apart from the stored address; the token is the
    stored one whatever the environment holds.  No other request follows. *)
Theorem Create_uses_provider_credentials env Getenv config cdiags cresp l0 cresp' l :
  providerConfig.Configure env Getenv (config, cdiags) cresp l0 = (Ret cresp', l) ->
  HasError (providerConfig.ConfDiagnostics cresp') = false ->
  let address := providerConfig.resolveString Getenv
                   (providerConfig.VaultAddress config) "VAULT_ADDR" in
  let token := providerConfig.resolveString Getenv
                 (providerConfig.VaultToken config) "VAULT_TOKEN" in
  let engine := providerConfig.resolveStringDefault
                  (providerConfig.VaultTransitEngine config) "transit" in
  let payload : gmap string iface :=
    {[ "plaintext" := IString (base64_EncodeToString env (Steps.dataKey env l)) ]} in
  exists pd,
    providerConfig.ResourceData cresp' = Some pd
    /\ vaultAddress pd = address
    /\ vaultTransitEngine pd = engine
    /\ (token <> "" -> vaultToken pd = token /\ l = l0)
    /\ (forall State_Set r0 rdiags data diags resp,
          let configured :=
            lifecycle.ConfigureJSON r0 (lifecycle.ProviderDataPtr (Some pd)) rdiags in
          configured.2 = rdiags
          /\ (HasError (encryptedJSON.RespDiagnostics resp ++ diags) = false ->
              nonEmptyScopes [encryptedJSON.UnencryptedSuffix data;
                              encryptedJSON.EncryptedSuffix data;
                              encryptedJSON.UnencryptedRegex data;
                              encryptedJSON.EncryptedRegex data] <= 1 ->
              vault_NewClient env Getenv address = None ->
              (Steps.parsed env (ValueString (encryptedJSON.Content data))).2 = None ->
              (Steps.keyRead env l).2 = None ->
              exists rest,
                (encryptedJSON.Create env Getenv State_Set configured.1 (data, diags) resp l).2
                = l ++ [EvRandRead 32;
                        EvVaultWrite
                          {| Address := vault_Address env Getenv address;
                             Token := vaultToken pd |}
                          (engine +:+ "/encrypt/"
                           +:+ ValueString (encryptedJSON.VaultKeyName data))
                          payload] ++ rest
                /\ vaultRequests rest = 0))
    /\ (forall State_Set r0 rdiags data diags resp,
          let configured :=
            lifecycle.ConfigureYAML r0 (lifecycle.ProviderDataPtr (Some pd)) rdiags in
          configured.2 = rdiags
          /\ (HasError (encryptedYAML.RespDiagnostics resp ++ diags) = false ->
              nonEmptyScopes [encryptedYAML.UnencryptedSuffix data;
                              encryptedYAML.EncryptedSuffix data;
                              encryptedYAML.UnencryptedRegex data;
                              encryptedYAML.EncryptedRegex data] <= 1 ->
              vault_NewClient env Getenv address = None ->
              (Steps.parsed env (ValueString (encryptedYAML.Content data))).2 = None ->
              (Steps.keyRead env l).2 = None ->
              exists rest,
                (encryptedYAML.Create env Getenv State_Set configured.1 (data, diags) resp l).2
                = l ++ [EvRandRead 32;
                        EvVaultWrite
                          {| Address := vault_Address env Getenv address;
                             Token := vaultToken pd |}
                          (engine +:+ "/encrypt/"
                           +:+ ValueString (encryptedYAML.VaultKeyName data))
                          payload] ++ rest
                /\ vaultRequests rest = 0)).
Proof.
  intros Hconf Hok. cbv zeta.
  destruct (Configure_success _ _ _ _ _ _ _ _ Hconf Hok) as (tok & Hpd & Htok).
  eexists. split; [exact Hpd|].
  split; [reflexivity|]. split; [reflexivity|]. split; [exact Htok|].
  split; intros State_Set r0 rdiags data diags resp; (split; [reflexivity|]);
    intros Herr Hscope Hclient Hp Hk.
  - match type of Hpd with
    | _ = Some ?pd =>
        exact (encryptedJSON_Create_log env Getenv State_Set
                 {| encryptedJSON.pd := Some pd |} pd data diags resp l eq_refl
                 Herr Hscope Hclient Hp Hk)
    end.
  - match type of Hpd with
    | _ = Some ?pd =>
        exact (encryptedYAML_Create_log env Getenv State_Set
                 {| encryptedYAML.pd := Some pd |} pd data diags resp l eq_refl
                 Herr Hscope Hclient Hp Hk)
    end.
Qed.

(** A provider block with an address and a token, in a process whose
    environment names an agent: the data holds the address and the token of
    the block, and [Create] sends the key through the agent, with the token
    of the block. *)
Lemma Create_uses_provider_credentials_witness :
  let config := providerConfig.mkProviderModel
                  (StringValue "http://127.0.0.1:8200") (StringValue "test-token")
                  StringNull StringNull StringNull StringNull in
  let data := encryptedJSON.mkModel StringUnknown (StringValue Mock.document)
                (StringValue "k") StringNull StringNull StringNull StringNull
                (BoolValue false) StringUnknown in
  exists cresp' pd rest,
    providerConfig.Configure Mock.env Mock.behindAgent (config, [])
      (providerConfig.mkConfigureResponse [] None None) [] = (Ret cresp', [])
    /\ providerConfig.ResourceData cresp' = Some pd
    /\ vaultAddress pd = "http://127.0.0.1:8200"
    /\ vaultTransitEngine pd = "transit"
    /\ vaultToken pd = "test-token"
    /\ (encryptedJSON.Create Mock.env Mock.behindAgent (fun _ => [])
          {| encryptedJSON.pd := Some pd |} (data, [])
          (encryptedJSON.mkResponse [] None) []).2
       = [] ++ [EvRandRead 32;
                EvVaultWrite {| Address := "http://127.0.0.1:8100";
                                Token := vaultToken pd |}
                  ("transit" +:+ "/encrypt/" +:+ "k")
                  {[ "plaintext" :=
                       IString (base64_EncodeToString Mock.env
                                  (Steps.dataKey Mock.env [])) ]}] ++ rest.
Proof.
  intros config data. eexists.
  match goal with
  | |- exists pd rest, ?run = (Ret ?r, _) /\ _ =>
      destruct (Create_uses_provider_credentials Mock.env Mock.behindAgent config []
                  (providerConfig.mkConfigureResponse [] None None) [] r []
                  eq_refl eq_refl)
        as (pd & Hpd & Haddr & Hengine & Htoken & HJ & _)
  end.
  destruct (HJ (fun _ => []) {| encryptedJSON.pd := None |} [] data []
              (encryptedJSON.mkResponse [] None)) as [_ Hcreate].
  destruct Hcreate as (rest & Hlog & _);
    [reflexivity | vm_compute; lia | reflexivity | reflexivity | reflexivity |].
  exists pd, rest. split; [reflexivity|]. split; [exact Hpd|].
  split; [exact Haddr|]. split; [exact Hengine|].
  split; [apply Htoken; discriminate | exact Hlog].
Defined.

(** ** Rendering the configuration file *)

Lemma TrimRight_only_slashes n : TrimRight (slashes n) "/" = "".
Proof. induction n as [|n IH]; simpl; [reflexivity|]. by rewrite IH. Qed.

(** Slashes appended to a string are trimmed away again. *)
Lemma TrimRight_app_slashes (s : string) n :
  TrimRight (s +:+ slashes n) "/" = TrimRight s "/".
Proof.
  induction s as [|c s IH].
  - rewrite append_nil_l. apply TrimRight_only_slashes.
  - rewrite append_cons. simpl. by rewrite IH.
Qed.

(** X11. Trailing slashes of the Vault address do not show in the rendered
    configuration: for every number of slashes appended to an address,
    [GenerateSOPSConfig] builds the same rules and returns the same text and
    the same error as for the address itself, whatever the list of
    regexes. *)
Theorem GenerateSOPSConfig_ignores_trailing_slashes env base n enginePath keyName
    pathRegexes :
  creationRules (base +:+ slashes n) enginePath keyName pathRegexes
  = creationRules base enginePath keyName pathRegexes
  /\ GenerateSOPSConfig env (base +:+ slashes n) enginePath keyName pathRegexes
     = GenerateSOPSConfig env base enginePath keyName pathRegexes.
Proof.
  assert (Hrules : creationRules (base +:+ slashes n) enginePath keyName pathRegexes
                   = creationRules base enginePath keyName pathRegexes).
  { unfold creationRules. by rewrite TrimRight_app_slashes. }
  split; [exact Hrules|].
  unfold GenerateSOPSConfig. by rewrite Hrules.
Qed.

(** X12. An empty string among the regexes gives a rule without
    [path_regex]: the struct tag drops the empty field, so that rule is the
    catch-all rule, at the position of the empty string.  A regex that is not
    empty gives a rule with [path_regex] first and [hc_vault_transit_uri]
    second.  In particular a list that holds just the empty string renders
    exactly as no list at all. *)
Theorem GenerateSOPSConfig_empty_regex_is_catch_all env base enginePath keyName :
  let uri := TrimRight base "/" +:+ "/v1/" +:+ enginePath
             +:+ "/keys/" +:+ keyName in
  (forall res i re,
     res !! i = Some re ->
     map marshalRule (creationRules base enginePath keyName (Some res)) !! i
     = Some (yaml.MappingNode
               (if String.eqb re "" then
                  [("hc_vault_transit_uri", yaml.ScalarNode uri)]
                else
                  [("path_regex", yaml.ScalarNode re);
                   ("hc_vault_transit_uri", yaml.ScalarNode uri)])))
  /\ GenerateSOPSConfig env base enginePath keyName (Some [""])
     = GenerateSOPSConfig env base enginePath keyName None.
Proof.
  cbv zeta. split; [|reflexivity].
  intros res i re Hi. rewrite creationRules_eq. cbv zeta.
  destruct res as [|re0 rest]; [done|].
  rewrite !list_lookup_fmap, Hi. simpl. unfold marshalRule. simpl.
  by destruct (String.eqb re "").
Qed.

(** Two regexes around an empty string. *)
Lemma GenerateSOPSConfig_empty_regex_is_catch_all_witness :
  map marshalRule
    (creationRules "http://127.0.0.1:8200" "transit" "my-key"
       (Some ["^secrets/.*$"; ""])) !! 1
  = Some (yaml.MappingNode
            [("hc_vault_transit_uri",
              yaml.ScalarNode "http://127.0.0.1:8200/v1/transit/keys/my-key")]).
Proof.
  exact (proj1 (GenerateSOPSConfig_empty_regex_is_catch_all Mock.env
                  "http://127.0.0.1:8200" "transit" "my-key")
           ["^secrets/.*$"; ""] 1 "" eq_refl).
Defined.

(** ** The data source *)

(** X13. [Read] of the data source writes the state only when the
    configuration was rendered.  The regexes are decoded only from a list
    that is neither null nor unknown; otherwise the renderer gets the nil
    slice.  [Read] panics exactly when decoding raised no error and the data
    source was never given provider data.  A response it returns either
    keeps the state it was handed and carries an error, or holds the
    configuration with [content] set to the text [GenerateSOPSConfig]
    returned for the provider's address and transit mount, and [id] set to
    the digest of that text. *)
Theorem Read_sets_state_only_on_success env ElementsAs sha256Hex State_Set d data
    diags resp :
  let ds := sopsConfig.RespDiagnostics resp ++ diags in
  let listed := negb (sopsConfig.ListIsNull (sopsConfig.PathRegexes data))
                && negb (sopsConfig.ListIsUnknown (sopsConfig.PathRegexes data)) in
  let pathRegexes :=
    if listed then (ElementsAs (sopsConfig.PathRegexes data)).1 else None in
  let ds' :=
    if listed then ds ++ (ElementsAs (sopsConfig.PathRegexes data)).2 else ds in
  let run := sopsConfig.Read env ElementsAs sha256Hex State_Set d (data, diags) resp in
  ((exists msg, run = Panic msg)
   <-> HasError ds = false /\ HasError ds' = false /\ sopsConfig.pd d = None)
  /\ (forall resp',
        run = Ret resp' ->
        (sopsConfig.State resp' = sopsConfig.State resp
         /\ HasError (sopsConfig.RespDiagnostics resp') = true)
        \/ (exists pd content,
              let data' :=
                sopsConfig.mkModel (StringValue (sha256Hex content))
                  (sopsConfig.VaultKeyName data) (sopsConfig.PathRegexes data)
                  (StringValue content) in
              sopsConfig.pd d = Some pd
              /\ GenerateSOPSConfig env (vaultAddress pd) (vaultTransitEngine pd)
                   (ValueString (sopsConfig.VaultKeyName data)) pathRegexes
                 = (content, None)
              /\ sopsConfig.State resp' = Some data'
              /\ sopsConfig.RespDiagnostics resp' = ds' ++ State_Set data')).
Proof.
  cbv zeta. unfold sopsConfig.Read. simpl.
  destruct (HasError (sopsConfig.RespDiagnostics resp ++ diags)) eqn:Herr.
  { split.
    - split; [intros [? ?]; done | intros (? & _); done].
    - intros resp' [= <-]. left. done. }
  destruct (negb (sopsConfig.ListIsNull (sopsConfig.PathRegexes data))
            && negb (sopsConfig.ListIsUnknown (sopsConfig.PathRegexes data))).
  - destruct (ElementsAs (sopsConfig.PathRegexes data)) as [slice ediags]. simpl.
    destruct (HasError ((sopsConfig.RespDiagnostics resp ++ diags) ++ ediags))
      eqn:Herr'.
    { split.
      - split; [intros [? ?]; done | intros (_ & ? & _); done].
      - intros resp' [= <-]. left. done. }
    destruct (sopsConfig.pd d) as [pd|].
    2:{ split; [split; [done | intros _; by eexists] | done]. }
    destruct (GenerateSOPSConfig env _ _ _ slice) as [content [e|]] eqn:Hgen.
    + split; [split; [intros [? ?]; done | intros (_ & _ & ?); done]|].
      intros resp' [= <-]. left. simpl. by rewrite HasError_AddError.
    + split; [split; [intros [? ?]; done | intros (_ & _ & ?); done]|].
      intros resp' [= <-]. right. by exists pd, content.
  - simpl. destruct (sopsConfig.pd d) as [pd|].
    2:{ split; [split; [done | intros _; by eexists] | done]. }
    destruct (GenerateSOPSConfig env _ _ _ None) as [content [e|]] eqn:Hgen.
    + split; [split; [intros [? ?]; done | intros (_ & _ & ?); done]|].
      intros resp' [= <-]. left. simpl. by rewrite HasError_AddError.
    + split; [split; [intros [? ?]; done | intros (_ & _ & ?); done]|].
      intros resp' [= <-]. right. by exists pd, content.
Qed.

(** A data source without [path_regexes], configured with the address of
    the tests. *)
Lemma Read_sets_state_only_on_success_witness :
  let pd := {| vaultAddress := "http://127.0.0.1:8200/";
               vaultToken := "test-token";
               vaultTransitEngine := "transit" |} in
  let d := {| sopsConfig.pd := Some pd |} in
  let data := sopsConfig.mkModel StringUnknown (StringValue "my-key")
                sopsConfig.ListNull StringUnknown in
  let resp := sopsConfig.mkResponse [] None in
  exists resp',
    sopsConfig.Read Mock.env (fun _ => (None, [])) (fun _ => "digest")
      (fun _ => []) d (data, []) resp = Ret resp'
    /\ ((sopsConfig.State resp' = None
         /\ HasError (sopsConfig.RespDiagnostics resp') = true)
        \/ exists pd' content,
             Some pd = Some pd'
             /\ GenerateSOPSConfig Mock.env (vaultAddress pd')
                  (vaultTransitEngine pd') "my-key" None = (content, None)
             /\ sopsConfig.State resp'
                = Some (sopsConfig.mkModel (StringValue "digest")
                          (StringValue "my-key") sopsConfig.ListNull
                          (StringValue content))
             /\ sopsConfig.RespDiagnostics resp' = [] ++ []).
Proof.
  cbv zeta. eexists. split; [vm_compute; reflexivity|].
  match goal with
  | |- (sopsConfig.State ?resp' = _ /\ _) \/ _ =>
      exact (proj2 (Read_sets_state_only_on_success Mock.env (fun _ => (None, []))
                      (fun _ => "digest") (fun _ => [])
                      {| sopsConfig.pd :=
                           Some {| vaultAddress := "http://127.0.0.1:8200/";
                                   vaultToken := "test-token";
                                   vaultTransitEngine := "transit" |} |}
                      (sopsConfig.mkModel StringUnknown (StringValue "my-key")
                         sopsConfig.ListNull StringUnknown)
                      [] (sopsConfig.mkResponse [] None))
               resp' eq_refl)
  end.
Defined.

(** ** What a successful encryption went through *)

(** X14. A document is returned only at the end of the whole chain.  When
    [encryptDocument] returns output without an error, the content parsed,
    the random source delivered the 32-byte data key, the one request to
    [<transitPath>/encrypt/<keyName>] carried the base64 text of that key
    and was answered with a secret whose [ciphertext] is a string, the tree
    handed to the library held the parsed branches, the four scope fields of
    the options and one key group with one Vault key that records the
    client's address, the mount, the key name and that ciphertext, the
    library encrypted it with the same data key, and the output is what the
    emitter made of the encrypted tree.  The log has grown by exactly these
    four events, in this order. *)
Theorem encryptDocument_success_chain env client transitPath keyName jsonContent
    opts emit l out l' :
  encryptDocument env client transitPath keyName jsonContent opts emit l
    = (Ret (out, None), l') ->
  let key := Steps.dataKey env l in
  let path := transitPath +:+ "/encrypt/" +:+ keyName in
  let payload : gmap string iface :=
    {[ "plaintext" := IString (base64_EncodeToString env key) ]} in
  let request := EvVaultWrite client path payload in
  (LoadPlainFile env (String.list_byte_of_string jsonContent)).2 = None
  /\ (rand_Read env l 32).2 = None
  /\ length key = 32
  /\ exists secret ct tree,
       Logical_Write env (l ++ [EvRandRead 32]) client path payload
         = (Some secret, None)
       /\ Data secret !! "ciphertext" = Some (IString ct)
       /\ EncryptTree env (l ++ [EvRandRead 32; request; EvNow]) key
            {| sops.Branches :=
                 (LoadPlainFile env (String.list_byte_of_string jsonContent)).1;
               sops.TreeMetadata := {|
                 sops.KeyGroups :=
                   [[ {| sops.VaultAddress := Address client;
                         sops.EnginePath := transitPath;
                         sops.KeyName := keyName;
                         sops.EncryptedKey := ct;
                         sops.CreationDate :=
                           time_Now env (l ++ [EvRandRead 32; request]) |} ]];
                 sops.Version := sopsVersion env;
                 sops.UnencryptedSuffix := sopsencrypt.UnencryptedSuffix opts;
                 sops.EncryptedSuffix := sopsencrypt.EncryptedSuffix opts;
                 sops.UnencryptedRegex := sopsencrypt.UnencryptedRegex opts;
                 sops.EncryptedRegex := sopsencrypt.EncryptedRegex opts;
                 sops.Remaining := [] |} |}
          = (tree, None)
       /\ emit tree = (out, None)
       /\ l' = l ++ [EvRandRead 32; request; EvNow; EvEncryptTree].
Proof.
  intros Hrun. cbv zeta.
  change (LoadPlainFile env (String.list_byte_of_string jsonContent))
    with (Steps.parsed env jsonContent).
  change (rand_Read env l 32) with (Steps.keyRead env l).
  destruct (Steps.parsed env jsonContent).2 as [e|] eqn:Hp.
  { erewrite encryptDocument_parse_error in Hrun by eassumption. done. }
  destruct (Steps.keyRead env l).2 as [e|] eqn:Hk.
  { erewrite encryptDocument_key_error in Hrun by eassumption. done. }
  split; [reflexivity|]. split; [reflexivity|]. split; [apply dataKey_length|].
  rewrite encryptDocument_after_key in Hrun by done.
  unfold Steps.wrapAnswer, Steps.afterKey, Steps.wrapPath, Steps.wrapPayload in Hrun.
  destruct (Logical_Write env (l ++ [EvRandRead 32]) client _ _)
    as [[secret|] [e|]]; try done.
  destruct (Data secret !! "ciphertext") as [[ |ct| | | ]|] eqn:Hct; try done.
  unfold Steps.treeAnswer, Steps.plainTree, Steps.afterNow, Steps.afterTree,
    Steps.afterWrap, Steps.afterKey, Steps.wrapRequest, Steps.wrapPath,
    Steps.wrapPayload in Hrun.
  rewrite <- !app_assoc in Hrun. simpl app in Hrun.
  destruct (EncryptTree env _ _ _) as [tree [e|]] eqn:Htree; [done|].
  destruct (emit tree) as [out' [e|]] eqn:Hemit; [done|].
  injection Hrun as <- <-.
  exists secret, ct, tree. repeat split; try done.
  unfold Steps.afterNow, Steps.afterWrap, Steps.afterKey, Steps.wrapRequest,
    Steps.wrapPath, Steps.wrapPayload.
  by rewrite <- !app_assoc.
Qed.

(** The document of the tests against the endpoint of the tests. *)
Lemma encryptDocument_success_chain_witness :
  let out := String.list_byte_of_string "3.9.0" in
  let key := Steps.dataKey Mock.env [] in
  exists l',
    encryptDocument Mock.env Mock.client "transit" "k" Mock.document Mock.noOpts
      Mock.emitted [] = (Ret (out, None), l')
    /\ length key = 32
    /\ l' = [] ++ [EvRandRead 32;
                   EvVaultWrite Mock.client ("transit" +:+ "/encrypt/" +:+ "k")
                     {[ "plaintext" :=
                          IString (base64_EncodeToString Mock.env key) ]};
                   EvNow; EvEncryptTree].
Proof.
  cbv zeta. eexists. split; [vm_compute; reflexivity|].
  match goal with
  | |- _ /\ ?l' = _ =>
      destruct (encryptDocument_success_chain Mock.env Mock.client "transit" "k"
                  Mock.document Mock.noOpts Mock.emitted []
                  (String.list_byte_of_string "3.9.0") l' eq_refl)
        as (_ & _ & Hlen & secret & ct & tree & _ & _ & _ & _ & Hlog)
  end.
  exact (conj Hlen Hlog).
Defined.

(** ** Indenting the JSON output *)

(** [encryptDocument] does not read [PrettyJSON]. *)
Lemma encryptDocument_ignores_PrettyJSON env client transitPath keyName jsonContent
    us es ur er pretty emit l :
  encryptDocument env client transitPath keyName jsonContent
    (mkEncryptOpts us es ur er pretty) emit l
  = encryptDocument env client transitPath keyName jsonContent
      (mkEncryptOpts us es ur er false) emit l.
Proof. reflexivity. Qed.

(** X15. [PrettyJSON] changes the layout of a successful result and nothing
    else.  With the flag set, [EncryptToJSON] leaves the same log as without
    it (the same random read, the same request, the same tree encryption),
    panics in the same cases and returns the same error whenever the run
    without the flag returns one.  Where the run without the flag returns a
    document, the run with the flag returns [json.Indent] of that document
    with an empty prefix and two spaces, or, when [json.Indent] fails, the
    empty string with the error "pretty-printing JSON". *)
Theorem EncryptToJSON_pretty_only_formats env client transitPath keyName jsonContent
    us es ur er l :
  let plain := EncryptToJSON env client transitPath keyName jsonContent
                 (mkEncryptOpts us es ur er false) l in
  let pretty := EncryptToJSON env client transitPath keyName jsonContent
                  (mkEncryptOpts us es ur er true) l in
  pretty.2 = plain.2
  /\ (forall msg, plain.1 = Panic msg <-> pretty.1 = Panic msg)
  /\ (forall out e, plain.1 = Ret (out, Some e) -> pretty.1 = Ret (out, Some e))
  /\ (forall out,
        plain.1 = Ret (out, None) ->
        pretty.1
        = Ret match json_Indent env (String.list_byte_of_string out) "" "  " with
              | (_, Some e) => ("", Some (WrapError "pretty-printing JSON" e))
              | (buf, None) => (String.string_of_list_byte buf, None)
              end).
Proof.
  cbv zeta. rewrite !EncryptToJSON_run.
  rewrite (encryptDocument_ignores_PrettyJSON _ _ _ _ _ _ _ _ _ true).
  destruct (encryptDocument _ _ _ _ _ _ _ _) as [[[raw [e|]]|msg] l']; simpl.
  - repeat split; try done.
  - repeat split; try done.
    intros out [= <-].
    by rewrite String.list_byte_of_string_of_list_byte.
  - repeat split; try done.
Qed.

(** The run of the tests, where the stand-in for [json.Indent] returns its
    input. *)
Lemma EncryptToJSON_pretty_only_formats_witness :
  (EncryptToJSON Mock.env Mock.client "transit" "k" Mock.document
     (mkEncryptOpts "" "" "" "" true) []).1
  = Ret ("3.9.0", None).
Proof.
  pose proof (EncryptToJSON_pretty_only_formats Mock.env Mock.client "transit" "k"
                Mock.document "" "" "" "" []) as (_ & _ & _ & Hout).
  rewrite (Hout "3.9.0" eq_refl). reflexivity.
Defined.
